(** * ConsultX backend: message classification and session aggregation

    A shallow embedding of [backend/analysismodel.py] (the lexicon-based
    [SentimentAnalyzer] and the [RiskClassifier]), of
    [backend/session_tracking.py] (the [SessionTracker]) and of the
    request handlers of [backend/api.py], followed by the properties of
    the pipeline.

    Conventions of the embedding:
    - Python [str] is [string]; the text is taken to be ASCII, so that
      [str.lower] only touches the letters A-Z.
    - Python [float] is the rationals [Q]: the arithmetic is exact, and
      [round(x, 3)] is rounding of [1000 * x] to the nearest integer, ties
      to even.  NaN and the infinities appear in [Untyped] only.
    - The answer of the external risk model is taken at the types of its
      contract (a score that [float] converts or rejects with TypeError
      or ValueError, notes that are a list of strings); the module
      [Untyped] embeds the same functions for an answer of any shape.
    - The request handlers of [api.py] start from the parsed URL; the
      module [Wire] puts [urlparse] in front of them.
    - Exceptions are values of [PyExc]; a computation that may raise
      returns an [outcome]; the tracker threads a [World] (the storage
      tables and the clock) through every call and keeps the [World]
      reached at the point where an exception is raised. *)

From Stdlib Require Import QArith ZArith String Ascii List Lia Bool Sorted.
From stdpp Require Import gmap strings list fin_maps.
Import ListNotations.

Local Open Scope string_scope.
Local Open Scope list_scope.

(** ** Enumerations of [models.py] *)

(** Modelled from the spec: the enum [RiskTier] of [models.py] (the file
    is not among the sources), with the members that the code names. *)
Inductive RiskTier := OK | CAUTION | HIGH | CRISIS.

(** Modelled from the spec: the enum [SentimentBand] of [models.py]. *)
Inductive SentimentBand := POSITIVE | NEUTRAL | NEGATIVE.

(** Modelled from the spec: the enum [SenderRole] of [models.py]. *)
Inductive SenderRole := USER | ASSISTANT.

(** Modelled from the spec: the enum [SessionStatus] of [models.py]. *)
Inductive SessionStatus := ACTIVE | ENDED.

#[global] Instance RiskTier_eq_dec : EqDecision RiskTier.
Proof. solve_decision. Defined.
#[global] Instance SentimentBand_eq_dec : EqDecision SentimentBand.
Proof. solve_decision. Defined.
#[global] Instance SenderRole_eq_dec : EqDecision SenderRole.
Proof. solve_decision. Defined.
#[global] Instance SessionStatus_eq_dec : EqDecision SessionStatus.
Proof. solve_decision. Defined.

(** Modelled from the spec: the members of the enum [RiskTier] of
    [models.py], in the order OK < CAUTION < HIGH < CRISIS in which
    [for tier in RiskTier] visits them. *)
Definition RiskTier_members : list RiskTier := [OK; CAUTION; HIGH; CRISIS].

(** Modelled from the spec: the members of the enum [SentimentBand] of
    [models.py]. *)
Definition SentimentBand_members : list SentimentBand :=
  [POSITIVE; NEUTRAL; NEGATIVE].

(** Modelled from the spec: [RiskTier.value], the string carried by each
    member of the enum of [models.py]; taken to be the lower-case labels
    that [_tier_from_label] accepts. *)
Definition RiskTier_value (t : RiskTier) : string :=
  match t with
  | OK => "ok" | CAUTION => "caution" | HIGH => "high" | CRISIS => "crisis"
  end.

(** Modelled from the spec: [SentimentBand.value] of [models.py]. *)
Definition SentimentBand_value (b : SentimentBand) : string :=
  match b with
  | POSITIVE => "positive" | NEUTRAL => "neutral" | NEGATIVE => "negative"
  end.

(** [_RISK_SEVERITY] (and its copy [RISK_SEVERITY] of the tracker). *)
Definition _RISK_SEVERITY (t : RiskTier) : Z :=
  match t with
  | OK => 0 | CAUTION => 1 | HIGH => 2 | CRISIS => 3
  end.

Definition RISK_SEVERITY : RiskTier -> Z := _RISK_SEVERITY.

(** ** Python values used by the code *)

(** [max(a, b)] on numbers: the first argument unless the second is
    strictly greater. *)
Definition py_max (a b : Q) : Q :=
  match (b ?= a)%Q with Gt => b | _ => a end.

(** [min(a, b)]: the first argument unless the second is strictly smaller. *)
Definition py_min (a b : Q) : Q :=
  match (b ?= a)%Q with Lt => b | _ => a end.

(** Rounding to the nearest integer, ties to even. *)
Definition round_half_even (q : Q) : Z :=
  let n := Qnum q in
  let d := Zpos (Qden q) in
  let f := (n / d)%Z in
  match (2 * (n mod d) ?= d)%Z with
  | Lt => f
  | Gt => (f + 1)%Z
  | Eq => if Z.even f then f else (f + 1)%Z
  end.

(** [round(x, 3)]. *)
Definition py_round3 (x : Q) : Q :=
  Qred (round_half_even (x * 1000) # 1000)%Q.

(** Membership of a string in a fixed table ([w in TABLE]). *)
Definition in_table (w : string) (table : list string) : bool :=
  existsb (String.eqb w) table.

(** [str.lower] on ASCII text. *)
Definition lower_char (c : ascii) : ascii :=
  let n := nat_of_ascii c in
  if (65 <=? n)%nat && (n <=? 90)%nat then ascii_of_nat (n + 32) else c.

Fixpoint lower (s : string) : string :=
  match s with
  | EmptyString => EmptyString
  | String c rest => String (lower_char c) (lower rest)
  end.

(** The character class [[a-zA-Z']] of [_WORD_RE]. *)
Definition is_word_char (c : ascii) : bool :=
  let n := nat_of_ascii c in
  ((65 <=? n)%nat && (n <=? 90)%nat)
  || ((97 <=? n)%nat && (n <=? 122)%nat)
  || (n =? 39)%nat.

(** [_WORD_RE.findall]: the maximal runs of word characters, left to
    right; [cur] is the run being read. *)
Fixpoint findall_from (s cur : string) : list string :=
  match s with
  | EmptyString => if String.eqb cur "" then [] else [cur]
  | String c rest =>
      if is_word_char c then findall_from rest (cur +:+ String c "")
      else if String.eqb cur "" then findall_from rest ""
      else cur :: findall_from rest ""
  end.

Definition _WORD_RE_findall (text : string) : list string :=
  findall_from text "".

(** [needle in haystack] on strings. *)
Fixpoint str_contains (haystack needle : string) : bool :=
  String.prefix needle haystack
  || match haystack with
     | EmptyString => false
     | String _ rest => str_contains rest needle
     end.

(** White space removed by [str.strip]. *)
Definition is_space (c : ascii) : bool :=
  let n := nat_of_ascii c in
  ((9 <=? n)%nat && (n <=? 13)%nat) || ((28 <=? n)%nat && (n <=? 32)%nat).

Fixpoint lstrip (s : string) : string :=
  match s with
  | String c rest => if is_space c then lstrip rest else s
  | EmptyString => EmptyString
  end.

Fixpoint rstrip (s : string) : string :=
  match s with
  | EmptyString => EmptyString
  | String c rest =>
      match rstrip rest with
      | EmptyString => if is_space c then EmptyString else String c EmptyString
      | r => String c r
      end
  end.

Definition strip (s : string) : string := rstrip (lstrip s).

(** [set(xs)] then iteration: the distinct elements.  The order in which
    Python visits a set is unspecified; the model visits them in order of
    first insertion, and every result that reaches a caller is sorted. *)
Fixpoint py_set (xs : list string) : list string :=
  match xs with
  | [] => []
  | x :: rest => x :: List.filter (fun y => negb (String.eqb x y)) (py_set rest)
  end.

(** [sorted] on strings, by code point. *)
Fixpoint sorted_insert (x : string) (l : list string) : list string :=
  match l with
  | [] => [x]
  | y :: rest => if String.leb x y then x :: l else y :: sorted_insert x rest
  end.

Definition sorted (l : list string) : list string :=
  fold_right sorted_insert [] l.

(** ** Records of [models.py] *)

(** Modelled from the spec: the dataclass [SentimentResult] of
    [models.py], with the fields that [SentimentAnalyzer.score] fills. *)
Module SentimentResult.
Record t := mk { score : Q; band : SentimentBand; tokens : list string }.
End SentimentResult.

(** Modelled from the spec: the dataclass [RiskAssessment] of [models.py],
    with the fields that [RiskClassifier.assess] fills. *)
Module RiskAssessment.
Record t := mk {
  tier : RiskTier;
  score : Q;
  flagged_keywords : list string;
  notes : list string }.
End RiskAssessment.

(** ** SentimentAnalyzer *)

Definition POSITIVE_WORDS : list string :=
  ["calm"; "hope"; "relief"; "grateful"; "progress"; "better"; "supported";
   "proud"; "strong"; "encouraged"; "improving"; "relaxed"].

Definition NEGATIVE_WORDS : list string :=
  ["sad"; "angry"; "upset"; "anxious"; "stressed"; "scared"; "lonely";
   "hopeless"; "worthless"; "tired"; "empty"; "numb"; "depressed"; "afraid";
   "ashamed"; "guilty"; "fail"; "failure"; "broken"; "hurt"].

Definition NEGATIONS : list string :=
  ["not"; "never"; "no"; "hardly"; "barely"].

(** The loop variables [score], [total] and [matched_tokens]. *)
Record score_acc := mk_acc {
  acc_score : Z;
  acc_total : Z;
  acc_matched : list string }.

(** [enumerate(tokens)], counting from [i]. *)
Fixpoint enumerate_from {A : Type} (i : nat) (l : list A) : list (nat * A) :=
  match l with
  | [] => []
  | x :: rest => (i, x) :: enumerate_from (S i) rest
  end.

Definition enumerate {A : Type} (l : list A) : list (nat * A) :=
  enumerate_from 0 l.

(** [-1 if idx > 0 and tokens[idx - 1] in self.NEGATIONS else 1]. *)
Definition modifier (tokens : list string) (idx : nat) : Z :=
  if (0 <? idx)%nat
     && match tokens !! (idx - 1)%nat with
        | Some prev => in_table prev NEGATIONS
        | None => false
        end
  then (-1)%Z else 1%Z.

(** One turn of the loop of [SentimentAnalyzer.score]. *)
Definition score_step (tokens : list string) (acc : score_acc)
    (item : nat * string) : score_acc :=
  let '(idx, token) := item in
  if in_table token POSITIVE_WORDS then
    mk_acc (acc_score acc + modifier tokens idx) (acc_total acc + 1)
           (acc_matched acc ++ [token])
  else if in_table token NEGATIVE_WORDS then
    mk_acc (acc_score acc - modifier tokens idx) (acc_total acc + 1)
           (acc_matched acc ++ [token])
  else acc.

Definition score_loop (tokens : list string) : score_acc :=
  fold_left (score_step tokens) (enumerate tokens) (mk_acc 0 0 []).

(** The band thresholds, shared by [score] and
    [_sentiment_band_from_score]. *)
Definition _sentiment_band_from_score (score : Q) : SentimentBand :=
  if Qlt_le_dec (1 # 10) score then POSITIVE
  else if Qlt_le_dec score (- (1 # 10)) then NEGATIVE
  else NEUTRAL.

Definition tokenize (text : string) : list string :=
  map lower (_WORD_RE_findall text).

Definition score (text : string) : SentimentResult.t :=
  let tokens := tokenize text in
  let acc := score_loop tokens in
  let normalized : Q :=
    if (acc_total acc =? 0)%Z then 0%Q
    else (inject_Z (acc_score acc) / inject_Z (acc_total acc))%Q in
  let band :=
    if Qlt_le_dec (1 # 10) normalized then POSITIVE
    else if Qlt_le_dec normalized (- (1 # 10)) then NEGATIVE
    else NEUTRAL in
  SentimentResult.mk (py_round3 normalized) band (acc_matched acc).

(** ** Exceptions *)

Inductive ExcKind :=
  | SessionNotFound | SessionClosed
  | KeyError | RuntimeError | TypeError | ValueError | OverflowError
  | OtherException.

Record PyExc := mk_exc { exc_kind : ExcKind; exc_msg : string }.

Inductive outcome (A : Type) : Type :=
  | Return (a : A)
  | Raise (e : PyExc).
Arguments Return {A} a.
Arguments Raise {A} e.

(** ** The external risk model

    The module object bound to [self._rag_module] is the table of its
    callable attributes; a call returns a response or raises. *)

(** What [float(value)] makes of the value stored under ["score"], for
    a value of the contract: a finite number, or a rejection with
    TypeError or ValueError. *)
Inductive float_arg :=
  | FloatOf (q : Q)
  | FloatTypeError
  | FloatValueError.

(** The value stored under ["dimensions"]: a [str], a list or tuple (an
    item that is not a [str] is [None] here), or anything else. *)
Inductive dimensions_value :=
  | DimensionsStr (s : string)
  | DimensionsSeq (items : list (option string))
  | DimensionsOther.

(** The keys that [_rag_assess] reads from a [dict] response; [None] is
    an absent key (or the value [None] for a label); the notes are a
    list of strings. *)
Record raw_dict := mk_raw {
  raw_risk_level : option string;
  raw_tier : option string;
  raw_score : option float_arg;
  raw_dimensions : option dimensions_value;
  raw_dimension : option string;
  raw_notes : list string;
  raw_emotion : option string }.

Inductive rag_response :=
  | RagDict (raw : raw_dict)
  | RagNotADict.

Definition rag_fn : Type := string -> outcome rag_response.
Definition rag_module : Type := list (string * rag_fn).

Fixpoint getattr (rag_mod : rag_module) (name : string) : option rag_fn :=
  match rag_mod with
  | [] => None
  | (n, f) :: rest => if String.eqb n name then Some f else getattr rest name
  end.

(** Truthiness of an optional string: [None] and [""] are false. *)
Definition truthy (v : option string) : bool :=
  match v with
  | Some s => negb (String.eqb s "")
  | None => false
  end.

Definition py_or (a b : option string) : option string :=
  if truthy a then a else b.

Definition _tier_from_label (label : option string) : RiskTier :=
  match label with
  | None => OK
  | Some s =>
      if String.eqb s "" then OK
      else
        let normalized := lower (strip s) in
        if String.eqb normalized "ok" then OK
        else if String.eqb normalized "caution" then CAUTION
        else if String.eqb normalized "high" then HIGH
        else if String.eqb normalized "crisis" then CRISIS
        else OK
  end.

Definition float (value : float_arg) : outcome Q :=
  match value with
  | FloatOf q => Return q
  | FloatTypeError => Raise (mk_exc TypeError "float() argument")
  | FloatValueError => Raise (mk_exc ValueError "could not convert to float")
  end.

Definition _normalize_score (value : float_arg) : Q :=
  match float value with
  | Raise _ => 0%Q
  | Return score =>
      let score := if Qlt_le_dec 1 score then (score / 3)%Q else score in
      py_max 0 (py_min 1 score)
  end.

(** ** RiskClassifier *)

Module RiskAdapter.
Record t := mk {
  __name__ : string;
  call : string -> SentimentResult.t -> outcome (option RiskAssessment.t) }.
End RiskAdapter.

Record RiskClassifier := mk_classifier {
  adapters : list RiskAdapter.t;
  _rag_module : option rag_module }.

Definition add_adapter (self : RiskClassifier) (adapter : RiskAdapter.t)
    : RiskClassifier :=
  mk_classifier (adapters self ++ [adapter]) (_rag_module self).

Definition CRISIS_PHRASES : list string :=
  ["kill myself"; "end my life"; "suicide"; "take my life"; "hurt myself";
   "want to die"; "ending it all"].

Definition HIGH_KEYWORDS : list string :=
  ["cut"; "self-harm"; "jump"; "overdose"; "plan"; "no reason";
   "can't go on"; "die"].

Definition CAUTION_KEYWORDS : list string :=
  ["numb"; "worthless"; "hopeless"; "empty"; "lost"; "alone"; "tired";
   "fail"; "failure"; "break"; "breaking"; "drowning"; "spiral"; "panic";
   "overwhelmed"; "burnout"; "grief"; "insomnia"].

Record resource := mk_resource {
  res_type : string;
  res_label : string;
  res_link : string }.

Definition RESOURCE_MAP : list (string * resource) :=
  [("suicide", mk_resource "hotline" "988 Suicide & Crisis Lifeline" "tel:988");
   ("hurt myself", mk_resource "hotline" "Crisis Text Line" "sms:741741");
   ("hopeless",
    mk_resource "article" "Grounding exercise: 5-4-3-2-1 method"
      "https://www.healthline.com/health/grounding-techniques");
   ("lonely",
    mk_resource "resource" "Mental Health America peer support"
      "https://mhanational.org/peers");
   ("anxious",
    mk_resource "exercise" "Box breathing technique"
      "https://www.va.gov/WHOLEHEALTHLIBRARY/tools/box-breathing.asp");
   ("panic",
    mk_resource "exercise" "Panic attack grounding steps"
      "https://www.verywellmind.com/stop-a-panic-attack-2584406");
   ("overwhelmed",
    mk_resource "article" "Guided journaling prompts for overwhelm"
      "https://www.therapistaid.com/worksheets/coping-skills-anxiety.pdf");
   ("self-harm",
    mk_resource "hotline" "Self-Injury Outreach & Support"
      "https://sioutreach.org/dont-hurt-yourself/");
   ("grief",
    mk_resource "resource" "Grief Share support groups"
      "https://www.griefshare.org/findagroup");
   ("insomnia",
    mk_resource "exercise" "Sleep hygiene checklist"
      "https://www.sleepfoundation.org/sleep-hygiene");
   ("burnout",
    mk_resource "article" "Burnout recovery micro-breaks"
      "https://www.apa.org/topics/burnout/recover")].

Fixpoint dict_get {V : Type} (d : list (string * V)) (key : string)
    : option V :=
  match d with
  | [] => None
  | (k, v) :: rest => if String.eqb k key then Some v else dict_get rest key
  end.

Definition _find_phrases (text : string) (phrases : list string)
    : list string :=
  List.filter (fun phrase => str_contains text phrase) phrases.

Definition _find_keywords (text : string) (keywords : list string)
    : list string :=
  let token_set := _WORD_RE_findall text in
  List.filter
    (fun keyword =>
       if str_contains keyword " " then str_contains text keyword
       else in_table keyword token_set)
    keywords.

Definition _extract_keywords (text : string) : list string :=
  let lowered := lower text in
  _find_phrases lowered CRISIS_PHRASES
  ++ _find_keywords lowered HIGH_KEYWORDS
  ++ _find_keywords lowered CAUTION_KEYWORDS.

Definition _call_rag_fn (rag_mod : rag_module) (text : string)
    : outcome rag_response :=
  match
    list_find (fun name => bool_decide (is_Some (getattr rag_mod name)))
      ["assess"; "analyze"; "analyze_text"; "evaluate"; "predict";
       "classify"; "run"]
  with
  | Some (_, name) =>
      match getattr rag_mod name with
      | Some f => f text
      | None =>
          Raise (mk_exc RuntimeError
                   "RAG risk module is missing a callable entry point.")
      end
  | None =>
      Raise (mk_exc RuntimeError
               "RAG risk module is missing a callable entry point.")
  end.

Definition _rag_assess (self : RiskClassifier) (text : string)
    : outcome (option RiskAssessment.t * list string) :=
  match _rag_module self with
  | None => Return (None, ["RAG risk module unavailable."])
  | Some rag_mod =>
      match _call_rag_fn rag_mod text with
      | Raise exc =>
          Return (None, ["RAG risk module error: " +:+ exc_msg exc])
      | Return RagNotADict =>
          Return (None, ["RAG risk module returned an unexpected response."])
      | Return (RagDict raw) =>
          let tier :=
            _tier_from_label (py_or (raw_risk_level raw) (raw_tier raw)) in
          let score :=
            _normalize_score (default (FloatOf 0) (raw_score raw)) in
          let flagged :=
            match raw_dimensions raw with
            | Some (DimensionsStr d) => [d]
            | Some (DimensionsSeq items) => omap id items
            | _ => []
            end
            ++ match raw_dimension raw with
               | Some d => [d]
               | None => []
               end in
          let notes :=
            List.filter (fun note => negb (String.eqb note "")) (raw_notes raw) in
          let notes :=
            if truthy (raw_emotion raw)
               && negb (existsb (fun n => str_contains n "emotion") notes)
            then notes ++ ["emotion=" +:+ default "" (raw_emotion raw)]
            else notes in
          Return (Some (RiskAssessment.mk tier score flagged notes), [])
      end
  end.

(** The loop variables of [_apply_adapters]. *)
Record adapter_acc := mk_adapter_acc {
  run_tier : RiskTier;
  run_score : Q;
  run_flagged : list string;
  run_notes : list string }.

(** One turn of the loop of [_apply_adapters]. *)
Definition adapter_step (text : string) (sentiment : SentimentResult.t)
    (acc : adapter_acc) (adapter : RiskAdapter.t) : adapter_acc :=
  match RiskAdapter.call adapter text sentiment with
  | Raise exc =>
      mk_adapter_acc (run_tier acc) (run_score acc) (run_flagged acc)
        (run_notes acc
         ++ ["Adapter '" +:+ RiskAdapter.__name__ adapter +:+ "' failed: "
             +:+ exc_msg exc])
  | Return None => acc
  | Return (Some result) =>
      let flagged := run_flagged acc ++ RiskAssessment.flagged_keywords result in
      let escalate :=
        (_RISK_SEVERITY (run_tier acc) <? _RISK_SEVERITY (RiskAssessment.tier result))%Z in
      let tier := if escalate then RiskAssessment.tier result else run_tier acc in
      let notes :=
        if escalate then
          run_notes acc
          ++ ["Adapter '" +:+ RiskAdapter.__name__ adapter
              +:+ "' escalated tier to "
              +:+ RiskTier_value (RiskAssessment.tier result) +:+ "."]
        else run_notes acc in
      let score := py_max (run_score acc) (RiskAssessment.score result) in
      mk_adapter_acc tier score flagged (notes ++ RiskAssessment.notes result)
  end.

Definition _apply_adapters (self : RiskClassifier) (text : string)
    (sentiment : SentimentResult.t) (current_tier : RiskTier)
    (current_score : Q) : adapter_acc :=
  fold_left (adapter_step text sentiment) (adapters self)
    (mk_adapter_acc current_tier current_score [] []).

(** The baseline of [assess]: tier, score, keywords and notes before the
    local keywords and the adapters are added. *)
Definition baseline (rag : option RiskAssessment.t * list string)
    : RiskAssessment.t :=
  match rag with
  | (Some rag_assessment, rag_notes) =>
      RiskAssessment.mk (RiskAssessment.tier rag_assessment)
        (RiskAssessment.score rag_assessment)
        (RiskAssessment.flagged_keywords rag_assessment)
        (RiskAssessment.notes rag_assessment ++ rag_notes)
  | (None, rag_notes) =>
      RiskAssessment.mk OK 0 []
        (match rag_notes with
         | [] => ["RAG risk module unavailable."]
         | _ => rag_notes
         end)
  end.

Definition assess (self : RiskClassifier) (text : string)
    (sentiment : SentimentResult.t) (recent_tiers : list RiskTier)
    : outcome RiskAssessment.t :=
  match _rag_assess self text with
  | Raise exc => Raise exc
  | Return rag =>
      let base := baseline rag in
      let flagged :=
        RiskAssessment.flagged_keywords base ++ _extract_keywords text in
      let acc :=
        _apply_adapters self text sentiment (RiskAssessment.tier base)
          (RiskAssessment.score base) in
      let flagged := flagged ++ run_flagged acc in
      let notes := RiskAssessment.notes base ++ run_notes acc in
      let unique_flagged := sorted (py_set flagged) in
      Return (RiskAssessment.mk (run_tier acc) (py_round3 (run_score acc))
                unique_flagged notes)
  end.

Definition suggest_resources (keywords : list string) (tier : RiskTier)
    : list resource :=
  let suggestions := omap (dict_get RESOURCE_MAP) keywords in
  if bool_decide (tier = HIGH \/ tier = CRISIS)
     && negb (existsb (fun res => String.eqb (res_type res) "hotline")
                suggestions)
  then suggestions
       ++ [mk_resource "hotline" "988 Suicide & Crisis Lifeline" "tel:988"]
  else suggestions.

(** ** The external model without its contract

    The definitions above take the answer of the external model at the
    types of its contract: a score that [float] turns into a finite
    number or rejects with TypeError or ValueError, and notes that are a
    list of strings.  [Untyped] embeds [_normalize_score], [_rag_assess]
    and [assess] for an answer of any shape: [float] may also raise
    OverflowError (an [int] beyond the range of a float) or return NaN or
    an infinity, and the value under "notes" may be one that [for] cannot
    iterate.  [widen_classifier] maps a classifier of the contract to
    the same classifier here, where [assess] agrees with the one above
    (lemma [assess_widen]). *)
Module Untyped.

(** A Python [float]: a finite number, an infinity or NaN. *)
Inductive py_float :=
  | Finite (q : Q)
  | PosInf
  | NegInf
  | NaN.

(** [a < b] on floats: false as soon as one of them is NaN. *)
Definition float_lt (a b : py_float) : bool :=
  match a, b with
  | NaN, _ | _, NaN => false
  | Finite x, Finite y => if Qlt_le_dec x y then true else false
  | Finite _, PosInf => true
  | Finite _, NegInf => false
  | PosInf, _ => false
  | NegInf, NegInf => false
  | NegInf, _ => true
  end.

(** [a / d] for a finite [d] above zero. *)
Definition float_div (a : py_float) (d : Q) : py_float :=
  match a with
  | Finite q => Finite (q / d)
  | other => other
  end.

(** [max(a, b)] on floats: the first argument unless the second is
    strictly greater. *)
Definition float_max (a b : py_float) : py_float :=
  if float_lt a b then b else a.

(** [min(a, b)]: the first argument unless the second is strictly
    smaller. *)
Definition float_min (a b : py_float) : py_float :=
  if float_lt b a then b else a.

(** The number that a finite float is. *)
Definition float_value (x : py_float) : Q :=
  match x with
  | Finite q => q
  | _ => 0%Q
  end.

(** What [float(value)] makes of the value stored under ["score"]. *)
Inductive float_arg :=
  | FloatIs (x : py_float)
  | FloatTypeError
  | FloatValueError
  | FloatOverflowError.

(** The value stored under ["notes"], after [None] and the other false
    values have been replaced by [[]]: a value that [for] iterates, each
    item being [None] when it is false and [str(item)] otherwise, or a
    value that [for] rejects with TypeError, given by the name of its
    type. *)
Inductive notes_value :=
  | NotesItems (items : list (option string))
  | NotesNotIterable (type_name : string).

Record raw_dict := mk_raw {
  raw_risk_level : option string;
  raw_tier : option string;
  raw_score : option float_arg;
  raw_dimensions : option dimensions_value;
  raw_dimension : option string;
  raw_notes : notes_value;
  raw_emotion : option string }.

Inductive rag_response :=
  | RagDict (raw : raw_dict)
  | RagNotADict.

Definition rag_fn : Type := string -> outcome rag_response.
Definition rag_module : Type := list (string * rag_fn).

Fixpoint getattr (rag_mod : rag_module) (name : string) : option rag_fn :=
  match rag_mod with
  | [] => None
  | (n, f) :: rest => if String.eqb n name then Some f else getattr rest name
  end.

Definition float (value : float_arg) : outcome py_float :=
  match value with
  | FloatIs x => Return x
  | FloatTypeError =>
      Raise (mk_exc TypeError
               "float() argument must be a string or a real number")
  | FloatValueError =>
      Raise (mk_exc ValueError "could not convert string to float")
  | FloatOverflowError =>
      Raise (mk_exc OverflowError "int too large to convert to float")
  end.

Definition _normalize_score (value : float_arg) : outcome py_float :=
  match float value with
  | Raise exc =>
      match exc_kind exc with
      | TypeError | ValueError => Return (Finite 0)
      | _ => Raise exc
      end
  | Return score =>
      let score :=
        if float_lt (Finite 1) score then float_div score 3 else score in
      Return (float_max (Finite 0) (float_min (Finite 1) score))
  end.

Record RiskClassifier := mk_classifier {
  adapters : list RiskAdapter.t;
  _rag_module : option rag_module }.

Definition _call_rag_fn (rag_mod : rag_module) (text : string)
    : outcome rag_response :=
  match
    list_find (fun name => bool_decide (is_Some (getattr rag_mod name)))
      ["assess"; "analyze"; "analyze_text"; "evaluate"; "predict";
       "classify"; "run"]
  with
  | Some (_, name) =>
      match getattr rag_mod name with
      | Some f => f text
      | None =>
          Raise (mk_exc RuntimeError
                   "RAG risk module is missing a callable entry point.")
      end
  | None =>
      Raise (mk_exc RuntimeError
               "RAG risk module is missing a callable entry point.")
  end.

(** Only the call of the entry point is inside the [try]; the score and
    the notes are read after it. *)
Definition _rag_assess (self : RiskClassifier) (text : string)
    : outcome (option RiskAssessment.t * list string) :=
  match _rag_module self with
  | None => Return (None, ["RAG risk module unavailable."])
  | Some rag_mod =>
      match _call_rag_fn rag_mod text with
      | Raise exc =>
          Return (None, ["RAG risk module error: " +:+ exc_msg exc])
      | Return RagNotADict =>
          Return (None, ["RAG risk module returned an unexpected response."])
      | Return (RagDict raw) =>
          let tier :=
            _tier_from_label (py_or (raw_risk_level raw) (raw_tier raw)) in
          match
            _normalize_score (default (FloatIs (Finite 0)) (raw_score raw))
          with
          | Raise exc => Raise exc
          | Return score =>
              let flagged :=
                match raw_dimensions raw with
                | Some (DimensionsStr d) => [d]
                | Some (DimensionsSeq items) => omap id items
                | _ => []
                end
                ++ match raw_dimension raw with
                   | Some d => [d]
                   | None => []
                   end in
              match raw_notes raw with
              | NotesNotIterable type_name =>
                  Raise
                    (mk_exc TypeError
                       ("'" +:+ type_name +:+ "' object is not iterable"))
              | NotesItems items =>
                  let notes := omap id items in
                  let notes :=
                    if truthy (raw_emotion raw)
                       && negb (existsb (fun n => str_contains n "emotion")
                                  notes)
                    then notes ++ ["emotion=" +:+ default "" (raw_emotion raw)]
                    else notes in
                  Return
                    (Some
                       (RiskAssessment.mk tier (float_value score) flagged
                          notes),
                     [])
              end
          end
      end
  end.

Definition _apply_adapters (self : RiskClassifier) (text : string)
    (sentiment : SentimentResult.t) (current_tier : RiskTier)
    (current_score : Q) : adapter_acc :=
  fold_left (adapter_step text sentiment) (adapters self)
    (mk_adapter_acc current_tier current_score [] []).

Definition assess (self : RiskClassifier) (text : string)
    (sentiment : SentimentResult.t) (recent_tiers : list RiskTier)
    : outcome RiskAssessment.t :=
  match _rag_assess self text with
  | Raise exc => Raise exc
  | Return rag =>
      let base := baseline rag in
      let flagged :=
        RiskAssessment.flagged_keywords base ++ _extract_keywords text in
      let acc :=
        _apply_adapters self text sentiment (RiskAssessment.tier base)
          (RiskAssessment.score base) in
      let flagged := flagged ++ run_flagged acc in
      let notes := RiskAssessment.notes base ++ run_notes acc in
      let unique_flagged := sorted (py_set flagged) in
      Return (RiskAssessment.mk (run_tier acc) (py_round3 (run_score acc))
                unique_flagged notes)
  end.

End Untyped.

(** A classifier of the contract as a classifier of [Untyped]: a note of
    the list counts as an item unless it is empty. *)
Definition widen_float (value : float_arg) : Untyped.float_arg :=
  match value with
  | FloatOf q => Untyped.FloatIs (Untyped.Finite q)
  | FloatTypeError => Untyped.FloatTypeError
  | FloatValueError => Untyped.FloatValueError
  end.

Definition widen_raw (raw : raw_dict) : Untyped.raw_dict :=
  Untyped.mk_raw (raw_risk_level raw) (raw_tier raw)
    (option_map widen_float (raw_score raw)) (raw_dimensions raw)
    (raw_dimension raw)
    (Untyped.NotesItems
       (map (fun note => if String.eqb note "" then None else Some note)
          (raw_notes raw)))
    (raw_emotion raw).

Definition widen_response (response : rag_response) : Untyped.rag_response :=
  match response with
  | RagDict raw => Untyped.RagDict (widen_raw raw)
  | RagNotADict => Untyped.RagNotADict
  end.

Definition widen_fn (f : rag_fn) : Untyped.rag_fn :=
  fun text =>
    match f text with
    | Return response => Return (widen_response response)
    | Raise exc => Raise exc
    end.

Definition widen_module (rag_mod : rag_module) : Untyped.rag_module :=
  map (fun entry => (fst entry, widen_fn (snd entry))) rag_mod.

Definition widen_classifier (self : RiskClassifier) : Untyped.RiskClassifier :=
  Untyped.mk_classifier (adapters self)
    (option_map widen_module (_rag_module self)).

(** ** Records of the session layer ([models.py]) *)

(** Modelled from the spec: the dataclass [SessionRecord] of [models.py],
    with the fields that [create_session] fills; times are in
    microseconds. *)
Module SessionRecord.
Record t := mk {
  id : string;
  user_id : string;
  status : SessionStatus;
  created_at : Z;
  updated_at : Z;
  active_risk_tier : RiskTier;
  metadata : list (string * string) }.
End SessionRecord.

(** Modelled from the spec: the dataclass [MessageRecord] of [models.py],
    with the fields that [append_message] fills; [id] is [None] until the
    storage assigns it. *)
Module MessageRecord.
Record t := mk {
  id : option nat;
  session_id : string;
  sender : SenderRole;
  content : string;
  sentiment_score : Q;
  risk_tier : RiskTier;
  risk_score : Q;
  flagged_keywords : list string;
  created_at : Z }.
End MessageRecord.

(** Modelled from the spec: the dataclass [BufferSnapshot] of
    [models.py]. *)
Module BufferSnapshot.
Record t := mk {
  session_id : string;
  messages : list MessageRecord.t;
  capacity : nat }.
End BufferSnapshot.

(** Modelled from the spec: the dataclass [SessionMetrics] of
    [models.py], with the fields that [_recalculate_metrics] fills; the
    two dictionaries are keyed by the values of the enums. *)
Module SessionMetrics.
Record t := mk {
  session_id : string;
  message_count : nat;
  user_turns : nat;
  assistant_turns : nat;
  avg_sentiment : Q;
  max_risk_tier : RiskTier;
  tier_counts : gmap string nat;
  band_counts : gmap string nat;
  trend_notes : list string;
  suggested_resources : list resource }.
End SessionMetrics.

(** Modelled from the spec: the dataclass [SessionSummary] of
    [models.py], with the fields that [_build_summary] fills. *)
Module SessionSummary.
Record t := mk {
  session : SessionRecord.t;
  metrics : SessionMetrics.t;
  duration_seconds : Z;
  flagged_keywords : list string;
  notes : list string }.
End SessionSummary.

Module MessageAppendResult.
Record t := mk {
  message : MessageRecord.t;
  risk : RiskAssessment.t;
  buffer : BufferSnapshot.t;
  metrics : SessionMetrics.t }.
End MessageAppendResult.

(** ** The world of the tracker *)

(** Modelled from the spec: the persistence collaborator [SessionStorage]
    of [storage.py] (the file is not among the sources), by its contract
    in section 6 of the spec: one table of sessions, the messages in
    insertion order, one buffer snapshot and one metrics row per session,
    and the next message identity.  The world also counts the readings of
    the clock ([utc_now]) and of the identity generator ([uuid.uuid4])
    made so far. *)
Record World := mk_world {
  sessions : gmap string SessionRecord.t;
  messages : list MessageRecord.t;
  buffers : gmap string BufferSnapshot.t;
  metrics_table : gmap string SessionMetrics.t;
  next_message_id : nat;
  clock_reads : nat;
  uuid_reads : nat }.

Definition empty_world : World := mk_world ∅ [] ∅ ∅ 1 0 0.

(** Computations of the tracker: the world goes in, a result or an
    exception comes out together with the world reached. *)
Definition M (A : Type) : Type := World -> outcome A * World.

Definition ret {A : Type} (a : A) : M A := fun w => (Return a, w).

Definition raise {A : Type} (kind : ExcKind) (msg : string) : M A :=
  fun w => (Raise (mk_exc kind msg), w).

Definition bind {A B : Type} (m : M A) (k : A -> M B) : M B :=
  fun w =>
    match m w with
    | (Return a, w') => k a w'
    | (Raise e, w') => (Raise e, w')
    end.

Definition lift {A : Type} (o : outcome A) : M A := fun w => (o, w).

Declare Scope tracker_scope.
Delimit Scope tracker_scope with tracker.
Notation "x <- m ;; k" := (bind m (fun x => k))
  (at level 100, m at next level, right associativity) : tracker_scope.
Notation "m ;;; k" := (bind m (fun _ => k))
  (at level 100, right associativity) : tracker_scope.

(** [d[key] += 1] on a dictionary of counters. *)
Definition dict_incr (d : gmap string nat) (key : string)
    : outcome (gmap string nat) :=
  match d !! key with
  | Some n => Return (<[key := S n]> d)
  | None => Raise (mk_exc KeyError key)
  end.

(** [d[key]]. *)
Definition dict_item (d : gmap string nat) (key : string) : outcome nat :=
  match d !! key with
  | Some n => Return n
  | None => Raise (mk_exc KeyError key)
  end.

(** [s.update(xs)] on a set of strings. *)
Definition set_update (s xs : list string) : list string := py_set (s ++ xs).

(** [l[-n:]]. *)
Definition last_n {A : Type} (n : nat) (l : list A) : list A :=
  drop (length l - n) l.

Definition obind {A B : Type} (o : outcome A) (k : A -> outcome B)
    : outcome B :=
  match o with
  | Return a => k a
  | Raise e => Raise e
  end.

Record SessionTracker := mk_tracker {
  buffer_size : nat;
  risk_classifier : RiskClassifier }.

(** The variables of the loop over the messages in
    [_recalculate_metrics]. *)
Record tally := mk_tally {
  t_tier_counts : gmap string nat;
  t_band_counts : gmap string nat;
  t_flagged_keywords : list string;
  t_recent_risk : list RiskTier }.

Section Tracker.

(** The [n]-th reading of the clock, in microseconds, and the [n]-th
    identity drawn from [uuid.uuid4]. *)
Variable utc_now_at : nat -> Z.
Variable uuid4_at : nat -> string.

Local Open Scope tracker_scope.

Definition utc_now : M Z := fun w =>
  (Return (utc_now_at (clock_reads w)),
   mk_world (sessions w) (messages w) (buffers w) (metrics_table w)
     (next_message_id w) (S (clock_reads w)) (uuid_reads w)).

Definition uuid4 : M string := fun w =>
  (Return (uuid4_at (uuid_reads w)),
   mk_world (sessions w) (messages w) (buffers w) (metrics_table w)
     (next_message_id w) (clock_reads w) (S (uuid_reads w))).

(** *** Storage operations *)

(** Modelled from the spec: [SessionStorage.create_session]. *)
Definition storage_create_session (session : SessionRecord.t) : M unit :=
  fun w =>
    (Return tt,
     mk_world (<[SessionRecord.id session := session]> (sessions w))
       (messages w) (buffers w) (metrics_table w) (next_message_id w)
       (clock_reads w) (uuid_reads w)).

(** Modelled from the spec: [SessionStorage.get_session], [None] for an
    identity that has no record. *)
Definition storage_get_session (session_id : string)
    : M (option SessionRecord.t) :=
  fun w => (Return (sessions w !! session_id), w).

(** Modelled from the spec: [SessionStorage.update_session(id,
    status=..., active_risk_tier=...)]: the fields given are written and
    [updated_at] is set to the time of the write; nothing is written for
    an identity that has no record. *)
Definition storage_update_session (session_id : string)
    (status : option SessionStatus) (active_risk_tier : option RiskTier)
    : M unit :=
  now <- utc_now ;;
  fun w =>
    (Return tt,
     mk_world
       (alter
          (fun s =>
             SessionRecord.mk (SessionRecord.id s) (SessionRecord.user_id s)
               (default (SessionRecord.status s) status)
               (SessionRecord.created_at s) now
               (default (SessionRecord.active_risk_tier s) active_risk_tier)
               (SessionRecord.metadata s))
          session_id (sessions w))
       (messages w) (buffers w) (metrics_table w) (next_message_id w)
       (clock_reads w) (uuid_reads w)).

(** Modelled from the spec: the messages of a session, in insertion
    order. *)
Definition list_messages_of (session_id : string) (w : World)
    : list MessageRecord.t :=
  List.filter
    (fun m => String.eqb (MessageRecord.session_id m) session_id)
    (messages w).

(** Modelled from the spec: [SessionStorage.list_messages]. *)
Definition storage_list_messages (session_id : string)
    : M (list MessageRecord.t) :=
  fun w => (Return (list_messages_of session_id w), w).

(** Modelled from the spec: [SessionStorage.recent_messages], the most
    recent [n] messages of the session, oldest first. *)
Definition storage_recent_messages (session_id : string) (n : nat)
    : M (list MessageRecord.t) :=
  fun w => (Return (last_n n (list_messages_of session_id w)), w).

(** Modelled from the spec: [SessionStorage.insert_message], which
    assigns the identity and returns the record stored. *)
Definition storage_insert_message (message : MessageRecord.t)
    : M MessageRecord.t :=
  fun w =>
    let saved :=
      MessageRecord.mk (Some (next_message_id w))
        (MessageRecord.session_id message) (MessageRecord.sender message)
        (MessageRecord.content message)
        (MessageRecord.sentiment_score message)
        (MessageRecord.risk_tier message) (MessageRecord.risk_score message)
        (MessageRecord.flagged_keywords message)
        (MessageRecord.created_at message) in
    (Return saved,
     mk_world (sessions w) (messages w ++ [saved]) (buffers w)
       (metrics_table w) (S (next_message_id w)) (clock_reads w)
       (uuid_reads w)).

(** Modelled from the spec: [SessionStorage.save_buffer]. *)
Definition storage_save_buffer (snapshot : BufferSnapshot.t) : M unit :=
  fun w =>
    (Return tt,
     mk_world (sessions w) (messages w)
       (<[BufferSnapshot.session_id snapshot := snapshot]> (buffers w))
       (metrics_table w) (next_message_id w) (clock_reads w) (uuid_reads w)).

(** Modelled from the spec: [SessionStorage.load_buffer]. *)
Definition storage_load_buffer (session_id : string)
    : M (option BufferSnapshot.t) :=
  fun w => (Return (buffers w !! session_id), w).

(** Modelled from the spec: [SessionStorage.upsert_metrics]. *)
Definition storage_upsert_metrics (metrics : SessionMetrics.t) : M unit :=
  fun w =>
    (Return tt,
     mk_world (sessions w) (messages w) (buffers w)
       (<[SessionMetrics.session_id metrics := metrics]> (metrics_table w))
       (next_message_id w) (clock_reads w) (uuid_reads w)).

(** Modelled from the spec: [SessionStorage.get_metrics]. *)
Definition storage_get_metrics (session_id : string)
    : M (option SessionMetrics.t) :=
  fun w => (Return (metrics_table w !! session_id), w).

(** *** SessionTracker *)

Definition create_session (self : SessionTracker) (user_id : string)
    (metadata : list (string * string)) : M SessionRecord.t :=
  id <- uuid4 ;;
  created_at <- utc_now ;;
  updated_at <- utc_now ;;
  let session :=
    SessionRecord.mk id user_id ACTIVE created_at updated_at OK metadata in
  storage_create_session session ;;;
  storage_save_buffer (BufferSnapshot.mk id [] (buffer_size self)) ;;;
  ret session.

Definition get_session (session_id : string) : M SessionRecord.t :=
  session <- storage_get_session session_id ;;
  match session with
  | None =>
      raise SessionNotFound ("Session '" +:+ session_id +:+ "' not found.")
  | Some s => ret s
  end.

Definition _update_buffer (self : SessionTracker) (session_id : string)
    : M BufferSnapshot.t :=
  recent <- storage_recent_messages session_id (buffer_size self) ;;
  let snapshot := BufferSnapshot.mk session_id recent (buffer_size self) in
  storage_save_buffer snapshot ;;;
  ret snapshot.

Definition _collect_flagged_keywords (session_id : string)
    : M (list string) :=
  messages <- storage_list_messages session_id ;;
  let keywords :=
    fold_left
      (fun keywords m => set_update keywords (MessageRecord.flagged_keywords m))
      messages [] in
  ret (sorted keywords).

(** One turn of the loop over the messages. *)
Definition tally_step (acc : outcome tally) (message : MessageRecord.t)
    : outcome tally :=
  obind acc (fun t =>
  obind (dict_incr (t_tier_counts t)
           (RiskTier_value (MessageRecord.risk_tier message)))
    (fun tier_counts =>
  let band :=
    _sentiment_band_from_score (MessageRecord.sentiment_score message) in
  obind (dict_incr (t_band_counts t) (SentimentBand_value band))
    (fun band_counts =>
  Return
    (mk_tally tier_counts band_counts
       (set_update (t_flagged_keywords t)
          (MessageRecord.flagged_keywords message))
       (t_recent_risk t ++ [MessageRecord.risk_tier message]))))).

Definition tally_init : tally :=
  mk_tally
    (fold_left (fun d tier => <[RiskTier_value tier := 0%nat]> d)
       RiskTier_members ∅)
    (fold_left (fun d band => <[SentimentBand_value band := 0%nat]> d)
       SentimentBand_members ∅)
    [] [].

Definition tally_loop (messages : list MessageRecord.t) : outcome tally :=
  fold_left tally_step messages (Return tally_init).

(** One turn of the loop [for tier in RiskTier] that picks
    [max_risk_tier]. *)
Definition max_tier_step (tier_counts : gmap string nat)
    (acc : outcome RiskTier) (tier : RiskTier) : outcome RiskTier :=
  obind acc (fun max_risk_tier =>
  obind (dict_item tier_counts (RiskTier_value tier)) (fun n =>
  Return
    (if negb (n =? 0)%nat
        && (RISK_SEVERITY max_risk_tier <=? RISK_SEVERITY tier)%Z
     then tier else max_risk_tier))).

Definition max_tier_loop (tier_counts : gmap string nat)
    : outcome RiskTier :=
  fold_left (max_tier_step tier_counts) RiskTier_members (Return OK).

Definition elevated (tier : RiskTier) : bool :=
  bool_decide (tier = CAUTION \/ tier = HIGH \/ tier = CRISIS).

(** [len(recent_risk) >= 2 and
    RISK_SEVERITY[recent_risk[-1]] > RISK_SEVERITY[recent_risk[-2]]];
    under the guard both subscripts are in range. *)
Definition climbing (recent_risk : list RiskTier) : bool :=
  (2 <=? length recent_risk)%nat
  && match recent_risk !! (length recent_risk - 1)%nat,
           recent_risk !! (length recent_risk - 2)%nat with
     | Some last, Some before =>
         (RISK_SEVERITY before <? RISK_SEVERITY last)%Z
     | _, _ => false
     end.

Definition trend_notes_of (recent_risk : list RiskTier) (avg_sentiment : Q)
    : list string :=
  match recent_risk with
  | [] => []
  | _ =>
      let last_three := last_n 3 recent_risk in
      (if forallb elevated last_three
       then ["Sustained elevated risk across last three turns."] else [])
      ++ (if climbing recent_risk
          then ["Risk climbing on most recent turn."] else [])
      ++ (if Qlt_le_dec avg_sentiment (- (3 # 10))
          then ["Overall negative sentiment."] else [])
  end.

Definition avg_sentiment_of (messages : list MessageRecord.t) : Q :=
  match messages with
  | [] => 0%Q
  | _ =>
      py_round3
        (fold_left (fun acc m => (acc + MessageRecord.sentiment_score m)%Q)
           messages 0%Q
         / inject_Z (Z.of_nat (length messages)))
  end.

Definition count_sender (role : SenderRole)
    (messages : list MessageRecord.t) : nat :=
  length
    (List.filter (fun m => bool_decide (MessageRecord.sender m = role))
       messages).

Definition _recalculate_metrics (self : SessionTracker)
    (session_id : string) : M (SessionMetrics.t * list string) :=
  messages <- storage_list_messages session_id ;;
  let message_count := length messages in
  let user_turns := count_sender USER messages in
  let assistant_turns := count_sender ASSISTANT messages in
  let avg_sentiment := avg_sentiment_of messages in
  t <- lift (tally_loop messages) ;;
  max_risk_tier <- lift (max_tier_loop (t_tier_counts t)) ;;
  let trend_notes := trend_notes_of (t_recent_risk t) avg_sentiment in
  let suggested_resources :=
    suggest_resources (t_flagged_keywords t) max_risk_tier in
  let metrics :=
    SessionMetrics.mk session_id message_count user_turns assistant_turns
      avg_sentiment max_risk_tier (t_tier_counts t) (t_band_counts t)
      trend_notes suggested_resources in
  storage_upsert_metrics metrics ;;;
  ret (metrics, sorted (t_flagged_keywords t)).

Definition _build_summary (session : SessionRecord.t)
    (metrics : SessionMetrics.t) (flagged_keywords : list string)
    : SessionSummary.t :=
  let duration_seconds :=
    Z.quot
      (Z.max 0
         (SessionRecord.updated_at session
          - SessionRecord.created_at session))
      1000000 in
  let notes :=
    SessionMetrics.trend_notes metrics
    ++ (if bool_decide (SessionRecord.status session = ENDED)
        then ["Session marked as ended."] else []) in
  SessionSummary.mk session metrics duration_seconds flagged_keywords notes.

Definition get_summary (self : SessionTracker) (session_id : string)
    : M SessionSummary.t :=
  session <- get_session session_id ;;
  metrics <- storage_get_metrics session_id ;;
  flagged <- _collect_flagged_keywords session_id ;;
  match metrics with
  | Some metrics => ret (_build_summary session metrics flagged)
  | None =>
      r <- _recalculate_metrics self session_id ;;
      ret (_build_summary session (fst r) (snd r))
  end.

Definition end_session (self : SessionTracker) (session_id : string)
    : M SessionSummary.t :=
  session <- get_session session_id ;;
  if bool_decide (SessionRecord.status session = ENDED) then
    get_summary self session_id
  else
    r <- _recalculate_metrics self session_id ;;
    storage_update_session session_id (Some ENDED)
      (Some (SessionMetrics.max_risk_tier (fst r))) ;;;
    session <- get_session session_id ;;
    ret (_build_summary session (fst r) (snd r)).

Definition append_message (self : SessionTracker) (session_id : string)
    (sender : SenderRole) (content : string) : M MessageAppendResult.t :=
  session <- get_session session_id ;;
  if negb (bool_decide (SessionRecord.status session = ACTIVE)) then
    raise SessionClosed ("Session '" +:+ session_id +:+ "' is not active.")
  else
    let sentiment := score content in
    recent_messages <-
      storage_recent_messages session_id (buffer_size self) ;;
    let recent_tiers := map MessageRecord.risk_tier recent_messages in
    assessment <-
      lift (assess (risk_classifier self) content sentiment recent_tiers) ;;
    created_at <- utc_now ;;
    saved_message <-
      storage_insert_message
        (MessageRecord.mk None session_id sender content
           (SentimentResult.score sentiment)
           (RiskAssessment.tier assessment)
           (RiskAssessment.score assessment)
           (RiskAssessment.flagged_keywords assessment) created_at) ;;
    storage_update_session session_id None
      (Some (RiskAssessment.tier assessment)) ;;;
    buffer <- _update_buffer self session_id ;;
    r <- _recalculate_metrics self session_id ;;
    ret (MessageAppendResult.mk saved_message assessment buffer (fst r)).


Definition get_buffer (self : SessionTracker) (session_id : string)
    : M BufferSnapshot.t :=
  buffer <- storage_load_buffer session_id ;;
  match buffer with
  | Some buffer => ret buffer
  | None =>
      get_session session_id ;;;
      recent <- storage_recent_messages session_id (buffer_size self) ;;
      let snapshot :=
        BufferSnapshot.mk session_id recent (buffer_size self) in
      storage_save_buffer snapshot ;;;
      ret snapshot
  end.

Definition register_risk_adapter (self : SessionTracker)
    (adapter : RiskAdapter.t) : SessionTracker :=
  mk_tracker (buffer_size self)
    (add_adapter (risk_classifier self) adapter).

End Tracker.

(** * Definitions used by the statements *)

(** The lexicon words, and the unit contribution of one when nothing
    negates it. *)
Definition is_lexicon (w : string) : bool :=
  in_table w POSITIVE_WORDS || in_table w NEGATIVE_WORDS.

Definition polarity (w : string) : Z :=
  if in_table w POSITIVE_WORDS then 1
  else if in_table w NEGATIVE_WORDS then (-1) else 0.

(** The sum that the loop of [score] leaves in [score]. *)
Definition loop_score (tokens : list string) : Z :=
  acc_score (score_loop tokens).

(** The same sum read off the token list, carrying the previous token. *)
Fixpoint signed_sum (prev : option string) (tokens : list string) : Z :=
  match tokens with
  | [] => 0
  | w :: rest =>
      (polarity w
       * (if match prev with Some p => in_table p NEGATIONS | None => false end
          then (-1) else 1)
       + signed_sum (Some w) rest)%Z
  end.

(** The assessments that the adapters return for a text: an adapter
    that raises, or returns [None], contributes nothing. *)
Definition adapter_results (text : string) (sentiment : SentimentResult.t)
    (ads : list RiskAdapter.t) : list RiskAssessment.t :=
  omap
    (fun adapter =>
       match RiskAdapter.call adapter text sentiment with
       | Return (Some result) => Some result
       | _ => None
       end)
    ads.

(** A classifier whose external model answers tier "ok" with the score
    0.0004, and no adapter. *)
Definition small_score_classifier : RiskClassifier :=
  mk_classifier []
    (Some
       [("assess",
         fun _ =>
           Return
             (RagDict
                (mk_raw (Some "ok") None (Some (FloatOf (4 # 10000))) None
                   None [] None)))]).

(** The external model is unavailable for a text: there is no module,
    or the call raises, or the answer is not a [dict]. *)
Definition rag_unavailable (rag : option rag_module) (text : string) : bool :=
  match rag with
  | None => true
  | Some rag_mod =>
      match _call_rag_fn rag_mod text with
      | Raise _ => true
      | Return RagNotADict => true
      | Return (RagDict _) => false
      end
  end.

(** The same for a module of [Untyped]. *)
Definition untyped_rag_unavailable (rag : option Untyped.rag_module)
    (text : string) : bool :=
  match rag with
  | None => true
  | Some rag_mod =>
      match Untyped._call_rag_fn rag_mod text with
      | Raise _ => true
      | Return Untyped.RagNotADict => true
      | Return (Untyped.RagDict _) => false
      end
  end.

(** An external model that answers the [dict] with "risk_level" "high"
    and, as "score", the [int] 10 ** 400, which [float] cannot convert;
    and one that answers "risk_level" "high", "score" 2.0 and, as
    "notes", the number 5. *)
Definition overflowing_rag : Untyped.rag_module :=
  [("assess",
    fun _ =>
      Return
        (Untyped.RagDict
           (Untyped.mk_raw (Some "high") None
              (Some Untyped.FloatOverflowError) None None
              (Untyped.NotesItems []) None)))].

Definition unreadable_notes_rag : Untyped.rag_module :=
  [("assess",
    fun _ =>
      Return
        (Untyped.RagDict
           (Untyped.mk_raw (Some "high") None
              (Some (Untyped.FloatIs (Untyped.Finite 2))) None None
              (Untyped.NotesNotIterable "int") None)))].

(** A module of [Untyped] whose entry point raises. *)
Definition untyped_failing_rag : Untyped.rag_module :=
  [("assess", fun _ => Raise (mk_exc OtherException "timeout"))].

(** The note that [_apply_adapters] records for an adapter that raised. *)
Definition adapter_failure_note (adapter : RiskAdapter.t) (exc : PyExc)
    : string :=
  "Adapter '" +:+ RiskAdapter.__name__ adapter +:+ "' failed: "
  +:+ exc_msg exc.

(** An adapter that always raises, one that escalates to HIGH with the
    score 0.9, and a module whose entry point raises. *)
Definition failing_adapter : RiskAdapter.t :=
  RiskAdapter.mk "broken"
    (fun _ _ => Raise (mk_exc OtherException "boom")).

Definition high_adapter : RiskAdapter.t :=
  RiskAdapter.mk "always_high"
    (fun _ _ => Return (Some (RiskAssessment.mk HIGH (9 # 10) ["jump"] []))).

Definition failing_rag : rag_module :=
  [("assess", fun _ => Raise (mk_exc OtherException "timeout"))].

(** An adapter that returns the score 5.0. *)
Definition loud_adapter : RiskAdapter.t :=
  RiskAdapter.mk "loud"
    (fun _ _ => Return (Some (RiskAssessment.mk OK 5 [] []))).

(** [sum(d.values())]. *)
Definition dict_values_sum (d : gmap string nat) : nat :=
  map_fold (fun _ v acc => (v + acc)%nat) 0%nat d.

(** The number of messages of a tier, and of a band. *)
Definition count_tier (tier : RiskTier) (msgs : list MessageRecord.t) : nat :=
  length
    (List.filter (fun m => bool_decide (MessageRecord.risk_tier m = tier))
       msgs).

Definition count_band (band : SentimentBand) (msgs : list MessageRecord.t)
    : nat :=
  length
    (List.filter
       (fun m =>
          bool_decide
            (_sentiment_band_from_score (MessageRecord.sentiment_score m)
             = band))
       msgs).

(** The dictionary with one counter per tier, and per band. *)
Definition tier_dict (f : RiskTier -> nat) : gmap string nat :=
  fold_left (fun d tier => <[RiskTier_value tier := f tier]> d)
    RiskTier_members ∅.

Definition band_dict (f : SentimentBand -> nat) : gmap string nat :=
  fold_left (fun d band => <[SentimentBand_value band := f band]> d)
    SentimentBand_members ∅.

(** The union of the flagged keywords of the messages, as the loops
    build it. *)
Definition flagged_of (msgs : list MessageRecord.t) : list string :=
  fold_left
    (fun keywords m => set_update keywords (MessageRecord.flagged_keywords m))
    msgs [].

(** The most severe tier of a list, OK when the list is empty. *)
Definition highest_tier (tiers : list RiskTier) : RiskTier :=
  fold_right
    (fun tier acc =>
       if (_RISK_SEVERITY acc <? _RISK_SEVERITY tier)%Z then tier else acc)
    OK tiers.

(** The metrics that [_recalculate_metrics] builds from the messages of
    a session. *)
Definition metrics_of (session_id : string) (msgs : list MessageRecord.t)
    : SessionMetrics.t :=
  let tiers := map MessageRecord.risk_tier msgs in
  SessionMetrics.mk session_id (length msgs) (count_sender USER msgs)
    (count_sender ASSISTANT msgs) (avg_sentiment_of msgs)
    (highest_tier tiers)
    (tier_dict (fun tier => count_tier tier msgs))
    (band_dict (fun band => count_band band msgs))
    (trend_notes_of tiers (avg_sentiment_of msgs))
    (suggest_resources (flagged_of msgs) (highest_tier tiers)).

(** The world after [upsert_metrics]. *)
Definition with_metrics (metrics : SessionMetrics.t) (w : World) : World :=
  mk_world (sessions w) (messages w) (buffers w)
    (<[SessionMetrics.session_id metrics := metrics]> (metrics_table w))
    (next_message_id w) (clock_reads w) (uuid_reads w).

(** The record that [update_session] leaves for a session. *)
Definition updated_record (s : SessionRecord.t) (status : option SessionStatus)
    (active_risk_tier : option RiskTier) (now : Z) : SessionRecord.t :=
  SessionRecord.mk (SessionRecord.id s) (SessionRecord.user_id s)
    (default (SessionRecord.status s) status) (SessionRecord.created_at s) now
    (default (SessionRecord.active_risk_tier s) active_risk_tier)
    (SessionRecord.metadata s).

(** The world after [update_session]. *)
Definition with_update (utc_now_at : nat -> Z) (session_id : string)
    (status : option SessionStatus) (active_risk_tier : option RiskTier)
    (w : World) : World :=
  mk_world
    (alter
       (fun s =>
          updated_record s status active_risk_tier
            (utc_now_at (clock_reads w)))
       session_id (sessions w))
    (messages w) (buffers w) (metrics_table w) (next_message_id w)
    (S (clock_reads w)) (uuid_reads w).

(** A clock that advances one second per reading, an identity generator
    that yields "s1", the tracker built with the defaults when the
    external model cannot be loaded, and the world after
    [create_session("u1")]. *)
Definition demo_clock (n : nat) : Z := (Z.of_nat n * 1000000)%Z.
Definition demo_uuid (n : nat) : string := "s1".
Definition default_tracker : SessionTracker :=
  mk_tracker 20 (mk_classifier [] None).
Definition demo_world : World :=
  snd (create_session demo_clock demo_uuid default_tracker "u1" []
         empty_world).

(** The world after a successful [append_message], and what it returns,
    given the assessment [a] of the content. *)
Definition appended (utc_now_at : nat -> Z) (self : SessionTracker)
    (session_id : string) (sender : SenderRole) (content : string)
    (a : RiskAssessment.t) (w : World) : MessageAppendResult.t * World :=
  let saved :=
    MessageRecord.mk (Some (next_message_id w)) session_id sender content
      (SentimentResult.score (score content)) (RiskAssessment.tier a)
      (RiskAssessment.score a) (RiskAssessment.flagged_keywords a)
      (utc_now_at (clock_reads w)) in
  let w2 :=
    mk_world (sessions w) (messages w ++ [saved]) (buffers w)
      (metrics_table w) (S (next_message_id w)) (S (clock_reads w))
      (uuid_reads w) in
  let w3 :=
    with_update utc_now_at session_id None (Some (RiskAssessment.tier a)) w2 in
  let buffer :=
    BufferSnapshot.mk session_id
      (last_n (buffer_size self) (list_messages_of session_id w3))
      (buffer_size self) in
  let w4 :=
    mk_world (sessions w3) (messages w3)
      (<[session_id := buffer]> (buffers w3)) (metrics_table w3)
      (next_message_id w3) (clock_reads w3) (uuid_reads w3) in
  let metrics := metrics_of session_id (list_messages_of session_id w4) in
  (MessageAppendResult.mk saved a buffer metrics, with_metrics metrics w4).

(** The world after one user message in the session "s1". *)
Definition demo_world_one_message : World :=
  snd (append_message demo_clock default_tracker "s1" USER
         "I feel hopeless and empty" demo_world).





(** An external model that answers "caution" for every text, and a
    tracker that uses it. *)
Definition caution_rag : rag_module :=
  [("assess",
    fun _ =>
      Return
        (RagDict
           (mk_raw (Some "caution") None (Some (FloatOf (1 # 2))) None None []
              None)))].

Definition caution_tracker : SessionTracker :=
  mk_tracker 20 (mk_classifier [] (Some caution_rag)).

Definition sustained_note : string :=
  "Sustained elevated risk across last three turns.".

Definition climbing_note : string := "Risk climbing on most recent turn.".



(** ** Definitions used by the further properties *)

(** [all(p(c) for c in s)]. *)
Fixpoint string_forall (p : ascii -> bool) (s : string) : bool :=
  match s with
  | EmptyString => true
  | String c rest => p c && string_forall p rest
  end.

(** A resource of type "hotline". *)
(** A text of ASCII characters only; on such a text [lower] is
    [str.lower]. *)
Definition is_ascii (s : string) : bool :=
  string_forall (fun c => (nat_of_ascii c <? 128)%nat) s.

(** The resource that [suggest_resources] adds for HIGH and CRISIS. *)
Definition default_hotline : resource :=
  mk_resource "hotline" "988 Suicide & Crisis Lifeline" "tel:988".

Definition is_hotline (res : resource) : bool :=
  String.eqb (res_type res) "hotline".

(** The seven names that [_call_rag_fn] tries, in its order. *)
Definition rag_entry_points : list string :=
  ["assess"; "analyze"; "analyze_text"; "evaluate"; "predict"; "classify";
   "run"].

(** The note that [_build_summary] adds for an ended session. *)
Definition ended_note : string := "Session marked as ended.".

(** The stored metrics of every session are those of its messages. *)
Definition metrics_fresh (w : World) : Prop :=
  forall session_id metrics,
    metrics_table w !! session_id = Some metrics ->
    metrics = metrics_of session_id (list_messages_of session_id w).

(** The stored buffer of every session holds the most recent [capacity]
    messages of the session. *)
Definition buffers_fresh (capacity : nat) (w : World) : Prop :=
  forall session_id buffer,
    buffers w !! session_id = Some buffer ->
    buffer
    = BufferSnapshot.mk session_id
        (last_n capacity (list_messages_of session_id w)) capacity.

(** The third trend note of [_recalculate_metrics]. *)
Definition negative_note : string := "Overall negative sentiment.".

(** ** The HTTP controller of [api.py]

    A request is what the handler reads from the connection: the path
    component of the URL as [urlparse] returns it, the first value of each
    query parameter as [parse_qs] returns them, whether the authenticator
    accepts the headers, and the body.  A response is what [_send_json] or
    [_send_error] writes; its body is kept as the records whose [to_dict]
    is serialised. *)

#[global] Instance ExcKind_eq_dec : EqDecision ExcKind.
Proof. solve_decision. Defined.

Inductive HTTPStatus :=
  | HTTP_OK | HTTP_CREATED | HTTP_BAD_REQUEST | HTTP_UNAUTHORIZED
  | HTTP_NOT_FOUND | HTTP_CONFLICT.

(** [HTTPStatus.value]. *)
Definition HTTPStatus_value (st : HTTPStatus) : Z :=
  match st with
  | HTTP_OK => 200 | HTTP_CREATED => 201 | HTTP_BAD_REQUEST => 400
  | HTTP_UNAUTHORIZED => 401 | HTTP_NOT_FOUND => 404 | HTTP_CONFLICT => 409
  end.

(** The fields that the handlers read from a JSON object, at the types
    the API gives them; [None] is an absent key or [null]. *)
Record payload := mk_payload {
  p_user_id : option string;
  p_metadata : option (list (string * string));
  p_sender : option string;
  p_content : option string }.

(** What [json.loads] returns: [null], an object, or another value. *)
Inductive json_value :=
  | JsonNull
  | JsonObject (fields : payload)
  | JsonOther.

(** The body as [_read_json] meets it: a Content-Length that is not a
    number, bytes that are not UTF-8, text that is not JSON, or a JSON
    value (the object [{}] when the length is zero). *)
Inductive request_body :=
  | BodyBadLength
  | BodyNotUtf8
  | BodyMalformed
  | BodyJson (v : json_value).

Record request := mk_request {
  req_path : string;
  req_query : list (string * string);
  req_authenticated : bool;
  req_body : request_body }.

Inductive response_body :=
  | ErrorBody (error : string) (status : Z)
  | CreatedBody (session : SessionRecord.t) (buffer : BufferSnapshot.t)
  | SessionsBody (sessions : list SessionRecord.t)
  | SessionBody (session : SessionRecord.t) (buffer : BufferSnapshot.t)
      (metrics : option SessionMetrics.t)
  | AppendBody (result : MessageAppendResult.t)
  | SummaryBody (summary : SessionSummary.t).

Record response := mk_response {
  resp_status : HTTPStatus;
  resp_headers : list (string * string);
  resp_body : response_body }.

(** [s.split("/")]; [cur] is the piece being read. *)
Fixpoint split_slash (s cur : string) : list string :=
  match s with
  | EmptyString => [cur]
  | String c rest =>
      if Ascii.eqb c "/" then cur :: split_slash rest ""
      else split_slash rest (cur +:+ String c "")
  end.

(** ["/".join(segments)]. *)
Fixpoint join_slash (segments : list string) : string :=
  match segments with
  | [] => ""
  | [x] => x
  | x :: rest => x +:+ "/" +:+ join_slash rest
  end.

(** A string without a slash. *)
Definition slash_free (s : string) : bool :=
  string_forall (fun c => negb (Ascii.eqb c "/")) s.

(** [_path_parts], from the path component of the URL. *)
Definition _path_parts (path : string) : string * list string :=
  let segments :=
    List.filter (fun part => negb (String.eqb part ""))
      (split_slash path "") in
  let normalized :=
    match segments with
    | [] => "/"
    | _ => "/" +:+ join_slash segments
    end in
  (normalized, segments).

Definition _send_json (body : response_body) (status : HTTPStatus)
    : response :=
  mk_response status [] body.

Definition _send_error (status : HTTPStatus) (message : string)
    (extra_headers : list (string * string)) : response :=
  mk_response status extra_headers
    (ErrorBody message (HTTPStatus_value status)).

(** [_read_json]: the error response it has sent, or the value parsed;
    only JSONDecodeError is caught around [raw.decode] and [json.loads]. *)
Definition _read_json (body : request_body)
    : outcome (response + json_value) :=
  match body with
  | BodyBadLength =>
      Return
        (inl (_send_error HTTP_BAD_REQUEST "Invalid Content-Length header." []))
  | BodyNotUtf8 =>
      Raise (mk_exc ValueError "UnicodeDecodeError: invalid start byte")
  | BodyMalformed =>
      Return (inl (_send_error HTTP_BAD_REQUEST "Malformed JSON payload." []))
  | BodyJson v => Return (inr v)
  end.

(** [try: m  except K1 as exc: h1  except K2 as exc: h2]: the first
    clause whose kind is that of the exception handles it. *)
Definition try_except {A : Type} (m : M A)
    (clauses : list (ExcKind * (PyExc -> M A))) : M A :=
  fun w =>
    match m w with
    | (Raise e, w') =>
        match
          List.find (fun clause => bool_decide (exc_kind e = fst clause))
            clauses
        with
        | Some clause => snd clause e w'
        | None => (Raise e, w')
        end
    | done => done
    end.

(** The value of the header that [_ensure_authenticated] adds. *)
Definition www_authenticate : string :=
  "Bearer realm=" +:+ String (ascii_of_nat 34) "ConsultX"
  +:+ String (ascii_of_nat 34) EmptyString.

(** Modelled from the spec: [SessionStorage.list_sessions], the records
    with the given user and status when these are given; the order is the
    storage's. *)
Definition storage_list_sessions (user_id : option string)
    (status : option SessionStatus) : M (list SessionRecord.t) :=
  fun w =>
    (Return
       (List.filter
          (fun s =>
             match user_id with
             | Some u => String.eqb (SessionRecord.user_id s) u
             | None => true
             end
             && match status with
                | Some st => bool_decide (SessionRecord.status s = st)
                | None => true
                end)
          (map snd (map_to_list (sessions w)))),
     w).

Definition list_sessions (user_id : option string)
    (status : option SessionStatus) : M (list SessionRecord.t) :=
  storage_list_sessions user_id status.

Section Api.

(** The tracker and the authenticator that the module builds when it is
    loaded, the clock and the identity generator, and the constructors
    [SenderRole(value)] and [SessionStatus(value)] of the enums of
    [models.py], [None] where they raise ValueError. *)
Variable utc_now_at : nat -> Z.
Variable uuid4_at : nat -> string.
Variable TRACKER : SessionTracker.
Variable AUTH_is_enabled : bool.
Variable SenderRole_of_value : string -> option SenderRole.
Variable SessionStatus_of_value : string -> option SessionStatus.

Local Open Scope tracker_scope.

(** [_ensure_authenticated]: the 401 response it has sent, if any. *)
Definition _ensure_authenticated (req : request) : option response :=
  if negb AUTH_is_enabled then None
  else if req_authenticated req then None
  else
    Some
      (_send_error HTTP_UNAUTHORIZED "Missing or invalid API key."
         [("WWW-Authenticate", www_authenticate)]).

(** A handler returns the response it has sent, [None] when it returns
    without sending one. *)
Definition _create_session (req : request) : M (option response) :=
  parsed <- lift (_read_json (req_body req)) ;;
  match parsed with
  | inl sent => ret (Some sent)
  | inr JsonNull => ret None
  | inr JsonOther =>
      raise OtherException "AttributeError: object has no attribute 'get'"
  | inr (JsonObject payload) =>
      if negb (truthy (p_user_id payload)) then
        ret (Some (_send_error HTTP_BAD_REQUEST "'user_id' is required." []))
      else
        let metadata := default [] (p_metadata payload) in
        session <-
          create_session utc_now_at uuid4_at TRACKER
            (default "" (p_user_id payload)) metadata ;;
        buffer <- get_buffer TRACKER (SessionRecord.id session) ;;
        ret (Some (_send_json (CreatedBody session buffer) HTTP_CREATED))
  end.

Definition _list_sessions (req : request) : M (option response) :=
  let user_id := dict_get (req_query req) "user_id" in
  let status_param := dict_get (req_query req) "status" in
  match
    (if truthy status_param
     then match SessionStatus_of_value (default "" status_param) with
          | Some st => inr (Some st)
          | None =>
              inl (_send_error HTTP_BAD_REQUEST
                     ("Unknown status '" +:+ default "" status_param +:+ "'.")
                     [])
          end
     else inr None)
  with
  | inl sent => ret (Some sent)
  | inr status =>
      found <- list_sessions user_id status ;;
      ret (Some (_send_json (SessionsBody found) HTTP_OK))
  end.

Definition _retrieve_session (session_id : string) : M (option response) :=
  found <-
    try_except
      (session <- get_session session_id ;;
       buffer <- get_buffer TRACKER session_id ;;
       metrics <- storage_get_metrics session_id ;;
       ret (inr (session, buffer, metrics)))
      [(SessionNotFound,
        fun exc => ret (inl (_send_error HTTP_NOT_FOUND (exc_msg exc) [])))] ;;
  match found with
  | inl sent => ret (Some sent)
  | inr (session, buffer, metrics) =>
      ret (Some (_send_json (SessionBody session buffer metrics) HTTP_OK))
  end.

Definition _append_message (req : request) (session_id : string)
    : M (option response) :=
  parsed <- lift (_read_json (req_body req)) ;;
  match parsed with
  | inl sent => ret (Some sent)
  | inr JsonNull => ret None
  | inr JsonOther =>
      raise OtherException "AttributeError: object has no attribute 'get'"
  | inr (JsonObject payload) =>
      if negb (truthy (p_sender payload)) || negb (truthy (p_content payload))
      then
        ret (Some (_send_error HTTP_BAD_REQUEST
                     "'sender' and 'content' are required." []))
      else
        match SenderRole_of_value (default "" (p_sender payload)) with
        | None =>
            ret (Some (_send_error HTTP_BAD_REQUEST
                         ("Invalid sender '" +:+ default "" (p_sender payload)
                          +:+ "'.") []))
        | Some sender =>
            result <-
              try_except
                (result <-
                   append_message utc_now_at TRACKER session_id sender
                     (default "" (p_content payload)) ;;
                 ret (inr result))
                [(SessionNotFound,
                  fun exc =>
                    ret (inl (_send_error HTTP_NOT_FOUND (exc_msg exc) [])));
                 (SessionClosed,
                  fun exc =>
                    ret (inl (_send_error HTTP_CONFLICT (exc_msg exc) [])))] ;;
            match result with
            | inl sent => ret (Some sent)
            | inr result =>
                ret (Some (_send_json (AppendBody result) HTTP_CREATED))
            end
        end
  end.

Definition _end_session (session_id : string) : M (option response) :=
  found <-
    try_except
      (summary <- end_session utc_now_at TRACKER session_id ;;
       ret (inr summary))
      [(SessionNotFound,
        fun exc => ret (inl (_send_error HTTP_NOT_FOUND (exc_msg exc) [])))] ;;
  match found with
  | inl sent => ret (Some sent)
  | inr summary => ret (Some (_send_json (SummaryBody summary) HTTP_OK))
  end.

Definition _get_summary (session_id : string) : M (option response) :=
  found <-
    try_except
      (summary <- get_summary TRACKER session_id ;;
       ret (inr summary))
      [(SessionNotFound,
        fun exc => ret (inl (_send_error HTTP_NOT_FOUND (exc_msg exc) [])))] ;;
  match found with
  | inl sent => ret (Some sent)
  | inr summary => ret (Some (_send_json (SummaryBody summary) HTTP_OK))
  end.

Definition endpoint_not_found : response :=
  _send_error HTTP_NOT_FOUND "Endpoint not found." [].

Definition do_POST (req : request) : M (option response) :=
  let '(path, segments) := _path_parts (req_path req) in
  match _ensure_authenticated req with
  | Some sent => ret (Some sent)
  | None =>
      if String.eqb path "/sessions" && (length segments =? 1)%nat then
        _create_session req
      else
        match segments with
        | first :: session_id :: third :: _ =>
            if String.eqb first "sessions" then
              if (length segments =? 3)%nat && String.eqb third "messages"
              then _append_message req session_id
              else if (length segments =? 3)%nat && String.eqb third "end"
              then _end_session session_id
              else ret (Some endpoint_not_found)
            else ret (Some endpoint_not_found)
        | _ => ret (Some endpoint_not_found)
        end
  end.

Definition do_GET (req : request) : M (option response) :=
  let '(path, segments) := _path_parts (req_path req) in
  match _ensure_authenticated req with
  | Some sent => ret (Some sent)
  | None =>
      if String.eqb path "/sessions" && (length segments =? 1)%nat then
        _list_sessions req
      else
        match segments with
        | first :: session_id :: rest =>
            if String.eqb first "sessions" then
              if (length segments =? 2)%nat then _retrieve_session session_id
              else
                match rest with
                | third :: _ =>
                    if (length segments =? 3)%nat
                       && String.eqb third "summary"
                    then _get_summary session_id
                    else ret (Some endpoint_not_found)
                | [] => ret (Some endpoint_not_found)
                end
            else ret (Some endpoint_not_found)
        | _ => ret (Some endpoint_not_found)
        end
  end.

End Api.

(** The response of [_ensure_authenticated] to a request it rejects. *)
Definition unauthorized_response : response :=
  mk_response HTTP_UNAUTHORIZED [("WWW-Authenticate", www_authenticate)]
    (ErrorBody "Missing or invalid API key." 401).

(** A response of an endpoint: no extra header, and a body of the kind
    that goes with its status. *)
Definition handler_response (r : response) : Prop :=
  resp_headers r = []
  /\ match resp_body r with
     | ErrorBody _ status =>
         status = HTTPStatus_value (resp_status r)
         /\ (resp_status r = HTTP_BAD_REQUEST
             \/ resp_status r = HTTP_NOT_FOUND
             \/ resp_status r = HTTP_CONFLICT)
     | CreatedBody _ _ | AppendBody _ => resp_status r = HTTP_CREATED
     | SessionsBody _ | SessionBody _ _ _ | SummaryBody _ =>
         resp_status r = HTTP_OK
     end.

(** Whether a response reports success, 200 or 201. *)
Definition is_success (r : response) : bool :=
  match resp_status r with
  | HTTP_OK | HTTP_CREATED => true
  | _ => false
  end.

(** A handler whose responses are those of an endpoint, and which leaves
    the world as it was unless it reports success. *)
Definition well_behaved (m : M (option response)) : Prop :=
  forall w out w', m w = (out, w') ->
    match out with
    | Return (Some r) => handler_response r /\ (is_success r = false -> w' = w)
    | _ => w' = w
    end.

(** The messages of SessionNotFound and SessionClosed. *)
Definition not_found_message (session_id : string) : string :=
  "Session '" +:+ session_id +:+ "' not found.".

Definition not_active_message (session_id : string) : string :=
  "Session '" +:+ session_id +:+ "' is not active.".

(** For the examples: enum constructors that read the lower-case names of
    the members, and some requests. *)
Definition demo_sender_role (value : string) : option SenderRole :=
  if String.eqb value "user" then Some USER
  else if String.eqb value "assistant" then Some ASSISTANT
  else None.

Definition demo_session_status (value : string) : option SessionStatus :=
  if String.eqb value "active" then Some ACTIVE
  else if String.eqb value "ended" then Some ENDED
  else None.

Definition create_request (authenticated : bool) : request :=
  mk_request "/sessions" [] authenticated
    (BodyJson (JsonObject (mk_payload (Some "u1") None None None))).

Definition message_request (path : string) : request :=
  mk_request path [] true
    (BodyJson
       (JsonObject
          (mk_payload None None (Some "user")
             (Some "I feel hopeless and empty")))).

Definition bare_request (path : string) : request :=
  mk_request path [] true
    (BodyJson (JsonObject (mk_payload None None None None))).

(** ** The request as it arrives

    [do_POST] and [do_GET] above start from the URL already parsed.  On
    the connection [self.path] is the request target, and [_path_parts]
    gives it to [urlparse] before anything else is done.  [urlparse] is a
    parameter here: it returns the path and the query string of the
    target, or raises ValueError; so is [parse_qs], with the first value
    of each parameter of the query string. *)
Record parsed_url := mk_url {
  url_path : string;
  url_query : string }.

Record connection := mk_connection {
  self_path : string;
  self_authenticated : bool;
  self_body : request_body }.

Module Wire.
Section Connection.

Variable utc_now_at : nat -> Z.
Variable uuid4_at : nat -> string.
Variable TRACKER : SessionTracker.
Variable AUTH_is_enabled : bool.
Variable SenderRole_of_value : string -> option SenderRole.
Variable SessionStatus_of_value : string -> option SessionStatus.
Variable urlparse : string -> outcome parsed_url.
Variable parse_qs : string -> list (string * string).

(** [_path_parts] from [self.path]; the [_path_parts] of the body is the
    one above, on the path that [urlparse] has returned. *)
Definition _path_parts (self : connection) : outcome (string * list string) :=
  match urlparse (self_path self) with
  | Raise exc => Raise exc
  | Return parsed => Return (_path_parts (url_path parsed))
  end.

(** What the handlers above read, once the target is parsed. *)
Definition request_of (self : connection) (parsed : parsed_url) : request :=
  mk_request (url_path parsed) (parse_qs (url_query parsed))
    (self_authenticated self) (self_body self).

(** [do_POST] and [do_GET] from the connection: the first statement,
    [self._path_parts()], raises what [urlparse] raises; the [do_POST]
    and [do_GET] of the bodies are the ones above. *)
Definition do_POST (self : connection) : M (option response) :=
  match urlparse (self_path self) with
  | Raise exc => fun w => (Raise exc, w)
  | Return parsed =>
      do_POST utc_now_at uuid4_at TRACKER AUTH_is_enabled SenderRole_of_value
        (request_of self parsed)
  end.

Definition do_GET (self : connection) : M (option response) :=
  match urlparse (self_path self) with
  | Raise exc => fun w => (Raise exc, w)
  | Return parsed =>
      do_GET TRACKER AUTH_is_enabled SessionStatus_of_value
        (request_of self parsed)
  end.

End Connection.
End Wire.

(** For the examples: a stand-in for [urlparse] that rejects a target
    with a bracket and takes any other target as a path without query,
    and the matching [parse_qs]. *)
Definition demo_urlparse (target : string) : outcome parsed_url :=
  if str_contains target "[" then Raise (mk_exc ValueError "Invalid IPv6 URL")
  else Return (mk_url target "").

Definition demo_parse_qs (query : string) : list (string * string) := [].

(** * Properties *)

(** ** Sentiment: negation *)

Example score_calm :
  score "calm" = SentimentResult.mk 1 POSITIVE ["calm"].
Proof. vm_compute. reflexivity. Qed.

Example score_not_calm :
  score "I am NOT calm." = SentimentResult.mk (-1) NEGATIVE ["calm"].
Proof. vm_compute. reflexivity. Qed.

Lemma in_table_In (w : string) (table : list string) :
  in_table w table = true <-> In w table.
Proof.
  unfold in_table. rewrite existsb_exists. split.
  - intros (x & Hx & Heq). apply String.eqb_eq in Heq. now subst.
  - intros H. exists w. split; [assumption | apply String.eqb_refl].
Qed.

Lemma lexicon_not_negation (w : string) :
  is_lexicon w = true -> in_table w NEGATIONS = false.
Proof.
  unfold is_lexicon. intros H. apply orb_true_iff in H.
  destruct H as [H | H]; apply in_table_In in H; simpl in H;
    repeat (destruct H as [H | H]; [subst w; reflexivity |]); contradiction.
Qed.

Lemma score_step_sum (tokens : list string) (acc : score_acc) (idx : nat)
    (w : string) :
  acc_score (score_step tokens acc (idx, w))
  = (acc_score acc + polarity w * modifier tokens idx)%Z.
Proof.
  unfold score_step, polarity.
  destruct (in_table w POSITIVE_WORDS); [simpl; lia |].
  destruct (in_table w NEGATIVE_WORDS); simpl; lia.
Qed.

Lemma score_fold_sum (tokens rest : list string) :
  forall (i : nat) (acc : score_acc),
    drop i tokens = rest ->
    acc_score (fold_left (score_step tokens) (enumerate_from i rest) acc)
    = (acc_score acc
       + signed_sum (if (0 <? i)%nat then tokens !! (i - 1)%nat else None)
           rest)%Z.
Proof.
  induction rest as [| w rest IH]; intros i acc Hdrop;
    cbn [fold_left enumerate_from signed_sum].
  - lia.
  - assert (Hw : tokens !! i = Some w).
    { rewrite <- (Nat.add_0_r i), <- lookup_drop, Hdrop. reflexivity. }
    rewrite (IH (S i)).
    + rewrite score_step_sum. unfold modifier.
      replace (S i - 1)%nat with i by lia.
      rewrite Hw. simpl (0 <? S i)%nat.
      destruct (0 <? i)%nat; simpl.
      * destruct (tokens !! (i - 1)%nat); lia.
      * lia.
    + pose proof (drop_S tokens w i Hw) as E. rewrite Hdrop in E.
      now injection E.
Qed.

Lemma loop_score_signed_sum (tokens : list string) :
  loop_score tokens = signed_sum None tokens.
Proof.
  unfold loop_score, score_loop, enumerate.
  rewrite (score_fold_sum tokens tokens 0); [reflexivity | apply drop_0].
Qed.

Lemma signed_sum_app (a b : list string) :
  forall prev,
    signed_sum prev (a ++ b)
    = (signed_sum prev a + signed_sum (from_option Some prev (last a)) b)%Z.
Proof.
  induction a as [| x a IH]; intros prev; simpl.
  - reflexivity.
  - rewrite IH. destruct a as [| y a]; [simpl; lia |].
    change (last (x :: y :: a)) with (last (y :: a)).
    destruct (last (y :: a)) eqn:E; [simpl; lia |].
    apply last_None in E. discriminate.
Qed.

Lemma signed_sum_prev_plain (w : string) (tokens : list string) :
  in_table w NEGATIONS = false ->
  signed_sum (Some w) tokens = signed_sum None tokens.
Proof.
  intros H. destruct tokens; cbn [signed_sum]; [reflexivity | now rewrite H].
Qed.

(** C4.  In [SentimentAnalyzer.score] a lexicon word [w] contributes one
    unit, [+1] or [-1]; after a token [p] it contributes that unit with the
    sign inverted exactly when [p] is a negation, whatever comes before [p]
    (negation looks one token back); at position 0 nothing precedes it and
    it contributes its own unit, whatever follows; "not calm" scores [-1],
    band NEGATIVE, and "calm" scores [1], band POSITIVE. *)
Theorem score_negation_inverts_sign (pre post : list string) (p w : string) :
  is_lexicon w = true ->
  loop_score (pre ++ p :: w :: post)
  = (loop_score (pre ++ [p])
     + (if in_table p NEGATIONS then - polarity w else polarity w)
     + loop_score post)%Z
  /\ loop_score (w :: post) = (polarity w + loop_score post)%Z
  /\ (polarity w = 1%Z \/ polarity w = (-1)%Z)
  /\ score "not calm" = SentimentResult.mk (-1) NEGATIVE ["calm"]
  /\ score "calm" = SentimentResult.mk 1 POSITIVE ["calm"].
Proof.
  intros Hw. pose proof (lexicon_not_negation w Hw) as Hneg.
  split; [| split; [| split; [| split]]].
  - rewrite !loop_score_signed_sum.
    replace (pre ++ p :: w :: post) with ((pre ++ [p]) ++ w :: post)
      by (rewrite <- app_assoc; reflexivity).
    rewrite signed_sum_app, last_snoc. cbn [signed_sum from_option].
    rewrite (signed_sum_prev_plain w post Hneg).
    destruct (in_table p NEGATIONS); lia.
  - rewrite !loop_score_signed_sum. cbn [signed_sum].
    rewrite (signed_sum_prev_plain w post Hneg). lia.
  - unfold is_lexicon in Hw. unfold polarity.
    destruct (in_table w POSITIVE_WORDS); [now left |].
    destruct (in_table w NEGATIVE_WORDS); [now right | discriminate].
  - vm_compute. reflexivity.
  - vm_compute. reflexivity.
Qed.

Lemma score_negation_inverts_sign_witness :
  loop_score ([] ++ "not" :: "calm" :: [])
  = (loop_score ([] ++ ["not"])
     + (if in_table "not" NEGATIONS then - polarity "calm" else polarity "calm")
     + loop_score [])%Z.
Proof.
  apply (score_negation_inverts_sign [] [] "not" "calm"). reflexivity.
Defined.

(** ** Risk classifier: escalation *)

Lemma py_max_cases (a b : Q) : py_max a b = a \/ py_max a b = b.
Proof. unfold py_max. destruct (b ?= a)%Q; auto. Qed.

Lemma py_max_ge_l (a b : Q) : (a <= py_max a b)%Q.
Proof.
  unfold py_max. destruct (b ?= a)%Q eqn:E.
  - apply Qle_refl.
  - apply Qle_refl.
  - apply Qgt_alt in E. now apply Qlt_le_weak.
Qed.

Lemma py_max_ge_r (a b : Q) : (b <= py_max a b)%Q.
Proof.
  unfold py_max. destruct (b ?= a)%Q eqn:E.
  - apply Qeq_alt in E. rewrite E. apply Qle_refl.
  - apply Qlt_alt in E. now apply Qlt_le_weak.
  - apply Qle_refl.
Qed.

Lemma adapter_step_tier_mono (text : string) (sentiment : SentimentResult.t)
    (acc : adapter_acc) (adapter : RiskAdapter.t) :
  (_RISK_SEVERITY (run_tier acc)
   <= _RISK_SEVERITY (run_tier (adapter_step text sentiment acc adapter)))%Z.
Proof.
  unfold adapter_step.
  destruct (RiskAdapter.call adapter text sentiment) as [[result |] | exc];
    simpl; try lia.
  destruct (Z.ltb_spec (_RISK_SEVERITY (run_tier acc))
              (_RISK_SEVERITY (RiskAssessment.tier result))); lia.
Qed.

Lemma adapter_results_cons (text : string) (sentiment : SentimentResult.t)
    (a : RiskAdapter.t) (ads : list RiskAdapter.t) :
  adapter_results text sentiment (a :: ads)
  = match RiskAdapter.call a text sentiment with
    | Return (Some result) => result :: adapter_results text sentiment ads
    | _ => adapter_results text sentiment ads
    end.
Proof.
  unfold adapter_results. simpl.
  destruct (RiskAdapter.call a text sentiment) as [[result |] | exc];
    reflexivity.
Qed.

(** The running tier after the loop is one of the tiers seen and is at
    least as severe as each of them. *)
Lemma apply_adapters_tier (text : string) (sentiment : SentimentResult.t)
    (ads : list RiskAdapter.t) :
  forall acc : adapter_acc,
    let final := fold_left (adapter_step text sentiment) ads acc in
    let tiers :=
      run_tier acc
      :: map RiskAssessment.tier (adapter_results text sentiment ads) in
    In (run_tier final) tiers
    /\ (forall t, In t tiers ->
          (_RISK_SEVERITY t <= _RISK_SEVERITY (run_tier final))%Z).
Proof.
  induction ads as [| a ads IH]; intros acc; cbn zeta.
  - cbn [fold_left]. change (adapter_results text sentiment []) with (@nil RiskAssessment.t).
    cbn [map In]. split; [now left |].
    intros t [<- | []]. lia.
  - cbn [fold_left]. rewrite adapter_results_cons. specialize (IH (adapter_step text sentiment acc a)).
    cbn zeta in IH. destruct IH as [Hin Hmax].
    pose proof (adapter_step_tier_mono text sentiment acc a) as Hmono.
    set (final := fold_left (adapter_step text sentiment) ads
                    (adapter_step text sentiment acc a)) in *.
    assert (Hstep :
      run_tier (adapter_step text sentiment acc a) = run_tier acc
      \/ exists result,
           RiskAdapter.call a text sentiment = Return (Some result)
           /\ run_tier (adapter_step text sentiment acc a)
              = RiskAssessment.tier result).
    { unfold adapter_step.
      destruct (RiskAdapter.call a text sentiment) as [[result |] | exc];
        cbn [run_tier]; auto.
      destruct (_RISK_SEVERITY (run_tier acc)
                <? _RISK_SEVERITY (RiskAssessment.tier result))%Z; eauto. }
    assert (Hres :
      forall result,
        RiskAdapter.call a text sentiment = Return (Some result) ->
        (_RISK_SEVERITY (RiskAssessment.tier result)
         <= _RISK_SEVERITY (run_tier (adapter_step text sentiment acc a)))%Z).
    { intros result Hcall. unfold adapter_step. rewrite Hcall. cbn [run_tier].
      destruct (Z.ltb_spec (_RISK_SEVERITY (run_tier acc))
                  (_RISK_SEVERITY (RiskAssessment.tier result))); lia. }
    pose proof (Hmax _ (or_introl eq_refl)) as Hfinal.
    split.
    + destruct Hin as [Hin | Hin].
      * destruct Hstep as [Hs | (result & Hcall & Hs)].
        -- left. congruence.
        -- right. rewrite Hcall. cbn [map In]. left. congruence.
      * right.
        destruct (RiskAdapter.call a text sentiment) as [[result |] | exc];
          cbn [map In]; auto.
    + intros t [<- | Ht]; [lia |].
      destruct (RiskAdapter.call a text sentiment) as [[result |] | exc] eqn:E;
        cbn [map In] in Ht.
      * destruct Ht as [<- | Ht].
        -- specialize (Hres result eq_refl). lia.
        -- apply Hmax. now right.
      * apply Hmax. now right.
      * apply Hmax. now right.
Qed.

(** The running score after the loop is one of the scores seen and is at
    least each of them. *)
Lemma apply_adapters_score (text : string) (sentiment : SentimentResult.t)
    (ads : list RiskAdapter.t) :
  forall acc : adapter_acc,
    let final := fold_left (adapter_step text sentiment) ads acc in
    let scores :=
      run_score acc
      :: map RiskAssessment.score (adapter_results text sentiment ads) in
    In (run_score final) scores
    /\ (forall s, In s scores -> (s <= run_score final)%Q).
Proof.
  induction ads as [| a ads IH]; intros acc; cbn zeta.
  - cbn [fold_left].
    change (adapter_results text sentiment []) with (@nil RiskAssessment.t).
    cbn [map In]. split; [now left |].
    intros s [<- | []]. apply Qle_refl.
  - cbn [fold_left]. rewrite adapter_results_cons.
    specialize (IH (adapter_step text sentiment acc a)).
    cbn zeta in IH. destruct IH as [Hin Hmax].
    set (final := fold_left (adapter_step text sentiment) ads
                    (adapter_step text sentiment acc a)) in *.
    pose proof (Hmax _ (or_introl eq_refl)) as Hfinal.
    revert Hin Hmax Hfinal. unfold adapter_step at 1 2 3.
    destruct (RiskAdapter.call a text sentiment) as [[result |] | exc];
      cbn [run_score map In]; intros Hin Hmax Hfinal.
    + split.
      * destruct Hin as [Hin | Hin]; [| now right; right].
        destruct (py_max_cases (run_score acc) (RiskAssessment.score result))
          as [E | E]; rewrite E in Hin; auto.
      * intros s [<- | [<- | Hs]].
        -- eapply Qle_trans; [apply py_max_ge_l | exact Hfinal].
        -- eapply Qle_trans; [apply py_max_ge_r | exact Hfinal].
        -- apply Hmax. now right.
    + split; assumption.
    + split; assumption.
Qed.

Lemma rag_assess_returns (self : RiskClassifier) (text : string) :
  exists rag, _rag_assess self text = Return rag.
Proof.
  unfold _rag_assess. destruct (_rag_module self) as [rag_mod |]; [| eauto].
  destruct (_call_rag_fn rag_mod text) as [[raw |] | exc]; eauto.
Qed.

Lemma assess_unfold (self : RiskClassifier) (text : string)
    (sentiment : SentimentResult.t) (recent_tiers : list RiskTier)
    (rag : option RiskAssessment.t * list string) :
  _rag_assess self text = Return rag ->
  assess self text sentiment recent_tiers
  = let base := baseline rag in
    let acc :=
      _apply_adapters self text sentiment (RiskAssessment.tier base)
        (RiskAssessment.score base) in
    Return
      (RiskAssessment.mk (run_tier acc) (py_round3 (run_score acc))
         (sorted
            (py_set
               ((RiskAssessment.flagged_keywords base
                 ++ _extract_keywords text)
                ++ run_flagged acc)))
         (RiskAssessment.notes base ++ run_notes acc)).
Proof. intros H. unfold assess. rewrite H. reflexivity. Qed.

(** C2 (as amended).  [assess] returns; the tier it returns is one of the
    baseline tier and the tiers that the adapters returned, and is at
    least as severe as each of them; no turn of the adapter loop lowers
    the running tier; the score it returns is [round(m, 3)] for [m] the
    largest of the baseline score and the scores that the adapters
    returned. *)
Theorem assess_tier_is_max_and_score_is_rounded_max
    (self : RiskClassifier) (text : string) (sentiment : SentimentResult.t)
    (recent_tiers : list RiskTier) :
  exists rag result,
    _rag_assess self text = Return rag
    /\ assess self text sentiment recent_tiers = Return result
    /\ (let tiers :=
          RiskAssessment.tier (baseline rag)
          :: map RiskAssessment.tier
               (adapter_results text sentiment (adapters self)) in
        In (RiskAssessment.tier result) tiers
        /\ forall t, In t tiers ->
             (_RISK_SEVERITY t
              <= _RISK_SEVERITY (RiskAssessment.tier result))%Z)
    /\ (forall acc adapter,
          (_RISK_SEVERITY (run_tier acc)
           <= _RISK_SEVERITY
                (run_tier (adapter_step text sentiment acc adapter)))%Z)
    /\ (let scores :=
          RiskAssessment.score (baseline rag)
          :: map RiskAssessment.score
               (adapter_results text sentiment (adapters self)) in
        exists m,
          In m scores
          /\ (forall s, In s scores -> (s <= m)%Q)
          /\ RiskAssessment.score result = py_round3 m).
Proof.
  destruct (rag_assess_returns self text) as [rag Hrag].
  exists rag. eexists. split; [exact Hrag |].
  split; [apply (assess_unfold _ _ _ _ _ Hrag) |].
  cbn zeta. cbn [RiskAssessment.tier RiskAssessment.score].
  unfold _apply_adapters.
  split; [| split].
  - apply (apply_adapters_tier text sentiment (adapters self)
             (mk_adapter_acc _ _ [] [])).
  - intros acc adapter. apply adapter_step_tier_mono.
  - eexists. 
    destruct (apply_adapters_score text sentiment (adapters self)
                (mk_adapter_acc (RiskAssessment.tier (baseline rag))
                   (RiskAssessment.score (baseline rag)) [] []))
      as [Hin Hmax].
    split; [exact Hin |]. split; [exact Hmax | reflexivity].
Qed.

(** C2, counterexample to the claim as stated: with the baseline score
    0.0004 and no adapter, the largest score is 0.0004 but [assess]
    returns 0.0. *)
Lemma assess_score_is_not_the_max :
  exists rag result,
    _rag_assess small_score_classifier "hello" = Return rag
    /\ adapter_results "hello" (score "hello")
         (adapters small_score_classifier) = []
    /\ RiskAssessment.score (baseline rag) = (4 # 10000)%Q
    /\ assess small_score_classifier "hello" (score "hello") []
       = Return result
    /\ RiskAssessment.score result = 0%Q
    /\ ~ (RiskAssessment.score result == 4 # 10000)%Q.
Proof.
  eexists. eexists.
  split; [vm_compute; reflexivity |].
  split; [reflexivity |].
  split; [reflexivity |].
  split; [vm_compute; reflexivity |].
  split; [reflexivity |].
  cbn [RiskAssessment.score]. intros H. discriminate H.
Qed.

(** ** Risk classifier: failures of the collaborators *)

Lemma adapter_step_raise (text : string) (sentiment : SentimentResult.t)
    (acc : adapter_acc) (a : RiskAdapter.t) (exc : PyExc) :
  RiskAdapter.call a text sentiment = Raise exc ->
  adapter_step text sentiment acc a
  = mk_adapter_acc (run_tier acc) (run_score acc) (run_flagged acc)
      (run_notes acc ++ [adapter_failure_note a exc]).
Proof. intros H. unfold adapter_step. rewrite H. reflexivity. Qed.

(** What a turn of the loop does to the tier, the score and the keywords,
    and the notes it adds, do not depend on the notes so far. *)
Lemma adapter_step_notes (text : string) (sentiment : SentimentResult.t)
    (a : RiskAdapter.t) (t : RiskTier) (s : Q) (f : list string) :
  exists t' s' f' added,
    forall n,
      adapter_step text sentiment (mk_adapter_acc t s f n) a
      = mk_adapter_acc t' s' f' (n ++ added).
Proof.
  unfold adapter_step. cbn [run_tier run_score run_flagged run_notes].
  destruct (RiskAdapter.call a text sentiment) as [[result |] | exc].
  - destruct (_RISK_SEVERITY t <? _RISK_SEVERITY (RiskAssessment.tier result))%Z;
      do 3 eexists; eexists; intros n; rewrite <- ?app_assoc; reflexivity.
  - exists t, s, f, []. intros n. now rewrite app_nil_r.
  - do 3 eexists; eexists; intros n; reflexivity.
Qed.

Lemma adapter_fold_notes (text : string) (sentiment : SentimentResult.t)
    (ads : list RiskAdapter.t) :
  forall (t : RiskTier) (s : Q) (f n1 n2 : list string),
    let plain := fold_left (adapter_step text sentiment) ads
                   (mk_adapter_acc t s f n1) in
    let noted := fold_left (adapter_step text sentiment) ads
                   (mk_adapter_acc t s f n2) in
    run_tier noted = run_tier plain
    /\ run_score noted = run_score plain
    /\ run_flagged noted = run_flagged plain
    /\ exists rest,
         run_notes plain = n1 ++ rest /\ run_notes noted = n2 ++ rest.
Proof.
  induction ads as [| a ads IH]; intros t s f n1 n2; cbn zeta.
  - cbn [fold_left run_tier run_score run_flagged run_notes].
    repeat split. exists []. now rewrite !app_nil_r.
  - cbn [fold_left].
    destruct (adapter_step_notes text sentiment a t s f)
      as (t' & s' & f' & added & Hstep).
    rewrite !Hstep.
    destruct (IH t' s' f' (n1 ++ added) (n2 ++ added))
      as (Ht & Hs & Hf & rest & Hp & Hn).
    repeat split; try assumption.
    exists (added ++ rest). rewrite !app_assoc. split; assumption.
Qed.

(** *** The classifier of the contract inside [Untyped] *)

Lemma float_min_finite (a b : Q) :
  Untyped.float_min (Untyped.Finite a) (Untyped.Finite b)
  = Untyped.Finite (py_min a b).
Proof.
  unfold Untyped.float_min, Untyped.float_lt, py_min.
  destruct (Qlt_le_dec b a) as [Hlt | Hle];
    destruct (b ?= a)%Q eqn:E; try reflexivity; exfalso.
  - apply Qeq_alt in E. rewrite E in Hlt. apply (Qlt_irrefl _ Hlt).
  - apply Qgt_alt in E. apply (Qlt_irrefl a). now apply Qlt_trans with b.
  - apply Qlt_alt in E. apply (Qlt_not_le _ _ E Hle).
Qed.

Lemma float_max_finite (a b : Q) :
  Untyped.float_max (Untyped.Finite a) (Untyped.Finite b)
  = Untyped.Finite (py_max a b).
Proof.
  unfold Untyped.float_max, Untyped.float_lt, py_max.
  destruct (Qlt_le_dec a b) as [Hlt | Hle];
    destruct (b ?= a)%Q eqn:E; try reflexivity; exfalso.
  - apply Qeq_alt in E. rewrite E in Hlt. apply (Qlt_irrefl _ Hlt).
  - apply Qlt_alt in E. apply (Qlt_irrefl a). now apply Qlt_trans with b.
  - apply Qgt_alt in E. apply (Qlt_not_le _ _ E Hle).
Qed.

Lemma normalize_score_widen (value : float_arg) :
  Untyped._normalize_score (widen_float value)
  = Return (Untyped.Finite (_normalize_score value)).
Proof.
  destruct value as [q | |]; try reflexivity.
  unfold Untyped._normalize_score, _normalize_score.
  cbn [widen_float Untyped.float float Untyped.float_lt].
  destruct (Qlt_le_dec 1 q); cbn [Untyped.float_div];
    now rewrite float_min_finite, float_max_finite.
Qed.

Lemma getattr_widen (rag_mod : rag_module) (name : string) :
  Untyped.getattr (widen_module rag_mod) name
  = option_map widen_fn (getattr rag_mod name).
Proof.
  induction rag_mod as [| [n f] rest IH]; [reflexivity |].
  cbn [widen_module map fst snd Untyped.getattr getattr].
  destruct (String.eqb n name); [reflexivity | exact IH].
Qed.

Lemma call_rag_fn_widen (rag_mod : rag_module) (text : string) :
  Untyped._call_rag_fn (widen_module rag_mod) text
  = match _call_rag_fn rag_mod text with
    | Return response => Return (widen_response response)
    | Raise exc => Raise exc
    end.
Proof.
  unfold Untyped._call_rag_fn, _call_rag_fn.
  assert (Hfind :
    forall names,
      list_find
        (fun name =>
           bool_decide (is_Some (Untyped.getattr (widen_module rag_mod) name)))
        names
      = list_find (fun name => bool_decide (is_Some (getattr rag_mod name)))
          names).
  { intros names. apply list_find_ext. intros name.
    rewrite getattr_widen.
    destruct (getattr rag_mod name); cbn [option_map].
    - rewrite !bool_decide_eq_true_2 by eauto. tauto.
    - rewrite !bool_decide_eq_false_2 by (intros [? H]; discriminate H).
      tauto. }
  rewrite Hfind.
  destruct (list_find _ _) as [[i name] |]; [| reflexivity].
  rewrite getattr_widen.
  destruct (getattr rag_mod name) as [f |]; reflexivity.
Qed.

Lemma notes_widen (notes : list string) :
  omap id
    (map (fun note => if String.eqb note "" then None else Some note) notes)
  = List.filter (fun note => negb (String.eqb note "")) notes.
Proof.
  induction notes as [| n notes IH]; [reflexivity |].
  cbn [map omap list_omap List.filter].
  destruct (String.eqb n ""); cbn [id negb]; now rewrite <- IH.
Qed.

Lemma rag_assess_widen (self : RiskClassifier) (text : string) :
  Untyped._rag_assess (widen_classifier self) text = _rag_assess self text.
Proof.
  unfold Untyped._rag_assess, _rag_assess.
  cbn [widen_classifier Untyped._rag_module].
  destruct (_rag_module self) as [rag_mod |]; [| reflexivity].
  cbn [option_map]. rewrite call_rag_fn_widen.
  destruct (_call_rag_fn rag_mod text) as [[raw |] | exc]; try reflexivity.
  cbn [widen_response widen_raw Untyped.raw_risk_level Untyped.raw_tier
       Untyped.raw_score Untyped.raw_dimensions Untyped.raw_dimension
       Untyped.raw_notes Untyped.raw_emotion].
  assert (Hscore :
    Untyped._normalize_score
      (default (Untyped.FloatIs (Untyped.Finite 0))
         (option_map widen_float (raw_score raw)))
    = Return
        (Untyped.Finite (_normalize_score (default (FloatOf 0) (raw_score raw))))).
  { destruct (raw_score raw) as [value |]; cbn [option_map default].
    - apply normalize_score_widen.
    - apply (normalize_score_widen (FloatOf 0)). }
  rewrite Hscore, notes_widen. reflexivity.
Qed.

(** On a classifier of the contract, [Untyped.assess] is [assess]. *)
Lemma assess_widen (self : RiskClassifier) (text : string)
    (sentiment : SentimentResult.t) (recent_tiers : list RiskTier) :
  Untyped.assess (widen_classifier self) text sentiment recent_tiers
  = assess self text sentiment recent_tiers.
Proof.
  unfold Untyped.assess, assess. now rewrite rag_assess_widen.
Qed.

(** *** What [assess] absorbs, and what it does not *)

Lemma untyped_assess_unfold (self : Untyped.RiskClassifier) (text : string)
    (sentiment : SentimentResult.t) (recent_tiers : list RiskTier)
    (rag : option RiskAssessment.t * list string) :
  Untyped._rag_assess self text = Return rag ->
  Untyped.assess self text sentiment recent_tiers
  = let base := baseline rag in
    let acc :=
      fold_left (adapter_step text sentiment) (Untyped.adapters self)
        (mk_adapter_acc (RiskAssessment.tier base) (RiskAssessment.score base)
           [] []) in
    Return
      (RiskAssessment.mk (run_tier acc) (py_round3 (run_score acc))
         (sorted
            (py_set
               ((RiskAssessment.flagged_keywords base
                 ++ _extract_keywords text)
                ++ run_flagged acc)))
         (RiskAssessment.notes base ++ run_notes acc)).
Proof. intros H. unfold Untyped.assess. now rewrite H. Qed.

(** The failures that the claim lists are absorbed.  When the external
    model is missing, raises or answers something that is not a [dict],
    [assess] returns, from the baseline OK, 0.0 with one diagnostic note,
    whatever the adapters do.  An adapter that raises never makes
    [assess] raise: when [assess] returns without that adapter it returns
    with it, with the same tier, score and keywords and a note that names
    the adapter, so the adapters after it are still invoked; and what
    [assess] raises without it, it raises with it. *)
Lemma assess_absorbs_listed_failures
    (rag : option Untyped.rag_module) (pre post : list RiskAdapter.t)
    (a : RiskAdapter.t) (text : string) (sentiment : SentimentResult.t)
    (recent_tiers : list RiskTier) (exc : PyExc) :
  RiskAdapter.call a text sentiment = Raise exc ->
  (forall ads,
      untyped_rag_unavailable rag text = true ->
      exists note result,
        Untyped._rag_assess (Untyped.mk_classifier ads rag) text
        = Return (None, [note])
        /\ baseline (None, [note]) = RiskAssessment.mk OK 0 [] [note]
        /\ Untyped.assess (Untyped.mk_classifier ads rag) text sentiment
             recent_tiers
           = Return result)
  /\ (forall without,
        Untyped.assess (Untyped.mk_classifier (pre ++ post) rag) text
          sentiment recent_tiers
        = Return without ->
        exists result,
          Untyped.assess (Untyped.mk_classifier (pre ++ a :: post) rag) text
            sentiment recent_tiers
          = Return result
          /\ RiskAssessment.tier result = RiskAssessment.tier without
          /\ RiskAssessment.score result = RiskAssessment.score without
          /\ RiskAssessment.flagged_keywords result
             = RiskAssessment.flagged_keywords without
          /\ In (adapter_failure_note a exc) (RiskAssessment.notes result))
  /\ (forall e,
        Untyped.assess (Untyped.mk_classifier (pre ++ post) rag) text
          sentiment recent_tiers
        = Raise e ->
        Untyped.assess (Untyped.mk_classifier (pre ++ a :: post) rag) text
          sentiment recent_tiers
        = Raise e).
Proof.
  intros Hraise. split; [| split].
  - intros ads Hun. unfold untyped_rag_unavailable in Hun.
    assert (Hrag :
      exists note,
        Untyped._rag_assess (Untyped.mk_classifier ads rag) text
        = Return (None, [note])).
    { unfold Untyped._rag_assess. cbn [Untyped._rag_module].
      destruct rag as [rag_mod |]; [| eauto].
      destruct (Untyped._call_rag_fn rag_mod text) as [[raw |] | e];
        [discriminate | eauto | eauto]. }
    destruct Hrag as [note Hrag]. exists note. eexists.
    split; [exact Hrag |]. split; [reflexivity |].
    apply (untyped_assess_unfold _ _ _ _ _ Hrag).
  - intros without Hwithout. unfold Untyped.assess in *.
    change (Untyped._rag_assess (Untyped.mk_classifier (pre ++ a :: post) rag)
              text)
      with (Untyped._rag_assess (Untyped.mk_classifier (pre ++ post) rag)
              text).
    destruct (Untyped._rag_assess (Untyped.mk_classifier (pre ++ post) rag)
                text) as [r | e]; [| discriminate Hwithout].
    injection Hwithout as <-. eexists. split; [reflexivity |].
    cbn [RiskAssessment.tier RiskAssessment.score
         RiskAssessment.flagged_keywords RiskAssessment.notes].
    unfold Untyped._apply_adapters. cbn [Untyped.adapters].
    rewrite !fold_left_app. cbn [fold_left].
    set (mid := fold_left (adapter_step text sentiment) pre _).
    rewrite (adapter_step_raise text sentiment mid a exc Hraise).
    destruct mid as [t s f n].
    cbn [run_tier run_score run_flagged run_notes].
    destruct (adapter_fold_notes text sentiment post t s f n
                (n ++ [adapter_failure_note a exc]))
      as (Ht & Hs & Hf & rest & Hp & Hn).
    cbn zeta in Ht, Hs, Hf, Hp, Hn.
    rewrite Ht, Hs, Hf, Hn.
    repeat split.
    apply in_or_app. right. apply in_or_app. left.
    apply in_or_app. right. now left.
  - intros e He. unfold Untyped.assess in *.
    change (Untyped._rag_assess (Untyped.mk_classifier (pre ++ a :: post) rag)
              text)
      with (Untyped._rag_assess (Untyped.mk_classifier (pre ++ post) rag)
              text).
    destruct (Untyped._rag_assess (Untyped.mk_classifier (pre ++ post) rag)
                text) as [r | e']; [discriminate He | exact He].
Qed.

Example untyped_assess_with_failing_collaborators :
  Untyped.assess
    (Untyped.mk_classifier [failing_adapter; high_adapter]
       (Some untyped_failing_rag))
    "I feel fine" (score "I feel fine") []
  = Return
      (RiskAssessment.mk HIGH (9 # 10) ["jump"]
         ["RAG risk module error: timeout";
          "Adapter 'broken' failed: boom";
          "Adapter 'always_high' escalated tier to high."]).
Proof. vm_compute. reflexivity. Qed.

(** C3.  [assess] does raise when the external model fails by a
    malformed answer.  For a [dict] whose "score" is an [int] beyond the
    range of a float, [float] raises OverflowError; [_normalize_score]
    catches TypeError and ValueError only and is called after the [try]
    of [_rag_assess], so [assess] raises OverflowError, whatever the text
    and the adapters, where the claim has the baseline OK, 0.0 and a
    diagnostic note.  For a [dict] whose "notes" cannot be iterated, the
    loop over the notes, also after the [try], makes [assess] raise
    TypeError. *)
Theorem assess_propagates_malformed_answer (ads : list RiskAdapter.t)
    (text : string) (sentiment : SentimentResult.t)
    (recent_tiers : list RiskTier) :
  Untyped.assess (Untyped.mk_classifier ads (Some overflowing_rag)) text
    sentiment recent_tiers
  = Raise (mk_exc OverflowError "int too large to convert to float")
  /\ Untyped.assess (Untyped.mk_classifier ads (Some unreadable_notes_rag))
       text sentiment recent_tiers
     = Raise (mk_exc TypeError "'int' object is not iterable").
Proof. split; reflexivity. Qed.

Example assess_with_failing_collaborators :
  assess (mk_classifier [failing_adapter; high_adapter] (Some failing_rag))
    "I feel fine" (score "I feel fine") []
  = Return
      (RiskAssessment.mk HIGH (9 # 10) ["jump"]
         ["RAG risk module error: timeout";
          "Adapter 'broken' failed: boom";
          "Adapter 'always_high' escalated tier to high."]).
Proof. vm_compute. reflexivity. Qed.

(** ** Risk classifier: range of the score *)

Lemma py_min_cases (a b : Q) : py_min a b = a \/ py_min a b = b.
Proof. unfold py_min. destruct (b ?= a)%Q; auto. Qed.

Lemma py_min_le_l (a b : Q) : (py_min a b <= a)%Q.
Proof.
  unfold py_min. destruct (b ?= a)%Q eqn:E.
  - apply Qle_refl.
  - apply Qlt_alt in E. now apply Qlt_le_weak.
  - apply Qle_refl.
Qed.

Lemma clamp_bounds (x : Q) : (0 <= py_max 0 (py_min 1 x) <= 1)%Q.
Proof.
  split; [apply py_max_ge_l |].
  destruct (py_max_cases 0 (py_min 1 x)) as [E | E]; rewrite E.
  - discriminate.
  - apply py_min_le_l.
Qed.

Lemma normalize_score_bounds (value : float_arg) :
  (0 <= _normalize_score value <= 1)%Q.
Proof.
  unfold _normalize_score.
  destruct (float value) as [q | e]; [apply clamp_bounds |].
  split; discriminate.
Qed.

Lemma round_half_even_bounds (x : Q) (k : Z) :
  (0 <= k)%Z -> (0 <= x)%Q -> (x <= inject_Z k)%Q ->
  (0 <= round_half_even x <= k)%Z.
Proof.
  intros Hk H0 H1. unfold round_half_even.
  destruct x as [n d]. unfold Qle in H0, H1. cbn [Qnum Qden inject_Z] in *.
  assert (Hn : (0 <= n)%Z) by lia.
  assert (Hd : (0 < Z.pos d)%Z) by lia.
  pose proof (Z.div_mod n (Z.pos d) ltac:(lia)) as Hdm.
  pose proof (Z.mod_pos_bound n (Z.pos d) Hd) as Hm.
  assert (Hf0 : (0 <= n / Z.pos d)%Z) by (apply Z.div_pos; lia).
  assert (Hf1 : (n / Z.pos d <= k)%Z).
  { apply Z.div_le_upper_bound; lia. }
  assert (Hup : (0 < n mod Z.pos d -> n / Z.pos d + 1 <= k)%Z).
  { intros Hr. 
    assert (n / Z.pos d < k)%Z; [| lia].
    apply Z.div_lt_upper_bound; [lia |].
    destruct (Z.eq_dec n (k * Z.pos d)%Z) as [-> | Hne]; [| lia].
    rewrite Z.mod_mul in Hr; lia. }
  destruct (2 * (n mod Z.pos d) ?= Z.pos d)%Z eqn:E.
  - apply Z.compare_eq in E. destruct (Z.even (n / Z.pos d)); lia.
  - lia.
  - apply Z.compare_gt_iff in E. lia.
Qed.

Lemma py_round3_bounds (x : Q) :
  (0 <= x <= 1)%Q -> (0 <= py_round3 x <= 1)%Q.
Proof.
  intros [H0 H1]. unfold py_round3.
  assert (Hb : (0 <= round_half_even (x * 1000) <= 1000)%Z).
  { apply round_half_even_bounds; [lia | |].
    - apply Qmult_le_0_compat; [assumption | discriminate].
    - change (inject_Z 1000) with (1 * 1000)%Q.
      apply Qmult_le_compat_r; [assumption | discriminate]. }
  split; rewrite Qred_correct; unfold Qle; cbn [Qnum Qden]; lia.
Qed.

Lemma rag_baseline_score_bounds (self : RiskClassifier) (text : string)
    (rag : option RiskAssessment.t * list string) :
  _rag_assess self text = Return rag ->
  (0 <= RiskAssessment.score (baseline rag) <= 1)%Q.
Proof.
  unfold _rag_assess.
  destruct (_rag_module self) as [rag_mod |].
  - destruct (_call_rag_fn rag_mod text) as [[raw |] | exc];
      intros H; injection H as <-; cbn [baseline RiskAssessment.score].
    + apply normalize_score_bounds.
    + split; discriminate.
    + split; discriminate.
  - intros H; injection H as <-. cbn. split; discriminate.
Qed.

(** C6 (as amended).  [_normalize_score] always lies in [[0, 1]]; a raw
    score above 1.0 is divided by 3 and then clamped; and when every
    score that an adapter returns lies in [[0, 1]], so does the score of
    the assessment that [assess] returns. *)
Theorem assess_score_in_unit_interval
    (self : RiskClassifier) (text : string) (sentiment : SentimentResult.t)
    (recent_tiers : list RiskTier) :
  (forall r, In r (adapter_results text sentiment (adapters self)) ->
             (0 <= RiskAssessment.score r <= 1)%Q) ->
  (forall value, (0 <= _normalize_score value <= 1)%Q)
  /\ (forall q, (1 < q)%Q ->
                _normalize_score (FloatOf q) = py_max 0 (py_min 1 (q / 3)))
  /\ (forall q, ~ (1 < q)%Q ->
                _normalize_score (FloatOf q) = py_max 0 (py_min 1 q))
  /\ exists result,
       assess self text sentiment recent_tiers = Return result
       /\ (0 <= RiskAssessment.score result <= 1)%Q.
Proof.
  intros Hads. split; [apply normalize_score_bounds |].
  split; [| split].
  - intros q Hq. unfold _normalize_score. cbn [float].
    destruct (Qlt_le_dec 1 q) as [_ | Hle]; [reflexivity |].
    exfalso. apply (Qlt_not_le _ _ Hq Hle).
  - intros q Hq. unfold _normalize_score. cbn [float].
    destruct (Qlt_le_dec 1 q) as [Hlt | _]; [contradiction | reflexivity].
  - destruct (rag_assess_returns self text) as [rag Hrag].
    eexists. split; [apply (assess_unfold _ _ _ _ _ Hrag) |].
    cbn zeta. cbn [RiskAssessment.score]. apply py_round3_bounds.
    unfold _apply_adapters.
    destruct (apply_adapters_score text sentiment (adapters self)
                (mk_adapter_acc (RiskAssessment.tier (baseline rag))
                   (RiskAssessment.score (baseline rag)) [] []))
      as [Hin _].
    cbn [run_score] in Hin. destruct Hin as [<- | Hin].
    + apply (rag_baseline_score_bounds self text rag Hrag).
    + apply in_map_iff in Hin. destruct Hin as (r & <- & Hr). now apply Hads.
Qed.

Lemma assess_score_in_unit_interval_witness :
  exists result,
    assess (mk_classifier [high_adapter] None) "hello" (score "hello") []
    = Return result
    /\ (0 <= RiskAssessment.score result <= 1)%Q.
Proof.
  apply (assess_score_in_unit_interval (mk_classifier [high_adapter] None)
           "hello" (score "hello") []).
  intros r [<- | []]. split; unfold Qle; simpl; lia.
Defined.

(** C6, counterexample to the claim as stated: an adapter that returns
    the score 5.0 makes [assess] return the score 5.0. *)
Lemma assess_score_above_one :
  exists result,
    assess (mk_classifier [loud_adapter] None) "hello" (score "hello") []
    = Return result
    /\ RiskAssessment.score result = 5%Q
    /\ ~ (RiskAssessment.score result <= 1)%Q.
Proof.
  eexists. split; [vm_compute; reflexivity |].
  split; [reflexivity |]. cbn [RiskAssessment.score]. intros H.
  now apply H.
Qed.

(** ** Session metrics *)

Lemma tier_dict_lookup (f : RiskTier -> nat) (tier : RiskTier) :
  tier_dict f !! RiskTier_value tier = Some (f tier).
Proof. destruct tier; reflexivity. Qed.

Lemma tier_dict_incr (f : RiskTier -> nat) (tier : RiskTier) :
  dict_incr (tier_dict f) (RiskTier_value tier)
  = Return
      (tier_dict (fun t => if decide (t = tier) then S (f t) else f t)).
Proof.
  unfold dict_incr. rewrite tier_dict_lookup. f_equal.
  apply map_eq. intros k. unfold tier_dict. cbn [fold_left RiskTier_members].
  destruct tier; cbn [RiskTier_value];
    repeat (rewrite lookup_insert; case_decide; [reflexivity |]); reflexivity.
Qed.

Lemma tier_dict_ext (f g : RiskTier -> nat) :
  (forall tier, f tier = g tier) -> tier_dict f = tier_dict g.
Proof.
  intros H. unfold tier_dict. cbn [fold_left RiskTier_members].
  now rewrite !H.
Qed.

Lemma band_dict_lookup (f : SentimentBand -> nat) (band : SentimentBand) :
  band_dict f !! SentimentBand_value band = Some (f band).
Proof. destruct band; reflexivity. Qed.

Lemma band_dict_incr (f : SentimentBand -> nat) (band : SentimentBand) :
  dict_incr (band_dict f) (SentimentBand_value band)
  = Return
      (band_dict (fun b => if decide (b = band) then S (f b) else f b)).
Proof.
  unfold dict_incr. rewrite band_dict_lookup. f_equal.
  apply map_eq. intros k. unfold band_dict.
  cbn [fold_left SentimentBand_members].
  destruct band; cbn [SentimentBand_value];
    repeat (rewrite lookup_insert; case_decide; [reflexivity |]); reflexivity.
Qed.

Lemma band_dict_ext (f g : SentimentBand -> nat) :
  (forall band, f band = g band) -> band_dict f = band_dict g.
Proof.
  intros H. unfold band_dict. cbn [fold_left SentimentBand_members].
  now rewrite !H.
Qed.

Lemma count_tier_snoc (tier : RiskTier) (msgs : list MessageRecord.t)
    (m : MessageRecord.t) :
  count_tier tier (msgs ++ [m])
  = if decide (tier = MessageRecord.risk_tier m)
    then S (count_tier tier msgs) else count_tier tier msgs.
Proof.
  unfold count_tier. rewrite List.filter_app, length_app. cbn [List.filter].
  destruct (decide (tier = MessageRecord.risk_tier m)) as [-> | Hne].
  - rewrite bool_decide_eq_true_2 by reflexivity. cbn [length]. lia.
  - rewrite bool_decide_eq_false_2 by congruence. cbn [length]. lia.
Qed.

Lemma count_band_snoc (band : SentimentBand) (msgs : list MessageRecord.t)
    (m : MessageRecord.t) :
  count_band band (msgs ++ [m])
  = if decide
         (band
          = _sentiment_band_from_score (MessageRecord.sentiment_score m))
    then S (count_band band msgs) else count_band band msgs.
Proof.
  unfold count_band. rewrite List.filter_app, length_app. cbn [List.filter].
  destruct (decide (band = _)) as [-> | Hne].
  - rewrite bool_decide_eq_true_2 by reflexivity. cbn [length]. lia.
  - rewrite bool_decide_eq_false_2 by congruence. cbn [length]. lia.
Qed.

(** The loop over the messages never raises, and this is what it
    leaves in its variables. *)
Lemma tally_loop_eq (msgs : list MessageRecord.t) :
  tally_loop msgs
  = Return
      (mk_tally (tier_dict (fun tier => count_tier tier msgs))
         (band_dict (fun band => count_band band msgs))
         (flagged_of msgs) (map MessageRecord.risk_tier msgs)).
Proof.
  induction msgs as [| m msgs IH] using rev_ind.
  - reflexivity.
  - unfold tally_loop in *. rewrite fold_left_app. cbn [fold_left].
    rewrite IH. unfold tally_step.
    cbn [obind t_tier_counts t_band_counts t_flagged_keywords t_recent_risk].
    rewrite tier_dict_incr. cbn [obind]. rewrite band_dict_incr. cbn [obind].
    f_equal. f_equal.
    + apply tier_dict_ext. intros tier. now rewrite count_tier_snoc.
    + apply band_dict_ext. intros band. now rewrite count_band_snoc.
    + unfold flagged_of. rewrite fold_left_app. reflexivity.
    + now rewrite map_app.
Qed.

Lemma dict_values_sum_tier_dict (f : RiskTier -> nat) :
  dict_values_sum (tier_dict f)
  = (f OK + f CAUTION + f HIGH + f CRISIS)%nat.
Proof.
  unfold dict_values_sum, tier_dict. cbn [fold_left RiskTier_members].
  cbn [RiskTier_value].
  rewrite !map_fold_insert_L; try (intros; lia); try reflexivity.
  rewrite map_fold_empty. lia.
Qed.

Lemma count_tier_total (msgs : list MessageRecord.t) :
  (count_tier OK msgs + count_tier CAUTION msgs + count_tier HIGH msgs
   + count_tier CRISIS msgs)%nat
  = length msgs.
Proof.
  unfold count_tier. induction msgs as [| m msgs IH]; [reflexivity |].
  cbn [List.filter length].
  destruct (MessageRecord.risk_tier m); simpl; lia.
Qed.

Lemma severity_inj (t1 t2 : RiskTier) :
  _RISK_SEVERITY t1 = _RISK_SEVERITY t2 -> t1 = t2.
Proof. destruct t1, t2; simpl; intros H; try reflexivity; discriminate. Qed.

Lemma count_tier_pos (tier : RiskTier) (msgs : list MessageRecord.t) :
  count_tier tier msgs <> 0%nat <-> In tier (map MessageRecord.risk_tier msgs).
Proof.
  unfold count_tier. induction msgs as [| m msgs IH]; simpl.
  - split; [intros H; now elim H | intros []].
  - destruct (bool_decide_reflect (MessageRecord.risk_tier m = tier)) as [E | E].
    + simpl. split; [now left | discriminate].
    + rewrite IH. split; [now right | intros [H | H]; [contradiction | exact H]].
Qed.

Lemma highest_tier_spec (tiers : list RiskTier) :
  (highest_tier tiers = OK \/ In (highest_tier tiers) tiers)
  /\ forall t, In t tiers ->
       (_RISK_SEVERITY t <= _RISK_SEVERITY (highest_tier tiers))%Z.
Proof.
  induction tiers as [| x tiers [IHin IHmax]]; cbn [highest_tier fold_right].
  - split; [now left | intros t []].
  - fold (highest_tier tiers).
    destruct (Z.ltb_spec (_RISK_SEVERITY (highest_tier tiers))
                (_RISK_SEVERITY x)) as [Hlt | Hge].
    + split; [right; now left |].
      intros t [<- | Ht]; [lia | specialize (IHmax t Ht); lia].
    + split.
      * destruct IHin as [E | Hin]; [now left | right; now right].
      * intros t [<- | Ht]; [lia | now apply IHmax].
Qed.

(** The loop [for tier in RiskTier] never raises on a dictionary with
    all the tiers, and picks the most severe tier that has messages. *)
Lemma max_tier_loop_spec (f : RiskTier -> nat) :
  exists r,
    max_tier_loop (tier_dict f) = Return r
    /\ (r = OK \/ f r <> 0%nat)
    /\ forall t, f t <> 0%nat -> (_RISK_SEVERITY t <= _RISK_SEVERITY r)%Z.
Proof.
  unfold max_tier_loop, max_tier_step. cbn [fold_left RiskTier_members obind].
  unfold dict_item. rewrite !tier_dict_lookup. cbn [obind].
  destruct (f OK) as [| a] eqn:Ea; destruct (f CAUTION) as [| b] eqn:Eb;
    destruct (f HIGH) as [| c] eqn:Ec; destruct (f CRISIS) as [| d] eqn:Ed;
    cbn; eexists; (split; [reflexivity |]);
    (split; [first [now left | right; congruence] |]);
    intros [] Ht; cbn; try lia; congruence.
Qed.

Lemma max_tier_loop_eq (msgs : list MessageRecord.t) :
  max_tier_loop (tier_dict (fun tier => count_tier tier msgs))
  = Return (highest_tier (map MessageRecord.risk_tier msgs)).
Proof.
  destruct (max_tier_loop_spec (fun tier => count_tier tier msgs))
    as (r & -> & Hin & Hmax).
  f_equal. apply severity_inj.
  destruct (highest_tier_spec (map MessageRecord.risk_tier msgs))
    as [Hin' Hmax'].
  apply Z.le_antisymm.
  - destruct Hin as [-> | Hpos].
    + destruct (highest_tier _); simpl; lia.
    + apply Hmax'. now apply count_tier_pos.
  - destruct Hin' as [-> | Hin'].
    + destruct r; simpl; lia.
    + apply Hmax. now apply count_tier_pos.
Qed.

(** [_recalculate_metrics] returns, and what it returns and stores. *)
Lemma recalculate_metrics_run (self : SessionTracker) (session_id : string)
    (w : World) :
  _recalculate_metrics self session_id w
  = let msgs := list_messages_of session_id w in
    (Return (metrics_of session_id msgs, sorted (flagged_of msgs)),
     with_metrics (metrics_of session_id msgs) w).
Proof.
  unfold _recalculate_metrics, bind, storage_list_messages, lift.
  rewrite tally_loop_eq. cbn [t_tier_counts t_band_counts t_recent_risk
                              t_flagged_keywords].
  rewrite max_tier_loop_eq. reflexivity.
Qed.

(** C9.  For every world and session, [_recalculate_metrics] returns
    metrics, which it stores, whose [message_count] is the number of
    messages of the session and whose [tier_counts] has an entry for
    every tier of the enum, the number of messages of that tier (zero
    when there is none); the values of [tier_counts] sum to
    [message_count]. *)
Theorem tier_counts_sum_to_message_count (self : SessionTracker)
    (session_id : string) (w : World) :
  exists metrics flagged w',
    _recalculate_metrics self session_id w = (Return (metrics, flagged), w')
    /\ metrics_table w' !! session_id = Some metrics
    /\ SessionMetrics.message_count metrics
       = length (list_messages_of session_id w)
    /\ (forall tier,
          SessionMetrics.tier_counts metrics !! RiskTier_value tier
          = Some (count_tier tier (list_messages_of session_id w)))
    /\ dict_values_sum (SessionMetrics.tier_counts metrics)
       = SessionMetrics.message_count metrics.
Proof.
  rewrite recalculate_metrics_run. cbn zeta.
  eexists. eexists. eexists. split; [reflexivity |].
  split; [apply lookup_insert_eq |].
  split; [reflexivity |].
  split.
  - intros tier. apply tier_dict_lookup.
  - cbn [metrics_of SessionMetrics.tier_counts SessionMetrics.message_count].
    rewrite dict_values_sum_tier_dict. apply count_tier_total.
Qed.

(** ** Session tracker: running the operations *)

Lemma bind_run {A B : Type} (m : M A) (k : A -> M B) (w : World) :
  bind m k w
  = match m w with
    | (Return a, w') => k a w'
    | (Raise e, w') => (Raise e, w')
    end.
Proof. reflexivity. Qed.

Lemma get_session_run (session_id : string) (w : World) :
  get_session session_id w
  = match sessions w !! session_id with
    | Some s => (Return s, w)
    | None =>
        (Raise (mk_exc SessionNotFound
                  ("Session '" +:+ session_id +:+ "' not found.")), w)
    end.
Proof.
  unfold get_session, bind, storage_get_session.
  destruct (sessions w !! session_id); reflexivity.
Qed.

Lemma update_session_run (utc_now_at : nat -> Z) (session_id : string)
    (status : option SessionStatus) (active_risk_tier : option RiskTier)
    (w : World) :
  storage_update_session utc_now_at session_id status active_risk_tier w
  = (Return tt, with_update utc_now_at session_id status active_risk_tier w).
Proof. reflexivity. Qed.

Lemma collect_flagged_run (session_id : string) (w : World) :
  _collect_flagged_keywords session_id w
  = (Return (sorted (flagged_of (list_messages_of session_id w))), w).
Proof. reflexivity. Qed.

Lemma get_summary_run (self : SessionTracker) (session_id : string)
    (w : World) (s : SessionRecord.t) :
  sessions w !! session_id = Some s ->
  get_summary self session_id w
  = let msgs := list_messages_of session_id w in
    match metrics_table w !! session_id with
    | Some metrics =>
        (Return (_build_summary s metrics (sorted (flagged_of msgs))), w)
    | None =>
        (Return
           (_build_summary s (metrics_of session_id msgs)
              (sorted (flagged_of msgs))),
         with_metrics (metrics_of session_id msgs) w)
    end.
Proof.
  intros Hs. unfold get_summary.
  rewrite bind_run, get_session_run, Hs.
  rewrite bind_run. unfold storage_get_metrics at 1.
  rewrite bind_run, collect_flagged_run. cbn zeta.
  destruct (metrics_table w !! session_id) as [metrics |]; [reflexivity |].
  rewrite bind_run, recalculate_metrics_run. reflexivity.
Qed.

Lemma end_session_active_run (utc_now_at : nat -> Z) (self : SessionTracker)
    (session_id : string) (w : World) (s : SessionRecord.t) :
  sessions w !! session_id = Some s ->
  SessionRecord.status s = ACTIVE ->
  end_session utc_now_at self session_id w
  = let msgs := list_messages_of session_id w in
    let metrics := metrics_of session_id msgs in
    let tier := SessionMetrics.max_risk_tier metrics in
    (Return
       (_build_summary
          (updated_record s (Some ENDED) (Some tier)
             (utc_now_at (clock_reads w)))
          metrics (sorted (flagged_of msgs))),
     with_update utc_now_at session_id (Some ENDED) (Some tier)
       (with_metrics metrics w)).
Proof.
  intros Hs Hactive. unfold end_session.
  rewrite bind_run, get_session_run, Hs.
  rewrite bool_decide_eq_false_2 by (rewrite Hactive; discriminate).
  rewrite bind_run, recalculate_metrics_run. cbn zeta. cbn [fst snd].
  rewrite bind_run, update_session_run.
  rewrite bind_run, get_session_run.
  cbn [with_update sessions with_metrics].
  rewrite lookup_alter_eq, Hs. reflexivity.
Qed.

Lemma end_session_ended_run (utc_now_at : nat -> Z) (self : SessionTracker)
    (session_id : string) (w : World) (s : SessionRecord.t) :
  sessions w !! session_id = Some s ->
  SessionRecord.status s = ENDED ->
  end_session utc_now_at self session_id w = get_summary self session_id w.
Proof.
  intros Hs Hended. unfold end_session.
  rewrite bind_run, get_session_run, Hs.
  now rewrite bool_decide_eq_true_2.
Qed.

Lemma append_message_active_run (utc_now_at : nat -> Z)
    (self : SessionTracker) (session_id : string) (sender : SenderRole)
    (content : string) (w : World) (s : SessionRecord.t) :
  sessions w !! session_id = Some s ->
  SessionRecord.status s = ACTIVE ->
  exists a,
    assess (risk_classifier self) content (score content)
      (map MessageRecord.risk_tier
         (last_n (buffer_size self) (list_messages_of session_id w)))
    = Return a
    /\ append_message utc_now_at self session_id sender content w
       = (Return (fst (appended utc_now_at self session_id sender content a w)),
          snd (appended utc_now_at self session_id sender content a w)).
Proof.
  intros Hs Hactive.
  destruct (rag_assess_returns (risk_classifier self) content) as [rag Hrag].
  pose proof (assess_unfold (risk_classifier self) content (score content)
                (map MessageRecord.risk_tier
                   (last_n (buffer_size self)
                      (list_messages_of session_id w)))
                rag Hrag) as Hassess.
  cbn zeta in Hassess. eexists. split; [exact Hassess |].
  unfold append_message.
  rewrite bind_run, get_session_run, Hs.
  rewrite bool_decide_eq_true_2 by exact Hactive. cbn [negb].
  rewrite bind_run. unfold storage_recent_messages at 1.
  rewrite bind_run. unfold lift at 1. rewrite Hassess.
  rewrite bind_run. unfold utc_now at 1.
  rewrite bind_run. unfold storage_insert_message at 1.
  cbn [sessions messages buffers metrics_table next_message_id clock_reads
       uuid_reads MessageRecord.session_id MessageRecord.sender
       MessageRecord.content MessageRecord.sentiment_score
       MessageRecord.risk_tier MessageRecord.risk_score
       MessageRecord.flagged_keywords MessageRecord.created_at
       RiskAssessment.tier RiskAssessment.score
       RiskAssessment.flagged_keywords].
  rewrite bind_run, update_session_run.
  rewrite bind_run. unfold _update_buffer at 1.
  rewrite bind_run. unfold storage_recent_messages at 1.
  rewrite bind_run. unfold storage_save_buffer at 1.
  unfold ret at 1.
  rewrite bind_run, recalculate_metrics_run.
  reflexivity.
Qed.

(** ** Session tracker: ending a session *)

(** C8.  For an existing session, [end_session] returns a summary and
    leaves the session ENDED; called again in the world it left, it
    returns the same summary and leaves that world as it is. *)
Theorem end_session_idempotent (utc_now_at : nat -> Z)
    (self : SessionTracker) (session_id : string) (w : World)
    (s : SessionRecord.t) :
  sessions w !! session_id = Some s ->
  exists summary w1,
    end_session utc_now_at self session_id w = (Return summary, w1)
    /\ end_session utc_now_at self session_id w1 = (Return summary, w1)
    /\ exists s1,
         sessions w1 !! session_id = Some s1
         /\ SessionRecord.status s1 = ENDED
         /\ SessionSummary.session summary = s1.
Proof.
  intros Hs. destruct (SessionRecord.status s) eqn:Hstatus.
  - rewrite (end_session_active_run _ _ _ _ s Hs Hstatus). cbn zeta.
    set (msgs := list_messages_of session_id w).
    set (metrics := metrics_of session_id msgs).
    set (s1 := updated_record s (Some ENDED) _ _).
    set (w1 := with_update _ _ _ _ _).
    assert (Hs1 : sessions w1 !! session_id = Some s1).
    { unfold w1. cbn [with_update sessions with_metrics].
      rewrite lookup_alter_eq, Hs. reflexivity. }
    exists (_build_summary s1 metrics (sorted (flagged_of msgs))), w1.
    split; [reflexivity |]. split.
    + rewrite (end_session_ended_run _ _ _ _ s1 Hs1 eq_refl).
      rewrite (get_summary_run _ _ _ s1 Hs1). cbn zeta.
      change (list_messages_of session_id w1) with msgs.
      assert (Hm : metrics_table w1 !! session_id = Some metrics).
      { unfold w1. cbn [with_update metrics_table with_metrics].
        apply lookup_insert_eq. }
      rewrite Hm. reflexivity.
    + exists s1. repeat split. exact Hs1.
  - rewrite (end_session_ended_run _ _ _ _ s Hs Hstatus).
    rewrite (get_summary_run _ _ _ s Hs). cbn zeta.
    set (msgs := list_messages_of session_id w).
    destruct (metrics_table w !! session_id) as [metrics |] eqn:Hm.
    + exists (_build_summary s metrics (sorted (flagged_of msgs))), w.
      split; [reflexivity |]. split.
      * rewrite (end_session_ended_run _ _ _ _ s Hs Hstatus).
        rewrite (get_summary_run _ _ _ s Hs). cbn zeta. rewrite Hm.
        reflexivity.
      * exists s. repeat split; assumption.
    + set (metrics := metrics_of session_id msgs).
      set (w1 := with_metrics metrics w).
      assert (Hs1 : sessions w1 !! session_id = Some s) by exact Hs.
      exists (_build_summary s metrics (sorted (flagged_of msgs))), w1.
      split; [reflexivity |]. split.
      * rewrite (end_session_ended_run _ _ _ _ s Hs1 Hstatus).
        rewrite (get_summary_run _ _ _ s Hs1). cbn zeta.
        change (list_messages_of session_id w1) with msgs.
        assert (Hm1 : metrics_table w1 !! session_id = Some metrics).
        { unfold w1. cbn [metrics_table with_metrics]. apply lookup_insert_eq. }
        rewrite Hm1. reflexivity.
      * exists s. repeat split; assumption.
Qed.

Lemma end_session_idempotent_witness :
  exists summary w1,
    end_session demo_clock default_tracker "s1" demo_world_one_message
    = (Return summary, w1)
    /\ end_session demo_clock default_tracker "s1" w1 = (Return summary, w1)
    /\ exists s1,
         sessions w1 !! "s1" = Some s1
         /\ SessionRecord.status s1 = ENDED
         /\ SessionSummary.session summary = s1.
Proof.
  apply (end_session_idempotent demo_clock default_tracker "s1"
           demo_world_one_message
           (SessionRecord.mk "s1" "u1" ACTIVE 0 3000000 OK [])).
  vm_compute. reflexivity.
Defined.

(** ** Session tracker: errors of [append_message] *)



(** ** Session tracker: the active risk tier *)

Lemma list_messages_of_snoc (session_id : string) (w : World)
    (saved : MessageRecord.t) :
  MessageRecord.session_id saved = session_id ->
  List.filter
    (fun m => String.eqb (MessageRecord.session_id m) session_id)
    (messages w ++ [saved])
  = list_messages_of session_id w ++ [saved].
Proof.
  intros H. rewrite List.filter_app. cbn [List.filter].
  now rewrite H, String.eqb_refl.
Qed.




(** ** The scenario "I feel hopeless and empty" *)

Lemma In_sorted_insert (x y : string) (l : list string) :
  In x (sorted_insert y l) <-> x = y \/ In x l.
Proof.
  induction l as [| z l IH]; cbn [sorted_insert].
  - simpl. intuition congruence.
  - destruct (String.leb y z); cbn [In]; [intuition congruence |].
    rewrite IH. intuition congruence.
Qed.

Lemma In_sorted (x : string) (l : list string) : In x (sorted l) <-> In x l.
Proof.
  unfold sorted. induction l as [| y l IH]; cbn [fold_right In].
  - reflexivity.
  - rewrite In_sorted_insert, IH. intuition congruence.
Qed.

Lemma In_py_set (x : string) (l : list string) : In x (py_set l) <-> In x l.
Proof.
  induction l as [| y l IH]; cbn [py_set In].
  - reflexivity.
  - rewrite List.filter_In, IH. split.
    + intros [H | [H _]]; auto.
    + intros [H | H]; [now left |].
      destruct (String.eqb_spec y x) as [E | E]; [now left |].
      right. split; [exact H |].
      destruct (String.eqb_spec y x); [contradiction | reflexivity].
Qed.





(** ** Trend notes *)

Lemma climbing_iff (recent_risk : list RiskTier) :
  climbing recent_risk = true
  <-> exists earlier before last,
        recent_risk = earlier ++ [before; last]
        /\ (RISK_SEVERITY before < RISK_SEVERITY last)%Z.
Proof.
  unfold climbing. split.
  - intros H. apply andb_true_iff in H. destruct H as [Hlen H].
    apply Nat.leb_le in Hlen.
    destruct recent_risk as [| last rest _] using rev_ind;
      [simpl in Hlen; lia |].
    destruct rest as [| before earlier _] using rev_ind;
      [simpl in Hlen; lia |].
    exists earlier, before, last. rewrite <- app_assoc. split; [reflexivity |].
    rewrite !length_app in H. cbn [length] in H.
    replace (length earlier + 1 + 1 - 1)%nat with (length (earlier ++ [before]))
      in H by (rewrite length_app; simpl; lia).
    replace (length earlier + 1 + 1 - 2)%nat with (length earlier) in H by lia.
    rewrite list_lookup_middle in H by reflexivity.
    rewrite <- app_assoc in H. change ([before] ++ [last]) with [before; last] in H.
    rewrite list_lookup_middle in H by reflexivity.
    now apply Z.ltb_lt.
  - intros (earlier & before & last & -> & Hlt).
    apply andb_true_iff. split.
    + apply Nat.leb_le. rewrite length_app. simpl. lia.
    + rewrite length_app. cbn [length].
      assert (Hlast : (earlier ++ [before; last])
                      !! (length earlier + 2 - 1)%nat = Some last).
      { replace (earlier ++ [before; last])
          with ((earlier ++ [before]) ++ [last])
          by (rewrite <- app_assoc; reflexivity).
        apply list_lookup_middle. rewrite length_app. simpl. lia. }
      assert (Hbefore : (earlier ++ [before; last])
                        !! (length earlier + 2 - 2)%nat = Some before).
      { apply list_lookup_middle. lia. }
      rewrite Hlast, Hbefore. now apply Z.ltb_lt.
Qed.

Lemma risk_notes_in (b1 b2 : bool) (extra : list string) :
  (forall x, In x extra -> x = "Overall negative sentiment.") ->
  let notes :=
    (if b1 then [sustained_note] else [])
    ++ (if b2 then [climbing_note] else []) ++ extra in
  (In sustained_note notes <-> b1 = true)
  /\ (In climbing_note notes <-> b2 = true).
Proof.
  intros Hextra. cbn zeta.
  assert (Hs : ~ In sustained_note extra).
  { intros H. apply Hextra in H. discriminate H. }
  assert (Hc : ~ In climbing_note extra).
  { intros H. apply Hextra in H. discriminate H. }
  destruct b1, b2; cbn [app In]; split; split; intros H;
    try reflexivity; try discriminate H; auto;
    repeat (destruct H as [H | H]; [discriminate H |]); contradiction.
Qed.

(** What [_recalculate_metrics] does for the two risk notes: the
    "sustained" note is present exactly when the history is not empty and
    each of its last three tiers, or each of its tiers when it has fewer
    than three, is CAUTION or above; the "climbing" note is present
    exactly when the history ends with two tiers of which the last is
    strictly more severe. *)
Lemma trend_notes_of_spec (recent_risk : list RiskTier) (avg_sentiment : Q) :
  (In sustained_note (trend_notes_of recent_risk avg_sentiment)
   <-> recent_risk <> []
       /\ forallb elevated (last_n 3 recent_risk) = true)
  /\ (In climbing_note (trend_notes_of recent_risk avg_sentiment)
      <-> exists earlier before last,
            recent_risk = earlier ++ [before; last]
            /\ (RISK_SEVERITY before < RISK_SEVERITY last)%Z).
Proof.
  rewrite <- climbing_iff. unfold trend_notes_of.
  destruct recent_risk as [| t rest].
  - cbn [In]. split; split.
    + intros [].
    + intros [H _]. now elim H.
    + intros [].
    + discriminate.
  - set (rr := t :: rest).
    destruct (risk_notes_in (forallb elevated (last_n 3 rr)) (climbing rr)
                (if Qlt_le_dec avg_sentiment (- (3 # 10))
                 then ["Overall negative sentiment."] else []))
      as [Hs Hc].
    { intros x. destruct (Qlt_le_dec avg_sentiment (- (3 # 10)));
        cbn [In]; intros H; [destruct H as [<- | []]; reflexivity | destruct H]. }
    split; [| exact Hc].
    rewrite Hs. split; [intros H; split; [discriminate | exact H] | tauto].
Qed.

(** C7, at the failing input.  After ONE message, assessed CAUTION, the
    recomputed metrics of the session carry the note "Sustained elevated
    risk across last three turns.", although the session has one message
    and not three.  (The "climbing" half of the claim holds: see
    [trend_notes_of_spec].) *)
Theorem sustained_note_after_one_message :
  exists res w',
    append_message demo_clock caution_tracker "s1" USER "I feel lost"
      demo_world
    = (Return res, w')
    /\ SessionMetrics.message_count (MessageAppendResult.metrics res) = 1%nat
    /\ map MessageRecord.risk_tier (list_messages_of "s1" w') = [CAUTION]
    /\ metrics_table w' !! "s1" = Some (MessageAppendResult.metrics res)
    /\ In sustained_note
         (SessionMetrics.trend_notes (MessageAppendResult.metrics res)).
Proof.
  eexists. eexists. split; [vm_compute; reflexivity |].
  split; [reflexivity |]. split; [reflexivity |].
  split; [vm_compute; reflexivity |]. vm_compute. tauto.
Qed.

(** * Further properties *)

(** ** The tokenizer and the sentiment scorer *)

Lemma is_word_char_lower (c : ascii) :
  is_word_char (lower_char c) = is_word_char c.
Proof.
  destruct c as [[] [] [] [] [] [] [] []]; reflexivity.
Qed.

Lemma lower_char_idem (c : ascii) : lower_char (lower_char c) = lower_char c.
Proof.
  destruct c as [[] [] [] [] [] [] [] []]; reflexivity.
Qed.

Lemma lower_append (a b : string) : lower (a +:+ b) = lower a +:+ lower b.
Proof. induction a as [| c a IH]; simpl; [reflexivity | now rewrite IH]. Qed.

Lemma lower_empty_eqb (s : string) :
  String.eqb (lower s) "" = String.eqb s "".
Proof. destruct s; reflexivity. Qed.

Lemma findall_from_lower (s : string) :
  forall cur,
    map lower (findall_from s cur) = findall_from (lower s) (lower cur).
Proof.
  induction s as [| c s IH]; intros cur; cbn [findall_from lower].
  - rewrite lower_empty_eqb. destruct (String.eqb cur ""); reflexivity.
  - rewrite is_word_char_lower, lower_empty_eqb.
    destruct (is_word_char c).
    + rewrite IH, lower_append. reflexivity.
    + destruct (String.eqb cur ""); cbn [map]; now rewrite IH.
Qed.

Lemma tokenize_lower (text : string) :
  tokenize text = _WORD_RE_findall (lower text).
Proof. unfold tokenize, _WORD_RE_findall. apply findall_from_lower. Qed.

(** X1.  On ASCII text [SentimentAnalyzer.score] does not look at letter
    case: two ASCII texts that are equal once lower-cased get the same
    result.  The texts are ASCII because [lower] is [str.lower] there
    only: [str.lower] also turns some letters beyond ASCII, such as the
    Kelvin sign, into ASCII letters, which the tokens, cut before they
    are lower-cased, cannot contain. *)
Theorem score_ignores_case (text1 text2 : string) :
  is_ascii text1 = true ->
  is_ascii text2 = true ->
  lower text1 = lower text2 -> score text1 = score text2.
Proof.
  intros _ _ H. unfold score. now rewrite !tokenize_lower, H.
Qed.

Lemma score_ignores_case_witness :
  score "I am NOT Calm" = score "i am not calm".
Proof. apply score_ignores_case; reflexivity. Defined.

Lemma modifier_unit (tokens : list string) (idx : nat) :
  modifier tokens idx = 1%Z \/ modifier tokens idx = (-1)%Z.
Proof.
  unfold modifier.
  destruct ((0 <? idx)%nat
            && match tokens !! (idx - 1)%nat with
               | Some prev => in_table prev NEGATIONS
               | None => false
               end); auto.
Qed.

Lemma score_step_shape (tokens : list string) (acc : score_acc) (i : nat)
    (w : string) :
  let next := score_step tokens acc (i, w) in
  let hit := if is_lexicon w then [w] else [] in
  acc_matched next = acc_matched acc ++ hit
  /\ acc_total next = (acc_total acc + Z.of_nat (length hit))%Z
  /\ (Z.abs (acc_score next - acc_score acc) <= Z.of_nat (length hit))%Z.
Proof.
  cbn zeta. unfold score_step, is_lexicon.
  destruct (modifier_unit tokens i) as [Hmod | Hmod]; rewrite Hmod;
    destruct (in_table w POSITIVE_WORDS);
    try destruct (in_table w NEGATIVE_WORDS);
    cbn [orb acc_matched acc_total acc_score length];
    rewrite ?app_nil_r; repeat split; lia.
Qed.

(** What the loop of [score] leaves in its three variables. *)
Lemma score_fold_shape (tokens rest : list string) :
  forall (i : nat) (acc : score_acc),
    let final :=
      fold_left (score_step tokens) (enumerate_from i rest) acc in
    let hits := List.filter is_lexicon rest in
    acc_matched final = acc_matched acc ++ hits
    /\ acc_total final = (acc_total acc + Z.of_nat (length hits))%Z
    /\ (Z.abs (acc_score final - acc_score acc) <= Z.of_nat (length hits))%Z.
Proof.
  induction rest as [| w rest IH]; intros i acc; cbn zeta.
  - cbn [enumerate_from fold_left List.filter length].
    rewrite app_nil_r. repeat split; lia.
  - cbn [enumerate_from fold_left].
    specialize (IH (S i) (score_step tokens acc (i, w))). cbn zeta in IH.
    destruct IH as (Hm & Ht & Hs).
    destruct (score_step_shape tokens acc i w) as (Hm1 & Ht1 & Hs1).
    cbn zeta in Hm1, Ht1, Hs1.
    assert (Hf : List.filter is_lexicon (w :: rest)
                 = (if is_lexicon w then [w] else [])
                   ++ List.filter is_lexicon rest).
    { cbn [List.filter]. destruct (is_lexicon w); reflexivity. }
    rewrite Hf, Hm, Ht, Hm1, Ht1, length_app, <- app_assoc.
    repeat split; lia.
Qed.

Lemma score_loop_shape (tokens : list string) :
  let hits := List.filter is_lexicon tokens in
  acc_matched (score_loop tokens) = hits
  /\ acc_total (score_loop tokens) = Z.of_nat (length hits)
  /\ (Z.abs (acc_score (score_loop tokens)) <= Z.of_nat (length hits))%Z.
Proof.
  cbn zeta. unfold score_loop, enumerate.
  destruct (score_fold_shape tokens tokens 0 (mk_acc 0 0 []))
    as (Hm & Ht & Hs).
  cbn [acc_matched acc_total acc_score] in Hm, Ht, Hs.
  rewrite Z.sub_0_r in Hs. repeat split; assumption.
Qed.

Lemma round_half_even_between (x : Q) (a b : Z) :
  (inject_Z a <= x)%Q -> (x <= inject_Z b)%Q ->
  (a <= round_half_even x <= b)%Z.
Proof.
  intros Ha Hb. unfold round_half_even.
  destruct x as [n d]. unfold Qle in Ha, Hb. cbn [Qnum Qden inject_Z] in *.
  assert (Hd : (0 < Z.pos d)%Z) by lia.
  pose proof (Z.mod_pos_bound n (Z.pos d) Hd) as Hm.
  assert (Hf0 : (a <= n / Z.pos d)%Z) by (apply Z.div_le_lower_bound; lia).
  assert (Hf1 : (n / Z.pos d <= b)%Z) by (apply Z.div_le_upper_bound; lia).
  assert (Hup : (0 < n mod Z.pos d -> n / Z.pos d + 1 <= b)%Z).
  { intros Hr. assert (n / Z.pos d < b)%Z; [| lia].
    apply Z.div_lt_upper_bound; [lia |].
    destruct (Z.eq_dec n (b * Z.pos d)%Z) as [-> | Hne]; [| lia].
    rewrite Z.mod_mul in Hr; lia. }
  destruct (2 * (n mod Z.pos d) ?= Z.pos d)%Z eqn:E.
  - apply Z.compare_eq in E. destruct (Z.even (n / Z.pos d)); lia.
  - lia.
  - apply Z.compare_gt_iff in E. lia.
Qed.

Lemma py_round3_between (x : Q) (a b : Z) :
  (a # 1000 <= x)%Q -> (x <= b # 1000)%Q ->
  (a # 1000 <= py_round3 x <= b # 1000)%Q.
Proof.
  intros Ha Hb. unfold py_round3.
  assert (H : (a <= round_half_even (x * 1000) <= b)%Z).
  { apply round_half_even_between; destruct x as [n d];
      unfold Qle in *; cbn [Qnum Qden inject_Z Qmult] in *;
      rewrite ?Pos2Z.inj_mul; lia. }
  split; rewrite Qred_correct; unfold Qle; cbn [Qnum Qden]; lia.
Qed.

(** The quotient [score / total] of [score]. *)
Lemma normalized_between (s t : Z) :
  (0 < t)%Z -> (Z.abs s <= t)%Z ->
  (-1000 # 1000 <= inject_Z s / inject_Z t)%Q
  /\ (inject_Z s / inject_Z t <= 1000 # 1000)%Q.
Proof.
  intros Ht Hs.
  assert (Hpos : (0 < inject_Z t)%Q) by (unfold Qlt; simpl; lia).
  split.
  - apply Qle_shift_div_l; [exact Hpos |]. unfold Qle. simpl. lia.
  - apply Qle_shift_div_r; [exact Hpos |]. unfold Qle. simpl. lia.
Qed.

(** X2.  The result of [SentimentAnalyzer.score]: the matched tokens are
    the lexicon words among the tokens of the text, in their order; the
    score lies between -1 and 1; and a text without a lexicon word scores
    0.0, band NEUTRAL, with no token. *)
Theorem score_range_and_tokens (text : string) :
  SentimentResult.tokens (score text)
  = List.filter is_lexicon (tokenize text)
  /\ (-1 <= SentimentResult.score (score text) <= 1)%Q
  /\ (List.filter is_lexicon (tokenize text) = [] ->
      score text = SentimentResult.mk 0 NEUTRAL []).
Proof.
  destruct (score_loop_shape (tokenize text)) as (Hm & Ht & Hs).
  cbn zeta in Hm, Ht, Hs. unfold score.
  cbn [SentimentResult.tokens SentimentResult.score].
  split; [exact Hm |]. split.
  - destruct (acc_total (score_loop (tokenize text)) =? 0)%Z eqn:E.
    + vm_compute. split; discriminate.
    + apply Z.eqb_neq in E.
      destruct (normalized_between (acc_score (score_loop (tokenize text)))
                  (acc_total (score_loop (tokenize text)))) as [Hlo Hhi];
        [lia | lia |].
      destruct (py_round3_between _ (-1000) 1000 Hlo Hhi) as [Rlo Rhi].
      split.
      * eapply Qle_trans; [| exact Rlo]. unfold Qle. simpl. lia.
      * eapply Qle_trans; [exact Rhi |]. unfold Qle. simpl. lia.
  - intros Hnone. rewrite Hm, Ht, Hnone. reflexivity.
Qed.

(** X3.  The band and the score that [score] returns agree up to the
    thresholds: with POSITIVE the score is at least 0.1, with NEGATIVE at
    most -0.1, and with NEUTRAL it lies between -0.1 and 0.1. *)
Theorem score_band_agrees_with_score (text : string) :
  match SentimentResult.band (score text) with
  | POSITIVE => (1 # 10 <= SentimentResult.score (score text))%Q
  | NEGATIVE => (SentimentResult.score (score text) <= - (1 # 10))%Q
  | NEUTRAL =>
      (- (1 # 10) <= SentimentResult.score (score text) <= 1 # 10)%Q
  end.
Proof.
  destruct (score_loop_shape (tokenize text)) as (_ & Ht & Hs).
  cbn zeta in Ht, Hs. unfold score.
  cbn [SentimentResult.band SentimentResult.score].
  set (nrm := if (acc_total (score_loop (tokenize text)) =? 0)%Z then 0%Q
              else (inject_Z (acc_score (score_loop (tokenize text)))
                    / inject_Z (acc_total (score_loop (tokenize text))))%Q).
  assert (Hn : (-1000 # 1000 <= nrm)%Q /\ (nrm <= 1000 # 1000)%Q).
  { unfold nrm.
    destruct (acc_total (score_loop (tokenize text)) =? 0)%Z eqn:E.
    - split; discriminate.
    - apply Z.eqb_neq in E. apply normalized_between; lia. }
  destruct Hn as [Hlo Hhi].
  destruct (Qlt_le_dec (1 # 10) nrm) as [Hpos | Hnp].
  - assert (H : (100 # 1000 <= nrm)%Q).
    { apply Qlt_le_weak in Hpos. eapply Qle_trans; [| exact Hpos].
      unfold Qle. simpl. lia. }
    destruct (py_round3_between _ 100 1000 H Hhi) as [R _].
    eapply Qle_trans; [| exact R]. unfold Qle. simpl. lia.
  - destruct (Qlt_le_dec nrm (- (1 # 10))) as [Hneg | Hnn].
    + assert (H : (nrm <= -100 # 1000)%Q).
      { apply Qlt_le_weak in Hneg. eapply Qle_trans; [exact Hneg |].
        unfold Qle. simpl. lia. }
      destruct (py_round3_between _ (-1000) (-100) Hlo H) as [_ R].
      eapply Qle_trans; [exact R |]. unfold Qle. simpl. lia.
    + assert (H1 : (-100 # 1000 <= nrm)%Q).
      { eapply Qle_trans; [| exact Hnn]. unfold Qle. simpl. lia. }
      assert (H2 : (nrm <= 100 # 1000)%Q).
      { eapply Qle_trans; [exact Hnp |]. unfold Qle. simpl. lia. }
      destruct (py_round3_between _ (-100) 100 H1 H2) as [Rlo Rhi].
      split.
      * eapply Qle_trans; [| exact Rlo]. unfold Qle. simpl. lia.
      * eapply Qle_trans; [exact Rhi |]. unfold Qle. simpl. lia.
Qed.

(** ** Local keyword extraction *)

Lemma string_forall_append (p : ascii -> bool) (a b : string) :
  string_forall p (a +:+ b) = string_forall p a && string_forall p b.
Proof.
  induction a as [| c a IH]; simpl; [reflexivity |].
  now rewrite IH, andb_assoc.
Qed.

(** Every match of [_WORD_RE] is a non-empty run of characters of its
    class. *)
Lemma findall_from_word_chars (s : string) :
  forall cur tok,
    string_forall is_word_char cur = true ->
    In tok (findall_from s cur) ->
    string_forall is_word_char tok = true /\ tok <> "".
Proof.
  induction s as [| c s IH]; intros cur tok Hcur; cbn [findall_from].
  - destruct (String.eqb_spec cur ""); [intros [] |].
    intros [<- | []]. split; assumption.
  - destruct (is_word_char c) eqn:Hc.
    + apply IH. rewrite string_forall_append, Hcur. simpl. now rewrite Hc.
    + destruct (String.eqb_spec cur "").
      * apply IH. reflexivity.
      * intros [<- | Hin]; [split; assumption |].
        revert Hin. apply IH. reflexivity.
Qed.

Lemma find_keywords_In (text k : string) (keywords : list string) :
  In k (_find_keywords text keywords)
  <-> In k keywords
      /\ (if str_contains k " " then str_contains text k
          else in_table k (_WORD_RE_findall text)) = true.
Proof. unfold _find_keywords. apply List.filter_In. Qed.

Lemma extract_keywords_In (text k : string) :
  In k (_extract_keywords text)
  <-> (In k CRISIS_PHRASES /\ str_contains (lower text) k = true)
      \/ (In k (HIGH_KEYWORDS ++ CAUTION_KEYWORDS)
          /\ (if str_contains k " " then str_contains (lower text) k
              else in_table k (tokenize text)) = true).
Proof.
  unfold _extract_keywords, _find_phrases.
  rewrite !in_app_iff, !find_keywords_In, List.filter_In, tokenize_lower.
  tauto.
Qed.

(** X4.  On ASCII text, local keyword extraction matches a HIGH or
    CAUTION keyword that has no space as a whole word: it is flagged
    exactly when it is one of the lower-cased tokens of the text (so
    "die" is not flagged by "diet").  The HIGH keyword "self-harm" has a
    hyphen, which no token has, and is flagged for no such text.  The
    text is ASCII because [_extract_keywords] lower-cases it before it
    cuts the tokens, and [lower] is [str.lower] on ASCII text only. *)
Theorem single_word_keywords_match_whole_tokens (text : string) :
  is_ascii text = true ->
  (forall k,
      In k (HIGH_KEYWORDS ++ CAUTION_KEYWORDS) ->
      str_contains k " " = false ->
      (In k (_extract_keywords text) <-> In k (tokenize text)))
  /\ ~ In "self-harm" (_extract_keywords text).
Proof.
  intros _. split.
  - intros k Hk Hspace. rewrite extract_keywords_In, Hspace, in_table_In.
    split.
    + intros [[Hcrisis _] | [_ H]]; [| exact H].
      exfalso. revert Hk Hcrisis. simpl.
      intros Hk Hcrisis.
      repeat (destruct Hk as [<- | Hk];
              [repeat (destruct Hcrisis as [Hcrisis | Hcrisis];
                       [discriminate Hcrisis |]); contradiction |]).
      contradiction.
    + intros H. right. split; assumption.
  - rewrite extract_keywords_In.
    intros [[Hcrisis _] | [_ H]].
    + simpl in Hcrisis.
      repeat (destruct Hcrisis as [Hcrisis | Hcrisis];
              [discriminate Hcrisis |]); contradiction.
    + change (str_contains "self-harm" " ") with false in H.
      apply in_table_In in H. rewrite tokenize_lower in H.
      destruct (findall_from_word_chars (lower text) "" "self-harm" eq_refl H)
        as [Hchars _].
      discriminate Hchars.
Qed.

Lemma single_word_keywords_match_whole_tokens_witness :
  In "die" (_extract_keywords "I do not want to DIE")
  <-> In "die" (tokenize "I do not want to DIE").
Proof.
  apply (proj1 (single_word_keywords_match_whole_tokens
                  "I do not want to DIE" eq_refl) "die").
  - simpl. tauto.
  - reflexivity.
Defined.

Example diet_is_not_die : _extract_keywords "I am on a diet" = [].
Proof. vm_compute. reflexivity. Qed.

(** ** The assessment: flagged keywords *)

Lemma sorted_insert_perm (x : string) (l : list string) :
  Permutation (sorted_insert x l) (x :: l).
Proof.
  induction l as [| y l IH]; cbn [sorted_insert]; [reflexivity |].
  destruct (String.leb x y); [reflexivity |].
  rewrite IH. apply perm_swap.
Qed.

Lemma sorted_perm (l : list string) : Permutation (sorted l) l.
Proof.
  unfold sorted. induction l as [| x l IH]; cbn [fold_right]; [reflexivity |].
  rewrite sorted_insert_perm. now apply perm_skip.
Qed.

Lemma sorted_insert_Sorted (x : string) (l : list string) :
  Sorted (fun a b => String.leb a b = true) l ->
  Sorted (fun a b => String.leb a b = true) (sorted_insert x l).
Proof.
  induction l as [| y l IH]; intros Hs; cbn [sorted_insert].
  - repeat constructor.
  - destruct (String.leb x y) eqn:E.
    + constructor; [exact Hs | now constructor].
    + apply Sorted_inv in Hs. destruct Hs as [Hs Hhd].
      constructor; [now apply IH |].
      assert (Hyx : String.leb y x = true).
      { destruct (String.leb_total x y) as [H | H]; congruence. }
      destruct l as [| z l]; cbn [sorted_insert].
      * now constructor.
      * destruct (String.leb x z); constructor; [exact Hyx |].
        now apply HdRel_inv in Hhd.
Qed.

Lemma sorted_Sorted (l : list string) :
  Sorted (fun a b => String.leb a b = true) (sorted l).
Proof.
  unfold sorted. induction l as [| x l IH]; cbn [fold_right].
  - constructor.
  - now apply sorted_insert_Sorted.
Qed.

Lemma py_set_NoDup (l : list string) : List.NoDup (py_set l).
Proof.
  induction l as [| x l IH]; cbn [py_set]; constructor.
  - rewrite List.filter_In. intros [_ H].
    now rewrite String.eqb_refl in H.
  - now apply List.NoDup_filter.
Qed.

Lemma leb_ne_ltb (a b : string) :
  String.leb a b = true -> a <> b -> String.ltb a b = true.
Proof.
  unfold String.leb, String.ltb. intros Hle Hne.
  destruct (String.compare a b) eqn:E; try reflexivity; try discriminate.
  apply String.compare_eq_iff in E. contradiction.
Qed.

Lemma Sorted_strict (l : list string) :
  Sorted (fun a b => String.leb a b = true) l ->
  List.NoDup l ->
  Sorted (fun a b => String.ltb a b = true) l.
Proof.
  induction l as [| x l IH]; intros Hs Hnd; [constructor |].
  apply Sorted_inv in Hs. destruct Hs as [Hs Hhd].
  apply List.NoDup_cons_iff in Hnd. destruct Hnd as [Hx Hnd].
  constructor; [now apply IH |].
  destruct l as [| y l]; constructor.
  apply HdRel_inv in Hhd. apply leb_ne_ltb; [exact Hhd |].
  intros ->. apply Hx. now left.
Qed.

(** The keywords that the loop of [_apply_adapters] collects. *)
Lemma apply_adapters_flagged (text : string) (sentiment : SentimentResult.t)
    (ads : list RiskAdapter.t) :
  forall (acc : adapter_acc) (k : string),
    In k (run_flagged (fold_left (adapter_step text sentiment) ads acc))
    <-> In k (run_flagged acc)
        \/ exists r,
             In r (adapter_results text sentiment ads)
             /\ In k (RiskAssessment.flagged_keywords r).
Proof.
  induction ads as [| a ads IH]; intros acc k.
  - cbn [fold_left].
    change (adapter_results text sentiment []) with (@nil RiskAssessment.t).
    split; [now left | intros [H | (r & [] & _)]; exact H].
  - cbn [fold_left]. rewrite IH, adapter_results_cons.
    unfold adapter_step at 1.
    destruct (RiskAdapter.call a text sentiment) as [[result |] | exc];
      cbn [run_flagged].
    + rewrite in_app_iff. split.
      * intros [[H | H] | (r & Hr & Hk)]; [now left | |].
        -- right. exists result. split; [now left | exact H].
        -- right. exists r. split; [now right | exact Hk].
      * intros [H | (r & [<- | Hr] & Hk)].
        -- left. now left.
        -- left. now right.
        -- right. exists r. split; assumption.
    + reflexivity.
    + reflexivity.
Qed.

(** X5.  The flagged keywords that [assess] returns are in strictly
    increasing order, so without duplicates, and they are exactly the
    keywords of the external model, the local keywords of the text and
    the keywords that the adapters returned. *)
Theorem assess_flagged_keywords_sorted_unique
    (self : RiskClassifier) (text : string) (sentiment : SentimentResult.t)
    (recent_tiers : list RiskTier) :
  exists rag result,
    _rag_assess self text = Return rag
    /\ assess self text sentiment recent_tiers = Return result
    /\ Sorted (fun a b => String.ltb a b = true)
         (RiskAssessment.flagged_keywords result)
    /\ forall k,
         In k (RiskAssessment.flagged_keywords result)
         <-> In k (RiskAssessment.flagged_keywords (baseline rag))
             \/ In k (_extract_keywords text)
             \/ exists r,
                  In r (adapter_results text sentiment (adapters self))
                  /\ In k (RiskAssessment.flagged_keywords r).
Proof.
  destruct (rag_assess_returns self text) as [rag Hrag].
  exists rag. eexists. split; [exact Hrag |].
  split; [apply (assess_unfold _ _ _ _ _ Hrag) |].
  cbn zeta. cbn [RiskAssessment.flagged_keywords]. split.
  - apply Sorted_strict; [apply sorted_Sorted |].
    eapply Permutation_NoDup; [symmetry; apply sorted_perm |].
    apply py_set_NoDup.
  - intros k. rewrite In_sorted, In_py_set, !in_app_iff.
    unfold _apply_adapters. rewrite apply_adapters_flagged.
    cbn [run_flagged In]. tauto.
Qed.

(** ** Suggested resources *)

Lemma suggest_resources_high_has_hotline (keywords : list string)
    (tier : RiskTier) :
  tier = HIGH \/ tier = CRISIS ->
  existsb is_hotline (suggest_resources keywords tier) = true.
Proof.
  intros Htier. unfold suggest_resources.
  change (fun res => String.eqb (res_type res) "hotline") with is_hotline.
  rewrite bool_decide_eq_true_2 by exact Htier. cbn [andb].
  destruct (existsb is_hotline (omap (dict_get RESOURCE_MAP) keywords)) eqn:E;
    cbn [negb].
  - exact E.
  - rewrite existsb_app. cbn. now rewrite orb_true_r.
Qed.

(** X6.  [suggest_resources] returns the entries of [RESOURCE_MAP] for
    the keywords that have one, in the order of the keywords, followed by
    at most one more resource: nothing is added for tier OK or CAUTION,
    nor when one of the entries is a hotline; the 988 hotline is added
    for tier HIGH or CRISIS when none of the entries is a hotline.  So
    for HIGH or CRISIS the result always holds a hotline. *)
Theorem suggest_resources_hotline (keywords : list string) (tier : RiskTier) :
  let entries := omap (dict_get RESOURCE_MAP) keywords in
  ((tier = HIGH \/ tier = CRISIS) ->
   existsb is_hotline (suggest_resources keywords tier) = true)
  /\ ((tier = OK \/ tier = CAUTION) ->
      suggest_resources keywords tier = entries)
  /\ (existsb is_hotline entries = true ->
      suggest_resources keywords tier = entries)
  /\ ((tier = HIGH \/ tier = CRISIS) ->
      existsb is_hotline entries = false ->
      suggest_resources keywords tier = entries ++ [default_hotline]).
Proof.
  intros entries. split; [apply suggest_resources_high_has_hotline |].
  unfold suggest_resources. fold entries.
  change (fun res => String.eqb (res_type res) "hotline") with is_hotline.
  split; [| split].
  - intros Htier.
    rewrite bool_decide_eq_false_2; [reflexivity |].
    destruct Htier as [-> | ->]; intros [H | H]; discriminate.
  - intros Hhot. rewrite Hhot. cbn [negb]. now rewrite andb_false_r.
  - intros Htier Hnone.
    rewrite bool_decide_eq_true_2 by exact Htier. rewrite Hnone. reflexivity.
Qed.

Lemma suggest_resources_hotline_witness :
  suggest_resources ["lonely"; "hopeless"] HIGH
  = omap (dict_get RESOURCE_MAP) ["lonely"; "hopeless"] ++ [default_hotline].
Proof.
  apply (proj2 (proj2 (proj2
           (suggest_resources_hotline ["lonely"; "hopeless"] HIGH)))).
  - left. reflexivity.
  - reflexivity.
Defined.

(** ** Registering an adapter *)

(** X7.  Registering one more adapter, with [add_adapter] or through the
    tracker's [register_risk_adapter], can only escalate: for every text
    the tier assessed afterwards is at least as severe as the tier
    assessed before, every keyword flagged before is still flagged, and
    the notes of before are a prefix of the notes afterwards. *)
Theorem register_risk_adapter_only_escalates
    (tracker : SessionTracker) (adapter : RiskAdapter.t) (text : string)
    (sentiment : SentimentResult.t) (recent_tiers : list RiskTier) :
  exists before after,
    assess (risk_classifier tracker) text sentiment recent_tiers
    = Return before
    /\ assess (risk_classifier (register_risk_adapter tracker adapter)) text
         sentiment recent_tiers
       = Return after
    /\ buffer_size (register_risk_adapter tracker adapter)
       = buffer_size tracker
    /\ (_RISK_SEVERITY (RiskAssessment.tier before)
        <= _RISK_SEVERITY (RiskAssessment.tier after))%Z
    /\ (forall k,
          In k (RiskAssessment.flagged_keywords before) ->
          In k (RiskAssessment.flagged_keywords after))
    /\ exists added,
         RiskAssessment.notes after = RiskAssessment.notes before ++ added.
Proof.
  destruct (rag_assess_returns (risk_classifier tracker) text) as [rag Hrag].
  assert (Hrag' :
    _rag_assess (risk_classifier (register_risk_adapter tracker adapter)) text
    = Return rag) by exact Hrag.
  eexists. eexists.
  split; [apply (assess_unfold _ _ _ _ _ Hrag) |].
  split; [apply (assess_unfold _ _ _ _ _ Hrag') |].
  split; [reflexivity |].
  cbn zeta.
  cbn [RiskAssessment.tier RiskAssessment.flagged_keywords
       RiskAssessment.notes].
  unfold _apply_adapters.
  cbn [register_risk_adapter risk_classifier add_adapter adapters].
  rewrite fold_left_app. cbn [fold_left].
  set (old := fold_left (adapter_step text sentiment)
                (adapters (risk_classifier tracker)) _).
  split; [apply adapter_step_tier_mono |]. split.
  - intros k. rewrite !In_sorted, !In_py_set, !in_app_iff.
    intros [H | H]; [now left | right].
    unfold adapter_step.
    destruct (RiskAdapter.call adapter text sentiment) as [[r |] | exc];
      cbn [run_flagged]; [apply in_or_app; now left | exact H | exact H].
  - destruct old as [t s f n].
    destruct (adapter_step_notes text sentiment adapter t s f)
      as (t' & s' & f' & added & Hstep).
    rewrite Hstep. cbn [run_notes]. exists added. now rewrite app_assoc.
Qed.

(** ** Normalising the score of the external model *)

Lemma py_max_0_nonneg (x : Q) : (0 <= x)%Q -> (py_max 0 x == x)%Q.
Proof.
  intros H. unfold py_max. destruct (x ?= 0)%Q eqn:E.
  - apply Qeq_alt in E. now rewrite E.
  - apply Qlt_alt in E. exfalso. apply (Qlt_not_le _ _ E H).
  - reflexivity.
Qed.

Lemma py_min_1_le (x : Q) : (x <= 1)%Q -> (py_min 1 x == x)%Q.
Proof.
  intros H. unfold py_min. destruct (x ?= 1)%Q eqn:E.
  - apply Qeq_alt in E. now rewrite E.
  - reflexivity.
  - apply Qgt_alt in E. exfalso. apply (Qlt_not_le _ _ E H).
Qed.

Lemma py_min_1_ge (x : Q) : (1 <= x)%Q -> (py_min 1 x == 1)%Q.
Proof.
  intros H. unfold py_min. destruct (x ?= 1)%Q eqn:E.
  - reflexivity.
  - apply Qlt_alt in E. exfalso. apply (Qlt_not_le _ _ E H).
  - reflexivity.
Qed.

Lemma clamp_inside (x : Q) :
  (0 <= x)%Q -> (x <= 1)%Q -> (py_max 0 (py_min 1 x) == x)%Q.
Proof.
  intros H0 H1. rewrite py_max_0_nonneg.
  - now apply py_min_1_le.
  - now rewrite py_min_1_le.
Qed.

Lemma clamp_above (x : Q) : (1 <= x)%Q -> (py_max 0 (py_min 1 x) == 1)%Q.
Proof.
  intros H1. rewrite py_max_0_nonneg.
  - now apply py_min_1_ge.
  - rewrite py_min_1_ge by exact H1. discriminate.
Qed.

Lemma clamp_below (x : Q) : (x <= 0)%Q -> (py_max 0 (py_min 1 x) == 0)%Q.
Proof.
  intros H0.
  assert (Hm : (py_min 1 x == x)%Q).
  { apply py_min_1_le. eapply Qle_trans; [exact H0 | discriminate]. }
  unfold py_max. destruct (py_min 1 x ?= 0)%Q eqn:E; try reflexivity.
  apply Qgt_alt in E. rewrite Hm in E.
  exfalso. apply (Qlt_not_le _ _ E H0).
Qed.

(** [_normalize_score] of the contract, in closed form. *)
Lemma normalize_score_contract_cases (q : Q) :
  _normalize_score FloatTypeError = 0%Q
  /\ _normalize_score FloatValueError = 0%Q
  /\ ((q <= 0)%Q -> (_normalize_score (FloatOf q) == 0)%Q)
  /\ ((0 <= q <= 1)%Q -> (_normalize_score (FloatOf q) == q)%Q)
  /\ ((1 < q)%Q -> (q <= 3)%Q -> (_normalize_score (FloatOf q) == q / 3)%Q)
  /\ ((3 <= q)%Q -> (_normalize_score (FloatOf q) == 1)%Q)
  /\ ((1 < q)%Q -> (q < 3)%Q ->
      (_normalize_score (FloatOf q) < _normalize_score (FloatOf 1))%Q)
  /\ (_normalize_score (FloatOf (_normalize_score (FloatOf q)))
      == _normalize_score (FloatOf q))%Q.
Proof.
  assert (Hmid : (0 <= q <= 1)%Q -> (_normalize_score (FloatOf q) == q)%Q).
  { intros [H0 H1]. unfold _normalize_score. cbn [float].
    destruct (Qlt_le_dec 1 q) as [Hlt | _];
      [exfalso; apply (Qlt_not_le _ _ Hlt H1) |].
    now apply clamp_inside. }
  assert (Hhigh : (1 < q)%Q -> (q <= 3)%Q ->
                  (_normalize_score (FloatOf q) == q / 3)%Q).
  { intros H1 H3. unfold _normalize_score. cbn [float].
    destruct (Qlt_le_dec 1 q) as [_ | Hle];
      [| exfalso; apply (Qlt_not_le _ _ H1 Hle)].
    apply clamp_inside.
    - apply Qle_shift_div_l; [reflexivity |]. rewrite Qmult_0_l.
      apply Qlt_le_weak. eapply Qlt_trans; [| exact H1]. reflexivity.
    - apply Qle_shift_div_r; [reflexivity |]. now rewrite Qmult_1_l. }
  split; [reflexivity |]. split; [reflexivity |].
  split; [| split; [exact Hmid | split; [exact Hhigh | split; [| split]]]].
  - intros H0. unfold _normalize_score. cbn [float].
    destruct (Qlt_le_dec 1 q) as [Hlt | _].
    { exfalso. apply (Qlt_not_le _ _ Hlt). eapply Qle_trans; [exact H0 |].
      discriminate. }
    now apply clamp_below.
  - intros H3. unfold _normalize_score. cbn [float].
    destruct (Qlt_le_dec 1 q) as [_ | Hle].
    + apply clamp_above.
      apply Qle_shift_div_l; [reflexivity |]. now rewrite Qmult_1_l.
    + exfalso. apply (Qle_not_lt _ _ Hle).
      eapply Qlt_le_trans; [| exact H3]. reflexivity.
  - intros H1 H3.
    rewrite (Hhigh H1 (Qlt_le_weak _ _ H3)).
    change (_normalize_score (FloatOf 1)) with 1%Q.
    apply Qlt_shift_div_r; [reflexivity |]. now rewrite Qmult_1_l.
  - destruct (normalize_score_bounds (FloatOf q)) as [H0 H1].
    set (n := _normalize_score (FloatOf q)) in *.
    unfold _normalize_score. cbn [float].
    destruct (Qlt_le_dec 1 n) as [Hlt | _];
      [exfalso; apply (Qlt_not_le _ _ Hlt H1) |].
    now apply clamp_inside.
Qed.

(** X8.  [_normalize_score] in closed form, for whatever [float] makes
    of the value.  When [float] raises TypeError or ValueError the result
    is 0.0; when it raises OverflowError, [_normalize_score] raises it
    too.  NaN and plus infinity give 1.0, minus infinity gives 0.0.  A
    finite number at most 0 gives 0.0; one between 0 and 1 is kept; one
    above 1 and at most 3 is divided by 3; one of 3 or more gives 1.0.
    Hence every result is a finite number between 0 and 1, the result of
    a raw score strictly between 1 and 3 is below the result 1.0 of the
    raw score 1.0, and normalising a result again gives it back. *)
Theorem normalize_score_closed_form (q : Q) :
  Untyped._normalize_score Untyped.FloatTypeError
  = Return (Untyped.Finite 0)
  /\ Untyped._normalize_score Untyped.FloatValueError
     = Return (Untyped.Finite 0)
  /\ Untyped._normalize_score Untyped.FloatOverflowError
     = Raise (mk_exc OverflowError "int too large to convert to float")
  /\ Untyped._normalize_score (Untyped.FloatIs Untyped.NaN)
     = Return (Untyped.Finite 1)
  /\ Untyped._normalize_score (Untyped.FloatIs Untyped.PosInf)
     = Return (Untyped.Finite 1)
  /\ Untyped._normalize_score (Untyped.FloatIs Untyped.NegInf)
     = Return (Untyped.Finite 0)
  /\ Untyped._normalize_score (Untyped.FloatIs (Untyped.Finite 1))
     = Return (Untyped.Finite 1)
  /\ exists r,
       Untyped._normalize_score (Untyped.FloatIs (Untyped.Finite q))
       = Return (Untyped.Finite r)
       /\ (0 <= r <= 1)%Q
       /\ ((q <= 0)%Q -> (r == 0)%Q)
       /\ ((0 <= q <= 1)%Q -> (r == q)%Q)
       /\ ((1 < q)%Q -> (q <= 3)%Q -> (r == q / 3)%Q)
       /\ ((3 <= q)%Q -> (r == 1)%Q)
       /\ ((1 < q)%Q -> (q < 3)%Q -> (r < 1)%Q)
       /\ exists r2,
            Untyped._normalize_score (Untyped.FloatIs (Untyped.Finite r))
            = Return (Untyped.Finite r2)
            /\ (r2 == r)%Q.
Proof.
  do 7 (split; [reflexivity |]).
  exists (_normalize_score (FloatOf q)).
  destruct (normalize_score_contract_cases q)
    as (_ & _ & Hneg & Hmid & Hhigh & Htop & Hdip & Hidem).
  split; [apply (normalize_score_widen (FloatOf q)) |].
  split; [apply normalize_score_bounds |].
  split; [exact Hneg |]. split; [exact Hmid |]. split; [exact Hhigh |].
  split; [exact Htop |]. split; [exact Hdip |].
  exists (_normalize_score (FloatOf (_normalize_score (FloatOf q)))).
  split; [| exact Hidem].
  apply (normalize_score_widen (FloatOf (_normalize_score (FloatOf q)))).
Qed.

Lemma normalize_score_closed_form_witness :
  exists r,
    Untyped._normalize_score (Untyped.FloatIs (Untyped.Finite 2))
    = Return (Untyped.Finite r)
    /\ (r == 2 / 3)%Q.
Proof.
  destruct (normalize_score_closed_form 2)
    as (_ & _ & _ & _ & _ & _ & _ & r & Hrun & _ & _ & _ & Hhigh & _).
  exists r. split; [exact Hrun |].
  apply Hhigh; [reflexivity | unfold Qle; simpl; lia].
Defined.

(** ** Entry points of the external model *)

(** X9.  [_call_rag_fn] calls the first of the names "assess", "analyze",
    "analyze_text", "evaluate", "predict", "classify", "run" that the
    module has, whatever later names it also has; for a module that has
    none of them [_rag_assess] does not raise but answers with no
    assessment and the note that the entry point is missing. *)
Theorem rag_entry_point_priority (rag_mod : rag_module) (text : string) :
  (forall earlier name later f,
      rag_entry_points = earlier ++ name :: later ->
      (forall n, In n earlier -> getattr rag_mod n = None) ->
      getattr rag_mod name = Some f ->
      _call_rag_fn rag_mod text = f text)
  /\ ((forall n, In n rag_entry_points -> getattr rag_mod n = None) ->
      forall ads,
        _rag_assess (mk_classifier ads (Some rag_mod)) text
        = Return
            (None,
             ["RAG risk module error: "
              +:+ "RAG risk module is missing a callable entry point."])).
Proof.
  split.
  - intros earlier name later f Hsplit Hnone Hsome.
    unfold _call_rag_fn. fold rag_entry_points.
    assert (Hfind :
      list_find (fun n => bool_decide (is_Some (getattr rag_mod n)))
        rag_entry_points = Some (length earlier, name)).
    { apply list_find_Some. rewrite Hsplit. split; [| split].
      - now apply list_lookup_middle.
      - apply bool_decide_pack. rewrite Hsome. eauto.
      - intros j y Hj Hlt Hy. apply bool_decide_unpack in Hy.
        rewrite lookup_app_l in Hj by exact Hlt.
        apply list_elem_of_lookup_2, list_elem_of_In in Hj.
        rewrite (Hnone y Hj) in Hy. destruct Hy as [? Hy]. discriminate. }
    rewrite Hfind, Hsome. reflexivity.
  - intros Hnone ads. unfold _rag_assess. cbn [_rag_module].
    unfold _call_rag_fn. fold rag_entry_points.
    assert (Hfind :
      list_find (fun n => bool_decide (is_Some (getattr rag_mod n)))
        rag_entry_points = None).
    { apply list_find_None. apply Forall_forall. intros n Hn Hy.
      apply bool_decide_unpack in Hy. apply list_elem_of_In in Hn.
      rewrite (Hnone n Hn) in Hy. destruct Hy as [? Hy]. discriminate. }
    rewrite Hfind. reflexivity.
Qed.

Lemma rag_entry_point_priority_witness :
  _call_rag_fn
    [("run", fun _ => Return RagNotADict);
     ("analyze", fun _ => Raise (mk_exc OtherException "down"))]
    "hello"
  = Raise (mk_exc OtherException "down").
Proof.
  apply (proj1 (rag_entry_point_priority
                  [("run", fun _ => Return RagNotADict);
                   ("analyze", fun _ => Raise (mk_exc OtherException "down"))]
                  "hello")
           ["assess"] "analyze"
           ["analyze_text"; "evaluate"; "predict"; "classify"; "run"]
           (fun _ => Raise (mk_exc OtherException "down"))).
  - reflexivity.
  - intros n [<- | []]. reflexivity.
  - reflexivity.
Defined.

(** ** Session tracker: creating a session *)

Lemma get_buffer_run (self : SessionTracker) (session_id : string)
    (w : World) :
  get_buffer self session_id w
  = match buffers w !! session_id with
    | Some buffer => (Return buffer, w)
    | None =>
        match sessions w !! session_id with
        | None =>
            (Raise (mk_exc SessionNotFound
                      ("Session '" +:+ session_id +:+ "' not found.")), w)
        | Some _ =>
            let snapshot :=
              BufferSnapshot.mk session_id
                (last_n (buffer_size self) (list_messages_of session_id w))
                (buffer_size self) in
            (Return snapshot,
             mk_world (sessions w) (messages w)
               (<[session_id := snapshot]> (buffers w)) (metrics_table w)
               (next_message_id w) (clock_reads w) (uuid_reads w))
        end
    end.
Proof.
  unfold get_buffer. rewrite bind_run. unfold storage_load_buffer at 1.
  destruct (buffers w !! session_id) as [buffer |]; [reflexivity |].
  rewrite bind_run, get_session_run.
  destruct (sessions w !! session_id); reflexivity.
Qed.

Lemma create_session_run (utc_now_at : nat -> Z) (uuid4_at : nat -> string)
    (self : SessionTracker) (user_id : string)
    (metadata : list (string * string)) (w : World) :
  create_session utc_now_at uuid4_at self user_id metadata w
  = let id := uuid4_at (uuid_reads w) in
    let session :=
      SessionRecord.mk id user_id ACTIVE (utc_now_at (clock_reads w))
        (utc_now_at (S (clock_reads w))) OK metadata in
    (Return session,
     mk_world (<[id := session]> (sessions w)) (messages w)
       (<[id := BufferSnapshot.mk id [] (buffer_size self)]> (buffers w))
       (metrics_table w) (next_message_id w) (S (S (clock_reads w)))
       (S (uuid_reads w))).
Proof. reflexivity. Qed.

(** X10.  [create_session] returns a record that is ACTIVE, with tier OK,
    the given user and metadata and the identity drawn from [uuid4]; in
    the world it leaves, [get_session] finds that record and [get_buffer]
    finds an empty buffer of capacity [buffer_size]; no message and no
    metrics are touched, and the record and the buffer of every other
    identity are as before. *)
Theorem create_session_fresh_record (utc_now_at : nat -> Z)
    (uuid4_at : nat -> string) (self : SessionTracker) (user_id : string)
    (metadata : list (string * string)) (w : World) :
  exists s w',
    create_session utc_now_at uuid4_at self user_id metadata w
    = (Return s, w')
    /\ SessionRecord.id s = uuid4_at (uuid_reads w)
    /\ SessionRecord.status s = ACTIVE
    /\ SessionRecord.active_risk_tier s = OK
    /\ SessionRecord.user_id s = user_id
    /\ SessionRecord.metadata s = metadata
    /\ get_session (SessionRecord.id s) w' = (Return s, w')
    /\ get_buffer self (SessionRecord.id s) w'
       = (Return (BufferSnapshot.mk (SessionRecord.id s) [] (buffer_size self)),
          w')
    /\ messages w' = messages w
    /\ metrics_table w' = metrics_table w
    /\ forall other,
         other <> SessionRecord.id s ->
         sessions w' !! other = sessions w !! other
         /\ buffers w' !! other = buffers w !! other.
Proof.
  rewrite create_session_run. cbn zeta.
  eexists. eexists. split; [reflexivity |].
  cbn [SessionRecord.id SessionRecord.status SessionRecord.active_risk_tier
       SessionRecord.user_id SessionRecord.metadata BufferSnapshot.session_id].
  repeat (split; [reflexivity |]).
  split.
  { rewrite get_session_run. cbn [sessions].
    now rewrite lookup_insert_eq. }
  split.
  { rewrite get_buffer_run. cbn [buffers].
    now rewrite lookup_insert_eq. }
  repeat (split; [reflexivity |]).
  intros other Hne. cbn [sessions buffers].
  split; apply lookup_insert_ne; congruence.
Qed.

(** ** Session tracker: an ended session is closed *)

Lemma append_message_inactive_run (utc_now_at : nat -> Z)
    (self : SessionTracker) (session_id : string) (sender : SenderRole)
    (content : string) (w : World) (s : SessionRecord.t) :
  sessions w !! session_id = Some s ->
  SessionRecord.status s = ENDED ->
  append_message utc_now_at self session_id sender content w
  = (Raise (mk_exc SessionClosed
              ("Session '" +:+ session_id +:+ "' is not active.")), w).
Proof.
  intros Hs Hended. unfold append_message.
  rewrite bind_run, get_session_run, Hs.
  rewrite bool_decide_eq_false_2 by (rewrite Hended; discriminate).
  reflexivity.
Qed.

Lemma build_summary_duration (s : SessionRecord.t)
    (metrics : SessionMetrics.t) (flagged : list string) :
  (0 <= SessionSummary.duration_seconds (_build_summary s metrics flagged))%Z.
Proof.
  cbn [_build_summary SessionSummary.duration_seconds].
  apply Z.quot_pos; lia.
Qed.

Lemma end_session_run (utc_now_at : nat -> Z) (self : SessionTracker)
    (session_id : string) (w : World) (s : SessionRecord.t) :
  sessions w !! session_id = Some s ->
  exists summary w1 s1,
    end_session utc_now_at self session_id w = (Return summary, w1)
    /\ sessions w1 !! session_id = Some s1
    /\ SessionRecord.status s1 = ENDED
    /\ SessionSummary.session summary = s1
    /\ messages w1 = messages w
    /\ buffers w1 = buffers w
    /\ SessionSummary.notes summary
       = SessionMetrics.trend_notes (SessionSummary.metrics summary)
         ++ [ended_note]
    /\ metrics_table w1 !! session_id = Some (SessionSummary.metrics summary)
    /\ (0 <= SessionSummary.duration_seconds summary)%Z
    /\ (SessionRecord.status s = ACTIVE ->
        SessionSummary.metrics summary
        = metrics_of session_id (list_messages_of session_id w)
        /\ SessionRecord.active_risk_tier s1
           = SessionMetrics.max_risk_tier (SessionSummary.metrics summary)
        /\ SessionSummary.flagged_keywords summary
           = sorted (flagged_of (list_messages_of session_id w))).
Proof.
  intros Hs. destruct (SessionRecord.status s) eqn:Hstatus.
  - rewrite (end_session_active_run _ _ _ _ s Hs Hstatus). cbn zeta.
    eexists. eexists. eexists. split; [reflexivity |].
    split; [cbn [with_update sessions with_metrics];
            rewrite lookup_alter_eq, Hs; reflexivity |].
    split; [reflexivity |]. split; [reflexivity |].
    split; [reflexivity |]. split; [reflexivity |].
    split; [reflexivity |].
    split; [apply lookup_insert_eq |].
    split; [apply build_summary_duration |].
    intros _. repeat split.
  - rewrite (end_session_ended_run _ _ _ _ s Hs Hstatus).
    rewrite (get_summary_run _ _ _ s Hs). cbn zeta.
    destruct (metrics_table w !! session_id) as [metrics |] eqn:Hm.
    + exists (_build_summary s metrics
                (sorted (flagged_of (list_messages_of session_id w)))), w, s.
      split; [reflexivity |]. split; [exact Hs |]. split; [exact Hstatus |].
      split; [reflexivity |]. split; [reflexivity |]. split; [reflexivity |].
      split.
      { cbn [_build_summary SessionSummary.notes SessionSummary.metrics].
        rewrite bool_decide_eq_true_2 by exact Hstatus. reflexivity. }
      split; [exact Hm |].
      split; [apply build_summary_duration |]. intros H. discriminate H.
    + eexists. eexists. exists s. split; [reflexivity |].
      split; [exact Hs |]. split; [exact Hstatus |].
      split; [reflexivity |]. split; [reflexivity |]. split; [reflexivity |].
      split.
      { cbn [_build_summary SessionSummary.notes SessionSummary.metrics].
        rewrite bool_decide_eq_true_2 by exact Hstatus. reflexivity. }
      split; [apply lookup_insert_eq |].
      split; [apply build_summary_duration |]. intros H. discriminate H.
Qed.

(** X11.  ENDED is final for writes: after [end_session] on an existing
    session, whose messages it leaves as they are, every
    [append_message] to that session raises SessionClosed and changes
    nothing. *)
Theorem ended_session_rejects_messages (utc_now_at : nat -> Z)
    (self : SessionTracker) (session_id : string) (w : World)
    (s : SessionRecord.t) :
  sessions w !! session_id = Some s ->
  exists summary w1,
    end_session utc_now_at self session_id w = (Return summary, w1)
    /\ messages w1 = messages w
    /\ forall sender content,
         exists e,
           append_message utc_now_at self session_id sender content w1
           = (Raise e, w1)
           /\ exc_kind e = SessionClosed.
Proof.
  intros Hs.
  destruct (end_session_run utc_now_at self session_id w s Hs)
    as (summary & w1 & s1 & Hrun & Hs1 & Hended & _ & Hmsgs & _).
  exists summary, w1. split; [exact Hrun |]. split; [exact Hmsgs |].
  intros sender content. eexists. split.
  - apply (append_message_inactive_run _ _ _ _ _ _ s1 Hs1 Hended).
  - reflexivity.
Qed.

Lemma ended_session_rejects_messages_witness :
  exists summary w1,
    end_session demo_clock default_tracker "s1" demo_world
    = (Return summary, w1)
    /\ messages w1 = messages demo_world
    /\ forall sender content,
         exists e,
           append_message demo_clock default_tracker "s1" sender content w1
           = (Raise e, w1)
           /\ exc_kind e = SessionClosed.
Proof.
  apply (ended_session_rejects_messages demo_clock default_tracker "s1"
           demo_world (SessionRecord.mk "s1" "u1" ACTIVE 0 1000000 OK [])).
  vm_compute. reflexivity.
Defined.

(** ** Session tracker: what a successful append leaves *)

Lemma list_messages_of_other (session_id other : string) (w : World)
    (saved : MessageRecord.t) :
  MessageRecord.session_id saved = session_id ->
  other <> session_id ->
  List.filter (fun m => String.eqb (MessageRecord.session_id m) other)
    (messages w ++ [saved])
  = list_messages_of other w.
Proof.
  intros Hsid Hne. rewrite List.filter_app. cbn [List.filter]. rewrite Hsid.
  destruct (String.eqb_spec session_id other) as [E | _]; [congruence |].
  apply app_nil_r.
Qed.

(** The parts of the world and of the result after a successful
    [append_message]. *)
Lemma appended_parts (utc_now_at : nat -> Z) (self : SessionTracker)
    (session_id : string) (sender : SenderRole) (content : string)
    (a : RiskAssessment.t) (w : World) :
  let res := fst (appended utc_now_at self session_id sender content a w) in
  let w' := snd (appended utc_now_at self session_id sender content a w) in
  let saved :=
    MessageRecord.mk (Some (next_message_id w)) session_id sender content
      (SentimentResult.score (score content)) (RiskAssessment.tier a)
      (RiskAssessment.score a) (RiskAssessment.flagged_keywords a)
      (utc_now_at (clock_reads w)) in
  MessageAppendResult.message res = saved
  /\ MessageAppendResult.risk res = a
  /\ messages w' = messages w ++ [saved]
  /\ list_messages_of session_id w' = list_messages_of session_id w ++ [saved]
  /\ (forall other, other <> session_id ->
        list_messages_of other w' = list_messages_of other w)
  /\ MessageAppendResult.buffer res
     = BufferSnapshot.mk session_id
         (last_n (buffer_size self) (list_messages_of session_id w'))
         (buffer_size self)
  /\ MessageAppendResult.metrics res
     = metrics_of session_id (list_messages_of session_id w')
  /\ buffers w' = <[session_id := MessageAppendResult.buffer res]> (buffers w)
  /\ metrics_table w'
     = <[session_id := MessageAppendResult.metrics res]> (metrics_table w)
  /\ sessions w'
     = alter
         (fun s =>
            updated_record s None (Some (RiskAssessment.tier a))
              (utc_now_at (S (clock_reads w))))
         session_id (sessions w).
Proof.
  cbn zeta.
  set (saved := MessageRecord.mk _ _ _ _ _ _ _ _ _).
  assert (Hmsgs :
    messages (snd (appended utc_now_at self session_id sender content a w))
    = messages w ++ [saved]) by reflexivity.
  assert (Hlist : forall other,
    list_messages_of other
      (snd (appended utc_now_at self session_id sender content a w))
    = List.filter (fun m => String.eqb (MessageRecord.session_id m) other)
        (messages w ++ [saved])).
  { intros other. unfold list_messages_of at 1. now rewrite Hmsgs. }
  split; [reflexivity |]. split; [reflexivity |]. split; [exact Hmsgs |].
  split; [rewrite Hlist; apply (list_messages_of_snoc _ w saved eq_refl) |].
  split.
  { intros other Hne. rewrite Hlist.
    apply (list_messages_of_other session_id other w saved eq_refl Hne). }
  repeat split.
Qed.







(** ** Session metrics: turns, bands and the most severe tier *)

Lemma count_sender_total (msgs : list MessageRecord.t) :
  (count_sender USER msgs + count_sender ASSISTANT msgs)%nat = length msgs.
Proof.
  unfold count_sender. induction msgs as [| m msgs IH]; [reflexivity |].
  cbn [List.filter length]. destruct (MessageRecord.sender m); simpl; lia.
Qed.

Lemma count_band_total (msgs : list MessageRecord.t) :
  (count_band POSITIVE msgs + count_band NEUTRAL msgs
   + count_band NEGATIVE msgs)%nat
  = length msgs.
Proof.
  unfold count_band. induction msgs as [| m msgs IH]; [reflexivity |].
  cbn [List.filter length].
  destruct (_sentiment_band_from_score (MessageRecord.sentiment_score m));
    simpl; lia.
Qed.

Lemma dict_values_sum_band_dict (f : SentimentBand -> nat) :
  dict_values_sum (band_dict f) = (f POSITIVE + f NEUTRAL + f NEGATIVE)%nat.
Proof.
  unfold dict_values_sum, band_dict. cbn [fold_left SentimentBand_members].
  cbn [SentimentBand_value].
  rewrite !map_fold_insert_L; try (intros; lia); try reflexivity.
  rewrite map_fold_empty. lia.
Qed.

(** X14.  In the metrics that [_recalculate_metrics] returns, the user
    turns and the assistant turns add up to [message_count], and
    [band_counts] has an entry for every band, the number of messages
    whose stored sentiment score falls in that band, and its values sum
    to [message_count]. *)
Theorem metrics_turns_and_bands (self : SessionTracker)
    (session_id : string) (w : World) :
  exists metrics flagged w',
    _recalculate_metrics self session_id w = (Return (metrics, flagged), w')
    /\ (SessionMetrics.user_turns metrics
        + SessionMetrics.assistant_turns metrics)%nat
       = SessionMetrics.message_count metrics
    /\ SessionMetrics.user_turns metrics
       = count_sender USER (list_messages_of session_id w)
    /\ (forall band,
          SessionMetrics.band_counts metrics !! SentimentBand_value band
          = Some (count_band band (list_messages_of session_id w)))
    /\ dict_values_sum (SessionMetrics.band_counts metrics)
       = SessionMetrics.message_count metrics.
Proof.
  rewrite recalculate_metrics_run. cbn zeta.
  eexists. eexists. eexists. split; [reflexivity |].
  cbn [metrics_of SessionMetrics.user_turns SessionMetrics.assistant_turns
       SessionMetrics.message_count SessionMetrics.band_counts].
  split; [apply count_sender_total |]. split; [reflexivity |].
  split; [intros band; apply band_dict_lookup |].
  rewrite dict_values_sum_band_dict. apply count_band_total.
Qed.

Lemma highest_tier_nonempty (tiers : list RiskTier) :
  tiers <> [] -> In (highest_tier tiers) tiers.
Proof.
  intros Hne. destruct (highest_tier_spec tiers) as [[E | Hin] Hmax];
    [| exact Hin].
  destruct tiers as [| t tiers]; [contradiction |].
  specialize (Hmax t (or_introl eq_refl)). rewrite E in Hmax.
  left. apply severity_inj. rewrite E. destruct t; simpl in *; lia.
Qed.

(** X15.  In the metrics that [_recalculate_metrics] returns,
    [max_risk_tier] is at least as severe as the tier of every message of
    the session and, when the session has a message, is the tier of one
    of them; and when some message is HIGH or CRISIS the suggested
    resources contain a hotline. *)
Theorem metrics_max_tier_and_hotline (self : SessionTracker)
    (session_id : string) (w : World) :
  exists metrics flagged w',
    _recalculate_metrics self session_id w = (Return (metrics, flagged), w')
    /\ (forall m,
          In m (list_messages_of session_id w) ->
          (RISK_SEVERITY (MessageRecord.risk_tier m)
           <= RISK_SEVERITY (SessionMetrics.max_risk_tier metrics))%Z)
    /\ (list_messages_of session_id w <> [] ->
        exists m,
          In m (list_messages_of session_id w)
          /\ MessageRecord.risk_tier m = SessionMetrics.max_risk_tier metrics)
    /\ ((exists m,
           In m (list_messages_of session_id w)
           /\ (MessageRecord.risk_tier m = HIGH
               \/ MessageRecord.risk_tier m = CRISIS)) ->
        existsb is_hotline (SessionMetrics.suggested_resources metrics)
        = true).
Proof.
  rewrite recalculate_metrics_run. cbn zeta.
  eexists. eexists. eexists. split; [reflexivity |].
  cbn [metrics_of SessionMetrics.max_risk_tier
       SessionMetrics.suggested_resources].
  set (msgs := list_messages_of session_id w).
  destruct (highest_tier_spec (map MessageRecord.risk_tier msgs))
    as [_ Hmax].
  assert (Hge : forall m, In m msgs ->
    (RISK_SEVERITY (MessageRecord.risk_tier m)
     <= RISK_SEVERITY (highest_tier (map MessageRecord.risk_tier msgs)))%Z).
  { intros m Hm. apply Hmax. now apply in_map. }
  split; [exact Hge |]. split.
  - intros Hne.
    assert (Hin : In (highest_tier (map MessageRecord.risk_tier msgs))
                    (map MessageRecord.risk_tier msgs)).
    { apply highest_tier_nonempty. destruct msgs; [contradiction | discriminate]. }
    apply in_map_iff in Hin. destruct Hin as (m & Hm & Hin). eauto.
  - intros (m & Hm & Htier).
    apply suggest_resources_high_has_hotline.
    specialize (Hge m Hm). unfold RISK_SEVERITY in Hge.
    destruct (highest_tier (map MessageRecord.risk_tier msgs));
      destruct Htier as [E | E]; rewrite E in Hge; simpl in Hge;
      try lia; auto.
Qed.

(** ** Summaries *)

Lemma flagged_of_snoc (msgs : list MessageRecord.t) (m : MessageRecord.t) :
  flagged_of (msgs ++ [m])
  = set_update (flagged_of msgs) (MessageRecord.flagged_keywords m).
Proof. unfold flagged_of. now rewrite fold_left_app. Qed.

(** The set that the loops over the messages build is the union of
    their flagged keywords. *)
Lemma flagged_of_In (msgs : list MessageRecord.t) (k : string) :
  In k (flagged_of msgs)
  <-> exists m, In m msgs /\ In k (MessageRecord.flagged_keywords m).
Proof.
  induction msgs as [| m msgs IH] using rev_ind.
  - split; [intros [] | intros (m & [] & _)].
  - rewrite flagged_of_snoc. unfold set_update.
    rewrite In_py_set, in_app_iff, IH. split.
    + intros [(m' & Hm' & Hk) | Hk].
      * exists m'. split; [apply in_or_app; now left | exact Hk].
      * exists m. split; [apply in_or_app; right; now left | exact Hk].
    + intros (m' & Hm' & Hk). apply in_app_or in Hm'.
      destruct Hm' as [Hm' | [<- | []]]; [left; eauto | now right].
Qed.

(** X16.  The summary of a session that has just been created, under an
    identity that has no message and no metrics yet, is empty:
    [get_summary] returns the new record with zero messages and turns,
    average sentiment 0.0, [max_risk_tier] OK, a zero count for every
    tier, and no trend note, resource, flagged keyword or note. *)
Theorem new_session_summary_is_empty (utc_now_at : nat -> Z)
    (uuid4_at : nat -> string) (self : SessionTracker) (user_id : string)
    (metadata : list (string * string)) (w : World) :
  list_messages_of (uuid4_at (uuid_reads w)) w = [] ->
  metrics_table w !! uuid4_at (uuid_reads w) = None ->
  exists s w1 summary w2,
    create_session utc_now_at uuid4_at self user_id metadata w
    = (Return s, w1)
    /\ get_summary self (SessionRecord.id s) w1 = (Return summary, w2)
    /\ SessionSummary.session summary = s
    /\ SessionMetrics.message_count (SessionSummary.metrics summary) = 0%nat
    /\ SessionMetrics.user_turns (SessionSummary.metrics summary) = 0%nat
    /\ SessionMetrics.assistant_turns (SessionSummary.metrics summary) = 0%nat
    /\ SessionMetrics.avg_sentiment (SessionSummary.metrics summary) = 0%Q
    /\ SessionMetrics.max_risk_tier (SessionSummary.metrics summary) = OK
    /\ (forall tier,
          SessionMetrics.tier_counts (SessionSummary.metrics summary)
          !! RiskTier_value tier = Some 0%nat)
    /\ SessionMetrics.trend_notes (SessionSummary.metrics summary) = []
    /\ SessionMetrics.suggested_resources (SessionSummary.metrics summary) = []
    /\ SessionSummary.flagged_keywords summary = []
    /\ SessionSummary.notes summary = [].
Proof.
  intros Hnomsg Hnomet. rewrite create_session_run. cbn zeta.
  set (id := uuid4_at (uuid_reads w)) in *.
  set (s := SessionRecord.mk id _ _ _ _ _ _).
  set (w1 := mk_world _ _ _ _ _ _ _).
  assert (Hs1 : sessions w1 !! id = Some s) by apply lookup_insert_eq.
  assert (Hm1 : metrics_table w1 !! id = None) by exact Hnomet.
  assert (Hl1 : list_messages_of id w1 = []) by exact Hnomsg.
  exists s, w1. eexists. eexists. split; [reflexivity |].
  cbn [SessionRecord.id s].
  split.
  { rewrite (get_summary_run self id w1 s Hs1). cbn zeta.
    rewrite Hm1, Hl1. reflexivity. }
  cbn [_build_summary SessionSummary.session SessionSummary.metrics
       SessionSummary.flagged_keywords SessionSummary.notes metrics_of
       SessionMetrics.message_count SessionMetrics.user_turns
       SessionMetrics.assistant_turns SessionMetrics.avg_sentiment
       SessionMetrics.max_risk_tier SessionMetrics.tier_counts
       SessionMetrics.trend_notes SessionMetrics.suggested_resources].
  split; [reflexivity |].
  do 5 (split; [reflexivity |]).
  split; [intros tier; apply tier_dict_lookup |].
  repeat split.
Qed.

Lemma new_session_summary_is_empty_witness :
  exists s w1 summary w2,
    create_session demo_clock demo_uuid default_tracker "u1" [] empty_world
    = (Return s, w1)
    /\ get_summary default_tracker (SessionRecord.id s) w1
       = (Return summary, w2)
    /\ SessionSummary.session summary = s
    /\ SessionMetrics.message_count (SessionSummary.metrics summary) = 0%nat
    /\ SessionMetrics.user_turns (SessionSummary.metrics summary) = 0%nat
    /\ SessionMetrics.assistant_turns (SessionSummary.metrics summary) = 0%nat
    /\ SessionMetrics.avg_sentiment (SessionSummary.metrics summary) = 0%Q
    /\ SessionMetrics.max_risk_tier (SessionSummary.metrics summary) = OK
    /\ (forall tier,
          SessionMetrics.tier_counts (SessionSummary.metrics summary)
          !! RiskTier_value tier = Some 0%nat)
    /\ SessionMetrics.trend_notes (SessionSummary.metrics summary) = []
    /\ SessionMetrics.suggested_resources (SessionSummary.metrics summary) = []
    /\ SessionSummary.flagged_keywords summary = []
    /\ SessionSummary.notes summary = [].
Proof.
  apply (new_session_summary_is_empty demo_clock demo_uuid default_tracker
           "u1" [] empty_world).
  - reflexivity.
  - reflexivity.
Defined.



(** X19.  The summary that [end_session] returns for an existing
    session has the ended note as its last note, after the trend notes
    of its metrics, a duration that is not negative, and the metrics that
    are stored for the session; when the session was ACTIVE the metrics
    are recomputed from all its messages and the flagged keywords are
    exactly the keywords flagged on some message of the session. *)
Theorem end_session_summary (utc_now_at : nat -> Z) (self : SessionTracker)
    (session_id : string) (w : World) (s : SessionRecord.t) :
  sessions w !! session_id = Some s ->
  exists summary w1,
    end_session utc_now_at self session_id w = (Return summary, w1)
    /\ SessionSummary.notes summary
       = SessionMetrics.trend_notes (SessionSummary.metrics summary)
         ++ [ended_note]
    /\ last (SessionSummary.notes summary) = Some ended_note
    /\ (0 <= SessionSummary.duration_seconds summary)%Z
    /\ metrics_table w1 !! session_id = Some (SessionSummary.metrics summary)
    /\ (SessionRecord.status s = ACTIVE ->
        SessionMetrics.message_count (SessionSummary.metrics summary)
        = length (list_messages_of session_id w)
        /\ forall k,
             In k (SessionSummary.flagged_keywords summary)
             <-> exists m,
                   In m (list_messages_of session_id w)
                   /\ In k (MessageRecord.flagged_keywords m)).
Proof.
  intros Hs.
  destruct (end_session_run utc_now_at self session_id w s Hs)
    as (summary & w1 & s1 & Hrun & _ & _ & _ & _ & _ & Hnotes & Hmet & Hdur
        & Hactive).
  exists summary, w1. split; [exact Hrun |]. split; [exact Hnotes |].
  split; [rewrite Hnotes; apply last_snoc |].
  split; [exact Hdur |]. split; [exact Hmet |].
  intros Hst. destruct (Hactive Hst) as (Hm & _ & Hf).
  rewrite Hm, Hf. split; [reflexivity |].
  intros k. rewrite In_sorted. apply flagged_of_In.
Qed.

Lemma end_session_summary_witness :
  exists summary w1,
    end_session demo_clock default_tracker "s1" demo_world_one_message
    = (Return summary, w1)
    /\ SessionSummary.notes summary
       = SessionMetrics.trend_notes (SessionSummary.metrics summary)
         ++ [ended_note]
    /\ last (SessionSummary.notes summary) = Some ended_note
    /\ (0 <= SessionSummary.duration_seconds summary)%Z
    /\ metrics_table w1 !! "s1" = Some (SessionSummary.metrics summary)
    /\ (SessionRecord.status
          (SessionRecord.mk "s1" "u1" ACTIVE 0 3000000 OK []) = ACTIVE ->
        SessionMetrics.message_count (SessionSummary.metrics summary)
        = length (list_messages_of "s1" demo_world_one_message)
        /\ forall k,
             In k (SessionSummary.flagged_keywords summary)
             <-> exists m,
                   In m (list_messages_of "s1" demo_world_one_message)
                   /\ In k (MessageRecord.flagged_keywords m)).
Proof.
  apply (end_session_summary demo_clock default_tracker "s1"
           demo_world_one_message
           (SessionRecord.mk "s1" "u1" ACTIVE 0 3000000 OK [])).
  vm_compute. reflexivity.
Defined.

(** ** The buffer *)

(** X20.  [get_buffer] returns the stored buffer when there is one, even
    for an identity without a session record; without a stored buffer it
    raises SessionNotFound for an unknown session and changes nothing,
    and for a known session it stores and returns the most recent
    [buffer_size] messages.  Whenever it returns a buffer, that buffer is
    the one stored afterwards, sessions and messages are untouched, and
    calling it again returns the same buffer and changes nothing. *)
Theorem get_buffer_behaviour (self : SessionTracker) (session_id : string)
    (w : World) :
  (forall buffer,
      buffers w !! session_id = Some buffer ->
      get_buffer self session_id w = (Return buffer, w))
  /\ (buffers w !! session_id = None ->
      sessions w !! session_id = None ->
      exists e,
        get_buffer self session_id w = (Raise e, w)
        /\ exc_kind e = SessionNotFound)
  /\ (buffers w !! session_id = None ->
      is_Some (sessions w !! session_id) ->
      exists w',
        get_buffer self session_id w
        = (Return
             (BufferSnapshot.mk session_id
                (last_n (buffer_size self) (list_messages_of session_id w))
                (buffer_size self)),
           w'))
  /\ (forall buffer w',
        get_buffer self session_id w = (Return buffer, w') ->
        buffers w' !! session_id = Some buffer
        /\ sessions w' = sessions w
        /\ messages w' = messages w
        /\ get_buffer self session_id w' = (Return buffer, w')).
Proof.
  rewrite get_buffer_run.
  destruct (buffers w !! session_id) as [stored |] eqn:Hb.
  - split; [intros buffer H; now injection H as -> |].
    split; [discriminate |]. split; [discriminate |].
    intros buffer w' H. injection H as <- <-.
    split; [exact Hb |]. split; [reflexivity |]. split; [reflexivity |].
    now rewrite get_buffer_run, Hb.
  - split; [discriminate |].
    destruct (sessions w !! session_id) as [s |] eqn:Hs.
    + split; [discriminate |]. split; [eauto |].
      cbn zeta. intros buffer w' H. injection H as <- <-.
      cbn [buffers sessions messages].
      split; [apply lookup_insert_eq |].
      split; [reflexivity |]. split; [reflexivity |].
      rewrite get_buffer_run. cbn [buffers].
      now rewrite lookup_insert_eq.
    + split; [eauto |].
      split; [intros _ [? H]; discriminate H |].
      intros buffer w' H. discriminate H.
Qed.

Lemma get_buffer_behaviour_witness :
  exists e,
    get_buffer default_tracker "nope" empty_world = (Raise e, empty_world)
    /\ exc_kind e = SessionNotFound.
Proof.
  apply (proj1 (proj2 (get_buffer_behaviour default_tracker "nope"
                         empty_world))).
  - reflexivity.
  - reflexivity.
Defined.

(** ** The stored metrics and buffers are never stale *)

Lemma list_messages_of_same (w w' : World) :
  messages w' = messages w ->
  forall session_id,
    list_messages_of session_id w' = list_messages_of session_id w.
Proof. intros H session_id. unfold list_messages_of. now rewrite H. Qed.

Lemma metrics_fresh_same (w w' : World) :
  metrics_fresh w ->
  messages w' = messages w ->
  metrics_table w' = metrics_table w ->
  metrics_fresh w'.
Proof.
  intros Hf Hm Ht sid metrics Hlook.
  rewrite (list_messages_of_same w w' Hm). apply Hf. now rewrite <- Ht.
Qed.

Lemma metrics_fresh_update (w w' : World) (session_id : string) :
  metrics_fresh w ->
  (forall other, other <> session_id ->
     list_messages_of other w' = list_messages_of other w) ->
  metrics_table w'
  = <[session_id := metrics_of session_id (list_messages_of session_id w')]>
      (metrics_table w) ->
  metrics_fresh w'.
Proof.
  intros Hf Hother Ht sid metrics Hlook. rewrite Ht in Hlook.
  destruct (decide (session_id = sid)) as [<- | Hne].
  - rewrite lookup_insert_eq in Hlook. now injection Hlook as <-.
  - rewrite lookup_insert_ne in Hlook by exact Hne.
    rewrite Hother by congruence. now apply Hf.
Qed.

Lemma buffers_fresh_same (capacity : nat) (w w' : World) :
  buffers_fresh capacity w ->
  messages w' = messages w ->
  buffers w' = buffers w ->
  buffers_fresh capacity w'.
Proof.
  intros Hf Hm Hb sid buffer Hlook.
  rewrite (list_messages_of_same w w' Hm). apply Hf. now rewrite <- Hb.
Qed.

Lemma buffers_fresh_update (capacity : nat) (w w' : World)
    (session_id : string) :
  buffers_fresh capacity w ->
  (forall other, other <> session_id ->
     list_messages_of other w' = list_messages_of other w) ->
  buffers w'
  = <[session_id :=
        BufferSnapshot.mk session_id
          (last_n capacity (list_messages_of session_id w')) capacity]>
      (buffers w) ->
  buffers_fresh capacity w'.
Proof.
  intros Hf Hother Hb sid buffer Hlook. rewrite Hb in Hlook.
  destruct (decide (session_id = sid)) as [<- | Hne].
  - rewrite lookup_insert_eq in Hlook. now injection Hlook as <-.
  - rewrite lookup_insert_ne in Hlook by exact Hne.
    rewrite Hother by congruence. now apply Hf.
Qed.

Lemma append_message_missing_run (utc_now_at : nat -> Z)
    (self : SessionTracker) (session_id : string) (sender : SenderRole)
    (content : string) (w : World) :
  sessions w !! session_id = None ->
  append_message utc_now_at self session_id sender content w
  = (Raise (mk_exc SessionNotFound
              ("Session '" +:+ session_id +:+ "' not found.")), w).
Proof.
  intros Hs. unfold append_message.
  now rewrite bind_run, get_session_run, Hs.
Qed.

Lemma end_session_missing_run (utc_now_at : nat -> Z)
    (self : SessionTracker) (session_id : string) (w : World) :
  sessions w !! session_id = None ->
  end_session utc_now_at self session_id w
  = (Raise (mk_exc SessionNotFound
              ("Session '" +:+ session_id +:+ "' not found.")), w).
Proof.
  intros Hs. unfold end_session.
  now rewrite bind_run, get_session_run, Hs.
Qed.

Lemma get_summary_missing_run (self : SessionTracker) (session_id : string)
    (w : World) :
  sessions w !! session_id = None ->
  get_summary self session_id w
  = (Raise (mk_exc SessionNotFound
              ("Session '" +:+ session_id +:+ "' not found.")), w).
Proof.
  intros Hs. unfold get_summary.
  now rewrite bind_run, get_session_run, Hs.
Qed.

Lemma get_summary_keeps_fresh (self : SessionTracker) (session_id : string)
    (w w' : World) (r : outcome SessionSummary.t) :
  metrics_fresh w ->
  buffers_fresh (buffer_size self) w ->
  get_summary self session_id w = (r, w') ->
  metrics_fresh w' /\ buffers_fresh (buffer_size self) w'.
Proof.
  intros Hmf Hbf Hrun.
  destruct (sessions w !! session_id) as [s |] eqn:Hs.
  - rewrite (get_summary_run self session_id w s Hs) in Hrun.
    cbn zeta in Hrun.
    destruct (metrics_table w !! session_id) as [metrics |].
    + injection Hrun as _ <-. split; assumption.
    + injection Hrun as _ <-. split.
      * apply (metrics_fresh_update w _ session_id Hmf);
          [reflexivity | reflexivity].
      * apply (buffers_fresh_same _ w _ Hbf); reflexivity.
  - rewrite (get_summary_missing_run self session_id w Hs) in Hrun.
    injection Hrun as _ <-. split; assumption.
Qed.

(** X18.  The caches are never stale.  Call a world fresh when the
    metrics stored for each session are those computed from its messages
    and the buffer stored for each session holds its most recent
    [buffer_size] messages.  From a fresh world, [append_message],
    [end_session], [get_summary] and [get_buffer] leave a fresh world,
    whether they return or raise, and so does [create_session] when the
    identity drawn has no message yet; and the metrics of a summary that
    [get_summary] returns are those computed from the messages. *)
Theorem caches_stay_fresh (utc_now_at : nat -> Z) (uuid4_at : nat -> string)
    (self : SessionTracker) (w : World) :
  metrics_fresh w ->
  buffers_fresh (buffer_size self) w ->
  (forall session_id sender content r w',
      append_message utc_now_at self session_id sender content w = (r, w') ->
      metrics_fresh w' /\ buffers_fresh (buffer_size self) w')
  /\ (forall session_id r w',
        end_session utc_now_at self session_id w = (r, w') ->
        metrics_fresh w' /\ buffers_fresh (buffer_size self) w')
  /\ (forall session_id r w',
        get_summary self session_id w = (r, w') ->
        metrics_fresh w' /\ buffers_fresh (buffer_size self) w')
  /\ (forall session_id r w',
        get_buffer self session_id w = (r, w') ->
        metrics_fresh w' /\ buffers_fresh (buffer_size self) w')
  /\ (forall user_id metadata r w',
        list_messages_of (uuid4_at (uuid_reads w)) w = [] ->
        create_session utc_now_at uuid4_at self user_id metadata w = (r, w') ->
        metrics_fresh w' /\ buffers_fresh (buffer_size self) w')
  /\ (forall session_id summary w',
        get_summary self session_id w = (Return summary, w') ->
        SessionSummary.metrics summary
        = metrics_of session_id (list_messages_of session_id w)).
Proof.
  intros Hmf Hbf. split; [| split; [| split; [| split; [| split]]]].
  - intros session_id sender content r w' Hrun.
    destruct (sessions w !! session_id) as [s |] eqn:Hs.
    + destruct (SessionRecord.status s) eqn:Hstatus.
      * destruct (append_message_active_run utc_now_at self session_id
                    sender content w s Hs Hstatus) as (a & _ & Happ).
        rewrite Happ in Hrun. injection Hrun as _ <-.
        destruct (appended_parts utc_now_at self session_id sender content
                    a w)
          as (_ & _ & _ & _ & Hother & Hbuf & Hmet & Hbufs & Hmets & _).
        cbn zeta in Hother, Hbuf, Hmet, Hbufs, Hmets. split.
        -- apply (metrics_fresh_update w _ session_id Hmf Hother).
           now rewrite Hmets, Hmet.
        -- apply (buffers_fresh_update _ w _ session_id Hbf Hother).
           now rewrite Hbufs, Hbuf.
      * rewrite (append_message_inactive_run _ _ _ _ _ _ s Hs Hstatus)
          in Hrun.
        injection Hrun as _ <-. split; assumption.
    + rewrite (append_message_missing_run _ _ _ _ _ _ Hs) in Hrun.
      injection Hrun as _ <-. split; assumption.
  - intros session_id r w' Hrun.
    destruct (sessions w !! session_id) as [s |] eqn:Hs.
    + destruct (SessionRecord.status s) eqn:Hstatus.
      * rewrite (end_session_active_run _ _ _ _ s Hs Hstatus) in Hrun.
        cbn zeta in Hrun. injection Hrun as _ <-. split.
        -- apply (metrics_fresh_update w _ session_id Hmf);
             [reflexivity | reflexivity].
        -- apply (buffers_fresh_same _ w _ Hbf); reflexivity.
      * rewrite (end_session_ended_run _ _ _ _ s Hs Hstatus) in Hrun.
        apply (get_summary_keeps_fresh self session_id w w' r Hmf Hbf Hrun).
    + rewrite (end_session_missing_run _ _ _ _ Hs) in Hrun.
      injection Hrun as _ <-. split; assumption.
  - intros session_id r w' Hrun.
    apply (get_summary_keeps_fresh self session_id w w' r Hmf Hbf Hrun).
  - intros session_id r w' Hrun. rewrite get_buffer_run in Hrun.
    destruct (buffers w !! session_id) as [stored |].
    + injection Hrun as _ <-. split; assumption.
    + destruct (sessions w !! session_id) as [s |].
      * cbn zeta in Hrun. injection Hrun as _ <-. split.
        -- apply (metrics_fresh_same w _ Hmf); reflexivity.
        -- apply (buffers_fresh_update _ w _ session_id Hbf);
             [reflexivity | reflexivity].
      * injection Hrun as _ <-. split; assumption.
  - intros user_id metadata r w' Hnomsg Hrun.
    rewrite create_session_run in Hrun. cbn zeta in Hrun.
    injection Hrun as _ <-. split.
    + apply (metrics_fresh_same w _ Hmf); reflexivity.
    + apply (buffers_fresh_update _ w _ (uuid4_at (uuid_reads w)) Hbf);
        [reflexivity |].
      cbn [buffers]. unfold list_messages_of at 1. cbn [messages].
      fold (list_messages_of (uuid4_at (uuid_reads w)) w).
      rewrite Hnomsg. reflexivity.
  - intros session_id summary w' Hrun.
    destruct (sessions w !! session_id) as [s |] eqn:Hs.
    + rewrite (get_summary_run self session_id w s Hs) in Hrun.
      cbn zeta in Hrun.
      destruct (metrics_table w !! session_id) as [metrics |] eqn:Hm.
      * injection Hrun as <- _. cbn [_build_summary SessionSummary.metrics].
        now apply Hmf.
      * injection Hrun as <- _. reflexivity.
    + rewrite (get_summary_missing_run self session_id w Hs) in Hrun.
      discriminate Hrun.
Qed.

Lemma caches_stay_fresh_witness :
  metrics_fresh demo_world
  /\ buffers_fresh (buffer_size default_tracker) demo_world.
Proof.
  apply (proj1 (proj2 (proj2 (proj2 (proj2
           (caches_stay_fresh demo_clock demo_uuid default_tracker
              empty_world
              ltac:(intros sid m H; vm_compute in H; discriminate H)
              ltac:(intros sid b H; vm_compute in H; discriminate H))))))
           "u1" []
           (fst (create_session demo_clock demo_uuid default_tracker "u1" []
                   empty_world))
           demo_world).
  - reflexivity.
  - reflexivity.
Defined.

(** ** Average sentiment and the trend notes *)

Lemma sentiment_sum_bounds (msgs : list MessageRecord.t) :
  (forall m, In m msgs -> (-1 <= MessageRecord.sentiment_score m <= 1)%Q) ->
  forall acc : Q,
    let total :=
      fold_left (fun a m => (a + MessageRecord.sentiment_score m)%Q) msgs acc in
    (acc - inject_Z (Z.of_nat (length msgs)) <= total)%Q
    /\ (total <= acc + inject_Z (Z.of_nat (length msgs)))%Q.
Proof.
  induction msgs as [| m msgs IH]; intros Hall acc; cbn zeta.
  - cbn [fold_left length]. change (inject_Z (Z.of_nat 0)) with 0%Q.
    split.
    + unfold Qminus. rewrite Qplus_0_r. apply Qle_refl.
    + rewrite Qplus_0_r. apply Qle_refl.
  - cbn [fold_left].
    destruct (Hall m (or_introl eq_refl)) as [Hlo Hhi].
    destruct (IH (fun x Hx => Hall x (or_intror Hx))
                (acc + MessageRecord.sentiment_score m)%Q) as [Ilo Ihi].
    cbn zeta in Ilo, Ihi.
    assert (Hlen : (inject_Z (Z.of_nat (length (m :: msgs)))
                    == inject_Z (Z.of_nat (length msgs)) + 1)%Q).
    { cbn [length]. rewrite Nat2Z.inj_succ. unfold Z.succ.
      now rewrite inject_Z_plus. }
    rewrite Hlen. split.
    + eapply Qle_trans; [| exact Ilo].
      assert ((acc - (inject_Z (Z.of_nat (length msgs)) + 1)
               == (acc + -1) - inject_Z (Z.of_nat (length msgs)))%Q) as ->
        by ring.
      unfold Qminus. apply Qplus_le_compat; [| apply Qle_refl].
      apply Qplus_le_compat; [apply Qle_refl | exact Hlo].
    + eapply Qle_trans; [exact Ihi |].
      assert ((acc + (inject_Z (Z.of_nat (length msgs)) + 1)
               == (acc + 1) + inject_Z (Z.of_nat (length msgs)))%Q) as ->
        by ring.
      apply Qplus_le_compat; [| apply Qle_refl].
      apply Qplus_le_compat; [apply Qle_refl | exact Hhi].
Qed.

Lemma score_value_range (text : string) :
  (-1 <= SentimentResult.score (score text) <= 1)%Q.
Proof.
  destruct (score_loop_shape (tokenize text)) as (_ & Ht & Hs).
  cbn zeta in Ht, Hs. unfold score. cbn [SentimentResult.score].
  destruct (acc_total (score_loop (tokenize text)) =? 0)%Z eqn:E0.
  - vm_compute. split; discriminate.
  - apply Z.eqb_neq in E0.
    destruct (normalized_between (acc_score (score_loop (tokenize text)))
                (acc_total (score_loop (tokenize text)))) as [Hlo Hhi];
      [lia | lia |].
    destruct (py_round3_between _ (-1000) 1000 Hlo Hhi) as [Rlo Rhi].
    split.
    + eapply Qle_trans; [| exact Rlo]. unfold Qle. simpl. lia.
    + eapply Qle_trans; [exact Rhi |]. unfold Qle. simpl. lia.
Qed.

Lemma avg_sentiment_of_range (msgs : list MessageRecord.t) :
  (forall m, In m msgs -> (-1 <= MessageRecord.sentiment_score m <= 1)%Q) ->
  (-1 <= avg_sentiment_of msgs <= 1)%Q.
Proof.
  intros Hall. unfold avg_sentiment_of. destruct msgs as [| m0 rest] eqn:E;
    [split; discriminate |].
  rewrite <- E in *.
  destruct (sentiment_sum_bounds msgs Hall 0) as [Hlo Hhi].
  cbn zeta in Hlo, Hhi.
  set (total := fold_left _ msgs 0%Q) in *.
  set (n := inject_Z (Z.of_nat (length msgs))) in *.
  assert (Hn : (0 < n)%Q).
  { unfold n. rewrite E. unfold Qlt. cbn [length]. simpl. lia. }
  assert (Hq : (-1000 # 1000 <= total / n)%Q /\ (total / n <= 1000 # 1000)%Q).
  { split.
    - apply Qle_shift_div_l; [exact Hn |].
      eapply Qle_trans; [| exact Hlo].
      assert (((-1000 # 1000) * n == 0 - n)%Q) as -> by ring.
      apply Qle_refl.
    - apply Qle_shift_div_r; [exact Hn |].
      eapply Qle_trans; [exact Hhi |].
      assert (((1000 # 1000) * n == 0 + n)%Q) as -> by ring.
      apply Qle_refl. }
  destruct Hq as [Q1 Q2].
  destruct (py_round3_between _ (-1000) 1000 Q1 Q2) as [Rlo Rhi].
  split.
  - eapply Qle_trans; [| exact Rlo]. unfold Qle. simpl. lia.
  - eapply Qle_trans; [exact Rhi |]. unfold Qle. simpl. lia.
Qed.

Lemma list_messages_of_In (session_id : string) (w : World)
    (m : MessageRecord.t) :
  In m (list_messages_of session_id w) -> In m (messages w).
Proof. unfold list_messages_of. rewrite List.filter_In. tauto. Qed.

(** X21.  When every stored message has a sentiment score between -1 and
    1, [append_message] keeps it so, whether it returns or raises, and
    the average sentiment in the metrics that it returns, and in those
    that [_recalculate_metrics] computes for any session, lies between
    -1 and 1. *)
Theorem avg_sentiment_range (utc_now_at : nat -> Z) (self : SessionTracker)
    (session_id : string) (sender : SenderRole) (content : string)
    (w : World) :
  (forall m, In m (messages w) ->
             (-1 <= MessageRecord.sentiment_score m <= 1)%Q) ->
  (forall r w',
      append_message utc_now_at self session_id sender content w = (r, w') ->
      (forall m, In m (messages w') ->
                 (-1 <= MessageRecord.sentiment_score m <= 1)%Q)
      /\ forall res,
           r = Return res ->
           (-1 <= SessionMetrics.avg_sentiment (MessageAppendResult.metrics res)
            <= 1)%Q)
  /\ exists metrics flagged w',
       _recalculate_metrics self session_id w
       = (Return (metrics, flagged), w')
       /\ (-1 <= SessionMetrics.avg_sentiment metrics <= 1)%Q.
Proof.
  intros Hall. split.
  - intros r w' Hrun.
    destruct (sessions w !! session_id) as [s |] eqn:Hs.
    + destruct (SessionRecord.status s) eqn:Hstatus.
      * destruct (append_message_active_run utc_now_at self session_id
                    sender content w s Hs Hstatus) as (a & _ & Happ).
        rewrite Happ in Hrun.
        assert (Hr : r = Return (fst (appended utc_now_at self session_id
                                        sender content a w)))
          by congruence.
        assert (Hw : w' = snd (appended utc_now_at self session_id sender
                                 content a w)) by congruence.
        clear Hrun. subst r w'.
        destruct (appended_parts utc_now_at self session_id sender content
                    a w) as (Hmsg & _ & Hmsgs & _ & _ & _ & Hmet & _).
        cbn zeta in Hmsg, Hmsgs, Hmet.
        assert (Hall' : forall m,
          In m (messages
                  (snd (appended utc_now_at self session_id sender content
                          a w))) ->
          (-1 <= MessageRecord.sentiment_score m <= 1)%Q).
        { intros m Hm. rewrite Hmsgs in Hm. apply in_app_or in Hm.
          destruct Hm as [Hm | [<- | []]]; [now apply Hall |].
          apply score_value_range. }
        split; [exact Hall' |].
        intros res Hres.
        replace res
          with (fst (appended utc_now_at self session_id sender content a w))
          by congruence.
        rewrite Hmet.
        cbn [metrics_of SessionMetrics.avg_sentiment].
        apply avg_sentiment_of_range. intros m Hm.
        apply Hall'. now apply list_messages_of_In in Hm.
      * rewrite (append_message_inactive_run _ _ _ _ _ _ s Hs Hstatus)
          in Hrun.
        injection Hrun as <- <-. split; [exact Hall | discriminate].
    + rewrite (append_message_missing_run _ _ _ _ _ _ Hs) in Hrun.
      injection Hrun as <- <-. split; [exact Hall | discriminate].
  - rewrite recalculate_metrics_run. cbn zeta.
    eexists. eexists. eexists. split; [reflexivity |].
    cbn [metrics_of SessionMetrics.avg_sentiment].
    apply avg_sentiment_of_range. intros m Hm.
    apply Hall. now apply list_messages_of_In in Hm.
Qed.

Lemma avg_sentiment_range_witness :
  exists metrics flagged w',
    _recalculate_metrics default_tracker "s1" demo_world_one_message
    = (Return (metrics, flagged), w')
    /\ (-1 <= SessionMetrics.avg_sentiment metrics <= 1)%Q.
Proof.
  apply (proj2 (avg_sentiment_range demo_clock default_tracker "s1" USER
                  "hello" demo_world_one_message
                  ltac:(intros m Hm; vm_compute in Hm;
                        destruct Hm as [<- | []]; vm_compute;
                        split; discriminate))).
Defined.

(** X22.  The trend notes of the metrics that [_recalculate_metrics]
    returns are drawn, in this order and each at most once, from the
    three notes "Sustained elevated risk across last three turns.",
    "Risk climbing on most recent turn." and "Overall negative
    sentiment."; the last is present exactly when the session has a
    message and its average sentiment is below -0.3; a session without
    messages has no trend note. *)
Theorem trend_notes_shape (self : SessionTracker) (session_id : string)
    (w : World) :
  exists metrics flagged w',
    _recalculate_metrics self session_id w = (Return (metrics, flagged), w')
    /\ sublist (SessionMetrics.trend_notes metrics)
         [sustained_note; climbing_note; negative_note]
    /\ (In negative_note (SessionMetrics.trend_notes metrics)
        <-> list_messages_of session_id w <> []
            /\ (SessionMetrics.avg_sentiment metrics < - (3 # 10))%Q)
    /\ (list_messages_of session_id w = [] ->
        SessionMetrics.trend_notes metrics = []).
Proof.
  rewrite recalculate_metrics_run. cbn zeta.
  eexists. eexists. eexists. split; [reflexivity |].
  cbn [metrics_of SessionMetrics.trend_notes SessionMetrics.avg_sentiment].
  set (msgs := list_messages_of session_id w).
  set (avg := avg_sentiment_of msgs).
  unfold trend_notes_of.
  destruct msgs as [| m rest] eqn:E.
  - cbn [map]. split; [apply sublist_nil_l |]. split; [| reflexivity].
    split; [intros [] | intros [H _]; now elim H].
  - cbn [map].
    fold sustained_note climbing_note negative_note.
    set (rr := MessageRecord.risk_tier m :: map MessageRecord.risk_tier rest).
    split; [| split; [| discriminate]].
    + destruct (forallb elevated (last_n 3 rr)); destruct (climbing rr);
        destruct (Qlt_le_dec avg (- (3 # 10))); cbn [app];
        repeat first [apply sublist_nil_l | apply sublist_skip
                      | apply sublist_cons].
    + destruct (forallb elevated (last_n 3 rr)); destruct (climbing rr);
        destruct (Qlt_le_dec avg (- (3 # 10))) as [Hlt | Hge]; cbn [app In];
        unfold sustained_note, climbing_note, negative_note;
        (split;
         [ intros H; split; [discriminate |];
           first [ exact Hlt
                 | exfalso;
                   repeat (destruct H as [H | H]; [discriminate H |]);
                   contradiction ]
         | intros [_ H];
           first [ exfalso; apply (Qlt_not_le _ _ H Hge) | tauto ] ]).
Qed.

(** ** The HTTP controller: paths *)

Lemma str_append_nil_r (s : string) : s +:+ "" = s.
Proof.
  induction s as [| c s IH]; [reflexivity |].
  change (String c s +:+ "") with (String c (s +:+ "")). now rewrite IH.
Qed.

Lemma str_append_assoc (a b c : string) : (a +:+ b) +:+ c = a +:+ (b +:+ c).
Proof.
  induction a as [| x a IH]; [reflexivity |].
  change ((String x a +:+ b) +:+ c) with (String x ((a +:+ b) +:+ c)).
  now rewrite IH.
Qed.

Lemma slash_free_append (a b : string) :
  slash_free (a +:+ b) = slash_free a && slash_free b.
Proof. apply string_forall_append. Qed.

Lemma split_slash_pieces (s : string) :
  forall cur piece,
    slash_free cur = true ->
    In piece (split_slash s cur) -> slash_free piece = true.
Proof.
  induction s as [| c s IH]; intros cur piece Hcur; cbn [split_slash].
  - intros [<- | []]. exact Hcur.
  - destruct (Ascii.eqb c "/") eqn:Hc.
    + intros [<- | Hin]; [exact Hcur | now apply (IH "")].
    + apply IH. rewrite slash_free_append, Hcur. unfold slash_free. simpl.
      now rewrite Hc.
Qed.

Lemma split_slash_word (x rest : string) :
  slash_free x = true ->
  forall cur,
    split_slash (x +:+ rest) cur = split_slash rest (cur +:+ x).
Proof.
  induction x as [| c x IH]; intros Hx cur.
  - rewrite str_append_nil_r. reflexivity.
  - unfold slash_free in Hx. simpl in Hx. apply andb_true_iff in Hx.
    destruct Hx as [Hc Hx]. apply negb_true_iff in Hc.
    change (String c x +:+ rest) with (String c (x +:+ rest)).
    cbn [split_slash]. rewrite Hc, (IH Hx).
    rewrite str_append_assoc. reflexivity.
Qed.

Lemma split_join_slash (segments : list string) :
  segments <> [] ->
  Forall (fun x => slash_free x = true) segments ->
  split_slash (join_slash segments) "" = segments.
Proof.
  induction segments as [| x rest IH]; intros Hne Hall; [contradiction |].
  apply Forall_cons in Hall. destruct Hall as [Hx Hrest].
  destruct rest as [| y rest].
  - cbn [join_slash]. rewrite <- (str_append_nil_r x) at 1.
    rewrite (split_slash_word x "" Hx). reflexivity.
  - change (join_slash (x :: y :: rest))
      with (x +:+ String "/" (join_slash (y :: rest))).
    rewrite (split_slash_word x _ Hx).
    cbn [split_slash]. change (Ascii.eqb "/" "/") with true. cbn iota.
    f_equal. apply IH; [discriminate | exact Hrest].
Qed.

Lemma filter_nonempty_id (segments : list string) :
  Forall (fun x => x <> "") segments ->
  List.filter (fun part => negb (String.eqb part "")) segments = segments.
Proof.
  induction segments as [| x rest IH]; intros Hall; [reflexivity |].
  apply Forall_cons in Hall. destruct Hall as [Hx Hrest].
  cbn [List.filter]. destruct (String.eqb_spec x ""); [contradiction |].
  cbn [negb]. now rewrite IH.
Qed.

Lemma path_segments_shape (path : string) :
  Forall (fun x => x <> "") (snd (_path_parts path))
  /\ Forall (fun x => slash_free x = true) (snd (_path_parts path)).
Proof.
  unfold _path_parts. cbn [snd]. split; apply Forall_forall; intros x Hx;
    apply list_elem_of_In, List.filter_In in Hx; destruct Hx as [Hin Hne].
  - intros ->. discriminate Hne.
  - apply (split_slash_pieces path "" x eq_refl Hin).
Qed.

Lemma path_parts_of_segments (segments : list string) :
  Forall (fun x => x <> "") segments ->
  Forall (fun x => slash_free x = true) segments ->
  _path_parts
    (match segments with [] => "/" | _ => "/" +:+ join_slash segments end)
  = (match segments with [] => "/" | _ => "/" +:+ join_slash segments end,
     segments).
Proof.
  intros Hne Hsf. destruct segments as [| x rest] eqn:E; [reflexivity |].
  rewrite <- E in *.
  assert (Hs : segments <> []) by (rewrite E; discriminate).
  unfold _path_parts.
  change (split_slash ("/" +:+ join_slash segments) "")
    with ("" :: split_slash (join_slash segments) "").
  rewrite (split_join_slash segments Hs Hsf).
  cbn [List.filter String.eqb negb].
  rewrite (filter_nonempty_id segments Hne). now rewrite E.
Qed.

(** X23.  [_path_parts] normalises the path that [urlparse] returns for
    the request target, and raises what [urlparse] raises.  The segments
    are never empty and never contain a slash (so a session identity
    taken from the path is neither), the normalised path is "/" followed
    by the segments joined by single slashes, and cutting the normalised
    path at its slashes gives the segments back: it has no empty
    segment, so no doubled and no trailing slash. *)
Theorem path_parts_normalises (urlparse : string -> outcome parsed_url)
    (self : connection) :
  match urlparse (self_path self) with
  | Raise exc => Wire._path_parts urlparse self = Raise exc
  | Return parsed =>
      exists normalized segments,
        Wire._path_parts urlparse self = Return (normalized, segments)
        /\ Forall (fun x => x <> "" /\ slash_free x = true) segments
        /\ normalized = "/" +:+ join_slash segments
        /\ List.filter (fun part => negb (String.eqb part ""))
             (split_slash normalized "")
           = segments
  end.
Proof.
  unfold Wire._path_parts.
  destruct (urlparse (self_path self)) as [parsed | exc]; [| reflexivity].
  set (path := url_path parsed).
  exists (fst (_path_parts path)), (snd (_path_parts path)).
  destruct (path_segments_shape path) as [Hne Hsf].
  split; [now destruct (_path_parts path) |].
  split.
  { apply Forall_forall. intros x Hx. split.
    - now apply (proj1 (Forall_forall _ _) Hne).
    - now apply (proj1 (Forall_forall _ _) Hsf). }
  split.
  { unfold _path_parts. cbn [fst snd].
    destruct (List.filter _ _); reflexivity. }
  pose proof (path_parts_of_segments _ Hne Hsf) as H.
  assert (Hfst : fst (_path_parts path)
                 = match snd (_path_parts path) with
                   | [] => "/"
                   | _ => "/" +:+ join_slash (snd (_path_parts path))
                   end) by reflexivity.
  rewrite <- Hfst in H.
  change (List.filter (fun part => negb (String.eqb part ""))
            (split_slash (fst (_path_parts path)) ""))
    with (snd (_path_parts (fst (_path_parts path)))).
  now rewrite H.
Qed.

Example path_parts_of_a_target :
  Wire._path_parts demo_urlparse
    (mk_connection "//sessions///abc/messages/" true BodyBadLength)
  = Return ("/sessions/abc/messages", ["sessions"; "abc"; "messages"])
  /\ Wire._path_parts demo_urlparse
       (mk_connection "http://[" true BodyBadLength)
     = Raise (mk_exc ValueError "Invalid IPv6 URL").
Proof. split; vm_compute; reflexivity. Qed.

Example path_parts_collapses_slashes :
  _path_parts "//sessions///abc/messages/"
  = ("/sessions/abc/messages", ["sessions"; "abc"; "messages"]).
Proof. vm_compute. reflexivity. Qed.

(** ** The HTTP controller: handlers *)

Lemma try_except_run {A : Type} (m : M A)
    (clauses : list (ExcKind * (PyExc -> M A))) (w : World) :
  try_except m clauses w
  = match m w with
    | (Raise e, w') =>
        match
          List.find (fun clause => bool_decide (exc_kind e = fst clause))
            clauses
        with
        | Some clause => snd clause e w'
        | None => (Raise e, w')
        end
    | done => done
    end.
Proof. reflexivity. Qed.

Lemma handler_response_error (status : HTTPStatus) (message : string) :
  status = HTTP_BAD_REQUEST \/ status = HTTP_NOT_FOUND
  \/ status = HTTP_CONFLICT ->
  handler_response (_send_error status message []).
Proof. intros H. split; [reflexivity |]. split; [reflexivity | exact H]. Qed.

Ltac response_shape :=
  first
    [ apply handler_response_error; auto
    | split; reflexivity ].

Ltac settle Hrun :=
  injection Hrun as <- <-;
  first
    [ reflexivity
    | split;
      [ response_shape
      | let H := fresh in
        intros H; first [discriminate H | reflexivity] ] ].

Lemma ret_error_well_behaved (status : HTTPStatus) (message : string) :
  status = HTTP_BAD_REQUEST \/ status = HTTP_NOT_FOUND
  \/ status = HTTP_CONFLICT ->
  well_behaved (ret (Some (_send_error status message []))).
Proof.
  intros H w out w' Hrun. injection Hrun as <- <-.
  split; [now apply handler_response_error | reflexivity].
Qed.

(** *** POST /sessions/{id}/end *)

Lemma end_session_handler_missing (utc_now_at : nat -> Z)
    (TRACKER : SessionTracker) (session_id : string) (w : World) :
  sessions w !! session_id = None ->
  _end_session utc_now_at TRACKER session_id w
  = (Return
       (Some (_send_error HTTP_NOT_FOUND (not_found_message session_id) [])),
     w).
Proof.
  intros Hs. unfold _end_session.
  rewrite bind_run, try_except_run, bind_run.
  rewrite (end_session_missing_run _ _ _ _ Hs). reflexivity.
Qed.

Lemma end_session_handler_found (utc_now_at : nat -> Z)
    (TRACKER : SessionTracker) (session_id : string) (w : World)
    (s : SessionRecord.t) :
  sessions w !! session_id = Some s ->
  exists summary w1,
    end_session utc_now_at TRACKER session_id w = (Return summary, w1)
    /\ _end_session utc_now_at TRACKER session_id w
       = (Return (Some (_send_json (SummaryBody summary) HTTP_OK)), w1).
Proof.
  intros Hs.
  destruct (end_session_run utc_now_at TRACKER session_id w s Hs)
    as (summary & w1 & s1 & Hrun & _).
  exists summary, w1. split; [exact Hrun |].
  unfold _end_session. rewrite bind_run, try_except_run, bind_run, Hrun.
  reflexivity.
Qed.

Lemma end_session_well_behaved (utc_now_at : nat -> Z)
    (TRACKER : SessionTracker) (session_id : string) :
  well_behaved (_end_session utc_now_at TRACKER session_id).
Proof.
  intros w out w' Hrun.
  destruct (sessions w !! session_id) as [s |] eqn:Hs.
  - destruct (end_session_handler_found utc_now_at TRACKER session_id w s Hs)
      as (summary & w1 & _ & Hh).
    rewrite Hh in Hrun. settle Hrun.
  - rewrite (end_session_handler_missing _ _ _ _ Hs) in Hrun. settle Hrun.
Qed.

(** *** GET /sessions/{id}/summary *)

Lemma get_summary_returns (TRACKER : SessionTracker) (session_id : string)
    (w : World) (s : SessionRecord.t) :
  sessions w !! session_id = Some s ->
  exists summary w1,
    get_summary TRACKER session_id w = (Return summary, w1).
Proof.
  intros Hs. rewrite (get_summary_run _ _ _ s Hs). cbn zeta.
  destruct (metrics_table w !! session_id);
    eexists; eexists; reflexivity.
Qed.

Lemma get_summary_handler_missing (TRACKER : SessionTracker)
    (session_id : string) (w : World) :
  sessions w !! session_id = None ->
  _get_summary TRACKER session_id w
  = (Return
       (Some (_send_error HTTP_NOT_FOUND (not_found_message session_id) [])),
     w).
Proof.
  intros Hs. unfold _get_summary.
  rewrite bind_run, try_except_run, bind_run.
  rewrite (get_summary_missing_run _ _ _ Hs). reflexivity.
Qed.

Lemma get_summary_handler_found (TRACKER : SessionTracker)
    (session_id : string) (w : World) (s : SessionRecord.t) :
  sessions w !! session_id = Some s ->
  exists summary w1,
    get_summary TRACKER session_id w = (Return summary, w1)
    /\ _get_summary TRACKER session_id w
       = (Return (Some (_send_json (SummaryBody summary) HTTP_OK)), w1).
Proof.
  intros Hs.
  destruct (get_summary_returns TRACKER session_id w s Hs)
    as (summary & w1 & Hrun).
  exists summary, w1. split; [exact Hrun |].
  unfold _get_summary. rewrite bind_run, try_except_run, bind_run, Hrun.
  reflexivity.
Qed.

Lemma get_summary_well_behaved (TRACKER : SessionTracker)
    (session_id : string) :
  well_behaved (_get_summary TRACKER session_id).
Proof.
  intros w out w' Hrun.
  destruct (sessions w !! session_id) as [s |] eqn:Hs.
  - destruct (get_summary_handler_found TRACKER session_id w s Hs)
      as (summary & w1 & _ & Hh).
    rewrite Hh in Hrun. settle Hrun.
  - rewrite (get_summary_handler_missing _ _ _ Hs) in Hrun. settle Hrun.
Qed.

(** *** GET /sessions/{id} *)

Lemma get_buffer_returns (TRACKER : SessionTracker) (session_id : string)
    (w : World) (s : SessionRecord.t) :
  sessions w !! session_id = Some s ->
  exists buffer w1,
    get_buffer TRACKER session_id w = (Return buffer, w1)
    /\ sessions w1 = sessions w
    /\ messages w1 = messages w
    /\ metrics_table w1 = metrics_table w.
Proof.
  intros Hs. rewrite get_buffer_run, Hs.
  destruct (buffers w !! session_id); eexists; eexists;
    (split; [reflexivity | split; [reflexivity | split; reflexivity]]).
Qed.

Lemma retrieve_session_handler_missing (TRACKER : SessionTracker)
    (session_id : string) (w : World) :
  sessions w !! session_id = None ->
  _retrieve_session TRACKER session_id w
  = (Return
       (Some (_send_error HTTP_NOT_FOUND (not_found_message session_id) [])),
     w).
Proof.
  intros Hs. unfold _retrieve_session.
  rewrite bind_run, try_except_run, bind_run, get_session_run, Hs.
  reflexivity.
Qed.

Lemma retrieve_session_handler_found (TRACKER : SessionTracker)
    (session_id : string) (w : World) (s : SessionRecord.t) :
  sessions w !! session_id = Some s ->
  exists buffer w1,
    get_buffer TRACKER session_id w = (Return buffer, w1)
    /\ _retrieve_session TRACKER session_id w
       = (Return
            (Some
               (_send_json
                  (SessionBody s buffer (metrics_table w !! session_id))
                  HTTP_OK)),
          w1).
Proof.
  intros Hs.
  destruct (get_buffer_returns TRACKER session_id w s Hs)
    as (buffer & w1 & Hbuf & _ & _ & Hm).
  exists buffer, w1. split; [exact Hbuf |].
  unfold _retrieve_session.
  rewrite bind_run, try_except_run, bind_run, get_session_run, Hs.
  rewrite bind_run, Hbuf. rewrite bind_run. unfold storage_get_metrics.
  rewrite Hm. reflexivity.
Qed.

Lemma retrieve_session_well_behaved (TRACKER : SessionTracker)
    (session_id : string) :
  well_behaved (_retrieve_session TRACKER session_id).
Proof.
  intros w out w' Hrun.
  destruct (sessions w !! session_id) as [s |] eqn:Hs.
  - destruct (retrieve_session_handler_found TRACKER session_id w s Hs)
      as (buffer & w1 & _ & Hh).
    rewrite Hh in Hrun. settle Hrun.
  - rewrite (retrieve_session_handler_missing _ _ _ Hs) in Hrun.
    settle Hrun.
Qed.

(** *** GET /sessions *)

Lemma list_sessions_well_behaved
    (SessionStatus_of_value : string -> option SessionStatus)
    (req : request) :
  well_behaved (_list_sessions SessionStatus_of_value req).
Proof.
  intros w out w' Hrun. unfold _list_sessions in Hrun.
  destruct (truthy (dict_get (req_query req) "status")).
  - destruct (SessionStatus_of_value _); settle Hrun.
  - settle Hrun.
Qed.

(** *** POST /sessions/{id}/messages *)

Lemma append_message_handler_parsed (utc_now_at : nat -> Z)
    (TRACKER : SessionTracker)
    (SenderRole_of_value : string -> option SenderRole) (req : request)
    (session_id : string) (fields : payload) (sender : SenderRole)
    (w : World) :
  req_body req = BodyJson (JsonObject fields) ->
  truthy (p_sender fields) = true ->
  truthy (p_content fields) = true ->
  SenderRole_of_value (default "" (p_sender fields)) = Some sender ->
  _append_message utc_now_at TRACKER SenderRole_of_value req session_id w
  = match
      append_message utc_now_at TRACKER session_id sender
        (default "" (p_content fields)) w
    with
    | (Return result, w1) =>
        (Return (Some (_send_json (AppendBody result) HTTP_CREATED)), w1)
    | (Raise e, w1) =>
        match exc_kind e with
        | SessionNotFound =>
            (Return (Some (_send_error HTTP_NOT_FOUND (exc_msg e) [])), w1)
        | SessionClosed =>
            (Return (Some (_send_error HTTP_CONFLICT (exc_msg e) [])), w1)
        | _ => (Raise e, w1)
        end
    end.
Proof.
  intros Hbody Hsender Hcontent Hrole. unfold _append_message.
  rewrite bind_run. unfold lift. rewrite Hbody. cbn [_read_json].
  rewrite Hsender, Hcontent. cbn [negb orb]. rewrite Hrole.
  rewrite bind_run, try_except_run, bind_run.
  destruct (append_message utc_now_at TRACKER session_id sender
              (default "" (p_content fields)) w) as [[result | e] w1].
  - reflexivity.
  - destruct e as [kind msg]. destruct kind; reflexivity.
Qed.

Lemma append_message_handler_cases (utc_now_at : nat -> Z)
    (TRACKER : SessionTracker)
    (SenderRole_of_value : string -> option SenderRole) (req : request)
    (session_id : string) (fields : payload) (sender : SenderRole)
    (w : World) :
  req_body req = BodyJson (JsonObject fields) ->
  truthy (p_sender fields) = true ->
  truthy (p_content fields) = true ->
  SenderRole_of_value (default "" (p_sender fields)) = Some sender ->
  (sessions w !! session_id = None ->
   _append_message utc_now_at TRACKER SenderRole_of_value req session_id w
   = (Return
        (Some (_send_error HTTP_NOT_FOUND (not_found_message session_id) [])),
      w))
  /\ (forall s,
        sessions w !! session_id = Some s ->
        SessionRecord.status s = ENDED ->
        _append_message utc_now_at TRACKER SenderRole_of_value req session_id
          w
        = (Return
             (Some
                (_send_error HTTP_CONFLICT (not_active_message session_id)
                   [])),
           w))
  /\ (forall s,
        sessions w !! session_id = Some s ->
        SessionRecord.status s = ACTIVE ->
        exists result w1,
          append_message utc_now_at TRACKER session_id sender
            (default "" (p_content fields)) w
          = (Return result, w1)
          /\ _append_message utc_now_at TRACKER SenderRole_of_value req
               session_id w
             = (Return (Some (_send_json (AppendBody result) HTTP_CREATED)),
                w1)).
Proof.
  intros Hbody Hsender Hcontent Hrole.
  pose proof (append_message_handler_parsed utc_now_at TRACKER
                SenderRole_of_value req session_id fields sender w Hbody
                Hsender Hcontent Hrole) as Hparsed.
  split; [| split].
  - intros Hs. rewrite Hparsed.
    rewrite (append_message_missing_run _ _ _ _ _ _ Hs). reflexivity.
  - intros s Hs Hended. rewrite Hparsed.
    rewrite (append_message_inactive_run _ _ _ _ _ _ s Hs Hended).
    reflexivity.
  - intros s Hs Hactive.
    destruct (append_message_active_run utc_now_at TRACKER session_id sender
                (default "" (p_content fields)) w s Hs Hactive)
      as (a & _ & Hrun).
    eexists. eexists. split; [exact Hrun |].
    rewrite Hparsed, Hrun. reflexivity.
Qed.

Lemma append_message_well_behaved (utc_now_at : nat -> Z)
    (TRACKER : SessionTracker)
    (SenderRole_of_value : string -> option SenderRole) (req : request)
    (session_id : string) :
  well_behaved
    (_append_message utc_now_at TRACKER SenderRole_of_value req session_id).
Proof.
  intros w out w' Hrun.
  destruct (req_body req) as [| | | [| fields |]] eqn:Hbody;
    try (unfold _append_message in Hrun; rewrite bind_run in Hrun;
         unfold lift in Hrun; rewrite Hbody in Hrun; settle Hrun).
  destruct (truthy (p_sender fields)) eqn:Hsender;
    [destruct (truthy (p_content fields)) eqn:Hcontent;
     [destruct (SenderRole_of_value (default "" (p_sender fields)))
        as [sender |] eqn:Hrole |] |];
    try (unfold _append_message in Hrun; rewrite bind_run in Hrun;
         unfold lift in Hrun; rewrite Hbody in Hrun;
         cbn [_read_json] in Hrun;
         rewrite ?Hsender, ?Hcontent in Hrun; cbn [negb orb] in Hrun;
         rewrite ?Hrole in Hrun; settle Hrun).
  destruct (append_message_handler_cases utc_now_at TRACKER
              SenderRole_of_value req session_id fields sender w Hbody
              Hsender Hcontent Hrole) as (Hmissing & Hended & Hactive).
  destruct (sessions w !! session_id) as [s |] eqn:Hs.
  - destruct (SessionRecord.status s) eqn:Hstatus.
    + destruct (Hactive s eq_refl Hstatus) as (result & w1 & _ & Hh).
      rewrite Hh in Hrun. settle Hrun.
    + rewrite (Hended s eq_refl Hstatus) in Hrun. settle Hrun.
  - rewrite (Hmissing eq_refl) in Hrun. settle Hrun.
Qed.

(** *** POST /sessions *)

Lemma create_session_handler_run (utc_now_at : nat -> Z)
    (uuid4_at : nat -> string) (TRACKER : SessionTracker) (req : request)
    (fields : payload) (w : World) :
  req_body req = BodyJson (JsonObject fields) ->
  truthy (p_user_id fields) = true ->
  exists session w1,
    create_session utc_now_at uuid4_at TRACKER
      (default "" (p_user_id fields)) (default [] (p_metadata fields)) w
    = (Return session, w1)
    /\ _create_session utc_now_at uuid4_at TRACKER req w
       = (Return
            (Some
               (_send_json
                  (CreatedBody session
                     (BufferSnapshot.mk (SessionRecord.id session) []
                        (buffer_size TRACKER)))
                  HTTP_CREATED)),
          w1)
    /\ sessions w1 !! SessionRecord.id session = Some session
    /\ buffers w1 !! SessionRecord.id session
       = Some
           (BufferSnapshot.mk (SessionRecord.id session) []
              (buffer_size TRACKER))
    /\ metrics_table w1 = metrics_table w.
Proof.
  intros Hbody Huser.
  eexists. eexists. split; [apply create_session_run |]. cbn zeta.
  split; [| split; [apply lookup_insert_eq |
                    split; [apply lookup_insert_eq | reflexivity]]].
  unfold _create_session. rewrite bind_run. unfold lift. rewrite Hbody.
  cbn [_read_json]. rewrite Huser. cbn [negb].
  rewrite bind_run, create_session_run. cbv beta iota zeta.
  rewrite bind_run, get_buffer_run. cbn [buffers SessionRecord.id].
  rewrite lookup_insert_eq. reflexivity.
Qed.

Lemma create_session_well_behaved (utc_now_at : nat -> Z)
    (uuid4_at : nat -> string) (TRACKER : SessionTracker) (req : request) :
  well_behaved (_create_session utc_now_at uuid4_at TRACKER req).
Proof.
  intros w out w' Hrun.
  destruct (req_body req) as [| | | [| fields |]] eqn:Hbody;
    try (unfold _create_session in Hrun; rewrite bind_run in Hrun;
         unfold lift in Hrun; rewrite Hbody in Hrun; settle Hrun).
  destruct (truthy (p_user_id fields)) eqn:Huser.
  - destruct (create_session_handler_run utc_now_at uuid4_at TRACKER req
                fields w Hbody Huser) as (session & w1 & _ & Hh & _).
    rewrite Hh in Hrun. settle Hrun.
  - unfold _create_session in Hrun. rewrite bind_run in Hrun.
    unfold lift in Hrun. rewrite Hbody in Hrun. cbn [_read_json] in Hrun.
    rewrite Huser in Hrun. settle Hrun.
Qed.

(** ** The HTTP controller: routing and authentication *)

Lemma ensure_authenticated_cases (AUTH_is_enabled : bool) (req : request) :
  (_ensure_authenticated AUTH_is_enabled req = None
   /\ (AUTH_is_enabled = false \/ req_authenticated req = true))
  \/ (_ensure_authenticated AUTH_is_enabled req = Some unauthorized_response
      /\ AUTH_is_enabled = true /\ req_authenticated req = false).
Proof.
  unfold _ensure_authenticated.
  destruct AUTH_is_enabled, (req_authenticated req); cbn; auto.
Qed.

Lemma rejected_run (utc_now_at : nat -> Z) (uuid4_at : nat -> string)
    (TRACKER : SessionTracker) (AUTH_is_enabled : bool)
    (SenderRole_of_value : string -> option SenderRole)
    (SessionStatus_of_value : string -> option SessionStatus)
    (req : request) (sent : response) (w : World) :
  _ensure_authenticated AUTH_is_enabled req = Some sent ->
  do_POST utc_now_at uuid4_at TRACKER AUTH_is_enabled SenderRole_of_value
    req w
  = (Return (Some sent), w)
  /\ do_GET TRACKER AUTH_is_enabled SessionStatus_of_value req w
     = (Return (Some sent), w).
Proof.
  intros Hauth. unfold do_POST, do_GET.
  destruct (_path_parts (req_path req)) as [path segments].
  rewrite Hauth. split; reflexivity.
Qed.

(** The first test of [do_POST] and [do_GET] holds for the one-segment
    path "/sessions" only. *)
Lemma sessions_route (path : string) :
  String.eqb (fst (_path_parts path)) "/sessions"
  && (length (snd (_path_parts path)) =? 1)%nat
  = bool_decide (snd (_path_parts path) = ["sessions"]).
Proof.
  unfold _path_parts. cbn [fst snd].
  destruct (List.filter _ (split_slash path "")) as [| x [| y rest]].
  - reflexivity.
  - change ("/" +:+ join_slash [x]) with (String "/" x).
    cbn [length Nat.eqb]. rewrite andb_true_r.
    change (String.eqb (String "/" x) "/sessions")
      with (String.eqb x "sessions").
    destruct (String.eqb_spec x "sessions") as [-> | Hne].
    + now rewrite bool_decide_eq_true_2.
    + rewrite bool_decide_eq_false_2; [reflexivity | congruence].
  - cbn [length Nat.eqb]. rewrite andb_false_r.
    now rewrite bool_decide_eq_false_2.
Qed.

Lemma do_POST_run (utc_now_at : nat -> Z) (uuid4_at : nat -> string)
    (TRACKER : SessionTracker) (AUTH_is_enabled : bool)
    (SenderRole_of_value : string -> option SenderRole) (req : request) :
  _ensure_authenticated AUTH_is_enabled req = None ->
  do_POST utc_now_at uuid4_at TRACKER AUTH_is_enabled SenderRole_of_value req
  = let segments := snd (_path_parts (req_path req)) in
    if bool_decide (segments = ["sessions"]) then
      _create_session utc_now_at uuid4_at TRACKER req
    else
      match segments with
      | [first; session_id; third] =>
          if String.eqb first "sessions" then
            if String.eqb third "messages" then
              _append_message utc_now_at TRACKER SenderRole_of_value req
                session_id
            else if String.eqb third "end" then
              _end_session utc_now_at TRACKER session_id
            else ret (Some endpoint_not_found)
          else ret (Some endpoint_not_found)
      | _ => ret (Some endpoint_not_found)
      end.
Proof.
  intros Hauth. unfold do_POST.
  pose proof (sessions_route (req_path req)) as Hroute.
  destruct (_path_parts (req_path req)) as [path segments].
  cbn [fst snd] in Hroute. cbn [snd]. cbn zeta.
  rewrite Hauth, Hroute.
  destruct (bool_decide (segments = ["sessions"])); [reflexivity |].
  destruct segments as [| first [| session_id [| third [| fourth rest]]]];
    try reflexivity.
  cbn [length Nat.eqb]. rewrite !andb_false_l.
  destruct (String.eqb first "sessions"); reflexivity.
Qed.

Lemma do_GET_run (TRACKER : SessionTracker) (AUTH_is_enabled : bool)
    (SessionStatus_of_value : string -> option SessionStatus)
    (req : request) :
  _ensure_authenticated AUTH_is_enabled req = None ->
  do_GET TRACKER AUTH_is_enabled SessionStatus_of_value req
  = let segments := snd (_path_parts (req_path req)) in
    if bool_decide (segments = ["sessions"]) then
      _list_sessions SessionStatus_of_value req
    else
      match segments with
      | [first; session_id] =>
          if String.eqb first "sessions" then
            _retrieve_session TRACKER session_id
          else ret (Some endpoint_not_found)
      | [first; session_id; third] =>
          if String.eqb first "sessions" then
            if String.eqb third "summary" then
              _get_summary TRACKER session_id
            else ret (Some endpoint_not_found)
          else ret (Some endpoint_not_found)
      | _ => ret (Some endpoint_not_found)
      end.
Proof.
  intros Hauth. unfold do_GET.
  pose proof (sessions_route (req_path req)) as Hroute.
  destruct (_path_parts (req_path req)) as [path segments].
  cbn [fst snd] in Hroute. cbn [snd]. cbn zeta.
  rewrite Hauth, Hroute.
  destruct (bool_decide (segments = ["sessions"])); [reflexivity |].
  destruct segments as [| first [| session_id [| third [| fourth rest]]]];
    try reflexivity.
  cbn [length Nat.eqb]. rewrite !andb_false_l.
  destruct (String.eqb first "sessions"); reflexivity.
Qed.

Lemma do_POST_well_behaved (utc_now_at : nat -> Z) (uuid4_at : nat -> string)
    (TRACKER : SessionTracker) (AUTH_is_enabled : bool)
    (SenderRole_of_value : string -> option SenderRole) (req : request) :
  _ensure_authenticated AUTH_is_enabled req = None ->
  well_behaved
    (do_POST utc_now_at uuid4_at TRACKER AUTH_is_enabled SenderRole_of_value
       req).
Proof.
  intros Hauth. rewrite (do_POST_run _ _ _ _ _ _ Hauth). cbn zeta.
  destruct (bool_decide _); [apply create_session_well_behaved |].
  destruct (snd (_path_parts (req_path req)))
    as [| first [| session_id [| third [| fourth rest]]]];
    try (apply ret_error_well_behaved; auto).
  destruct (String.eqb first "sessions");
    [| apply ret_error_well_behaved; auto].
  destruct (String.eqb third "messages");
    [apply append_message_well_behaved |].
  destruct (String.eqb third "end");
    [apply end_session_well_behaved | apply ret_error_well_behaved; auto].
Qed.

Lemma do_GET_well_behaved (TRACKER : SessionTracker) (AUTH_is_enabled : bool)
    (SessionStatus_of_value : string -> option SessionStatus)
    (req : request) :
  _ensure_authenticated AUTH_is_enabled req = None ->
  well_behaved (do_GET TRACKER AUTH_is_enabled SessionStatus_of_value req).
Proof.
  intros Hauth. rewrite (do_GET_run _ _ _ _ Hauth). cbn zeta.
  destruct (bool_decide _); [apply list_sessions_well_behaved |].
  destruct (snd (_path_parts (req_path req)))
    as [| first [| session_id [| third [| fourth rest]]]];
    try (apply ret_error_well_behaved; auto).
  - destruct (String.eqb first "sessions");
      [apply retrieve_session_well_behaved
      | apply ret_error_well_behaved; auto].
  - destruct (String.eqb first "sessions");
      [| apply ret_error_well_behaved; auto].
    destruct (String.eqb third "summary");
      [apply get_summary_well_behaved | apply ret_error_well_behaved; auto].
Qed.

(** X24.  With authentication enabled, a POST or a GET that the
    authenticator does not accept is answered by 401 with the
    WWW-Authenticate header as soon as [urlparse] parses its target,
    whatever the path, the query and the body, and the world is the one
    the request arrived in.  When [urlparse] rejects the target,
    [_path_parts] raises before the check is made: the handler sends
    nothing, no 401 either, and the world is unchanged. *)
Theorem unauthenticated_requests_are_rejected (utc_now_at : nat -> Z)
    (uuid4_at : nat -> string) (TRACKER : SessionTracker)
    (SenderRole_of_value : string -> option SenderRole)
    (SessionStatus_of_value : string -> option SessionStatus)
    (urlparse : string -> outcome parsed_url)
    (parse_qs : string -> list (string * string)) (self : connection)
    (w : World) :
  self_authenticated self = false ->
  let post :=
    Wire.do_POST utc_now_at uuid4_at TRACKER true SenderRole_of_value
      urlparse parse_qs self w in
  let get :=
    Wire.do_GET TRACKER true SessionStatus_of_value urlparse parse_qs self w in
  match urlparse (self_path self) with
  | Return _ =>
      post = (Return (Some unauthorized_response), w)
      /\ get = (Return (Some unauthorized_response), w)
  | Raise exc => post = (Raise exc, w) /\ get = (Raise exc, w)
  end.
Proof.
  intros Hself post get. subst post get. unfold Wire.do_POST, Wire.do_GET.
  destruct (urlparse (self_path self)) as [parsed | exc];
    [| split; reflexivity].
  apply rejected_run.
  unfold _ensure_authenticated, Wire.request_of. cbn [req_authenticated].
  rewrite Hself. reflexivity.
Qed.

Lemma unauthenticated_requests_are_rejected_witness :
  Wire.do_POST demo_clock demo_uuid default_tracker true demo_sender_role
    demo_urlparse demo_parse_qs
    (mk_connection "/sessions" false (req_body (create_request false)))
    empty_world
  = (Return (Some unauthorized_response), empty_world)
  /\ Wire.do_GET default_tracker true demo_session_status demo_urlparse
       demo_parse_qs
       (mk_connection "/sessions" false (req_body (create_request false)))
       empty_world
     = (Return (Some unauthorized_response), empty_world).
Proof.
  apply (unauthenticated_requests_are_rejected demo_clock demo_uuid
           default_tracker demo_sender_role demo_session_status demo_urlparse
           demo_parse_qs
           (mk_connection "/sessions" false (req_body (create_request false)))
           empty_world).
  reflexivity.
Defined.

Example bad_target_raises_before_the_check :
  Wire.do_POST demo_clock demo_uuid default_tracker true demo_sender_role
    demo_urlparse demo_parse_qs
    (mk_connection "http://[" false (req_body (create_request false)))
    empty_world
  = (Raise (mk_exc ValueError "Invalid IPv6 URL"), empty_world).
Proof. reflexivity. Qed.

(** X25.  Every response of [do_POST] and [do_GET] is either the 401 of
    the authentication check, sent exactly when authentication is enabled
    and the request is not accepted, or a response without extra header
    whose body goes with its status: an error body carries the same
    status code, which is 400, 404 or 409; a created session and an
    appended message come with 201; a session list, a session and a
    summary come with 200. *)
Theorem responses_are_well_formed (utc_now_at : nat -> Z)
    (uuid4_at : nat -> string) (TRACKER : SessionTracker)
    (AUTH_is_enabled : bool)
    (SenderRole_of_value : string -> option SenderRole)
    (SessionStatus_of_value : string -> option SessionStatus)
    (req : request) (w w' : World) (r : response) :
  do_POST utc_now_at uuid4_at TRACKER AUTH_is_enabled SenderRole_of_value
    req w
  = (Return (Some r), w')
  \/ do_GET TRACKER AUTH_is_enabled SessionStatus_of_value req w
     = (Return (Some r), w') ->
  (r = unauthorized_response
   /\ AUTH_is_enabled = true /\ req_authenticated req = false)
  \/ (handler_response r
      /\ (AUTH_is_enabled = false \/ req_authenticated req = true)).
Proof.
  intros Hrun.
  destruct (ensure_authenticated_cases AUTH_is_enabled req)
    as [[Hauth Hwhy] | [Hauth Hwhy]].
  - right. split; [| exact Hwhy].
    destruct Hrun as [Hrun | Hrun].
    + apply (do_POST_well_behaved utc_now_at uuid4_at TRACKER AUTH_is_enabled
               SenderRole_of_value req Hauth w (Return (Some r)) w' Hrun).
    + apply (do_GET_well_behaved TRACKER AUTH_is_enabled
               SessionStatus_of_value req Hauth w (Return (Some r)) w' Hrun).
  - left. split; [| exact Hwhy].
    destruct (rejected_run utc_now_at uuid4_at TRACKER AUTH_is_enabled
                SenderRole_of_value SessionStatus_of_value req
                unauthorized_response w Hauth) as [Hpost Hget].
    destruct Hrun as [Hrun | Hrun]; congruence.
Qed.

Lemma responses_are_well_formed_witness :
  (endpoint_not_found = unauthorized_response /\ false = true /\ true = false)
  \/ (handler_response endpoint_not_found /\ (false = false \/ true = true)).
Proof.
  apply (responses_are_well_formed demo_clock demo_uuid default_tracker false
           demo_sender_role demo_session_status (bare_request "/health")
           empty_world empty_world endpoint_not_found).
  right. reflexivity.
Defined.



(** X27.  A request that is refused leaves no trace in the tracker:
    whenever [do_POST] or [do_GET] sends a response other than 200 and
    201, or returns without sending one, the world is the one the
    request arrived in. *)
Theorem failed_requests_change_nothing (utc_now_at : nat -> Z)
    (uuid4_at : nat -> string) (TRACKER : SessionTracker)
    (AUTH_is_enabled : bool)
    (SenderRole_of_value : string -> option SenderRole)
    (SessionStatus_of_value : string -> option SessionStatus)
    (req : request) (w w' : World) (sent : option response) :
  do_POST utc_now_at uuid4_at TRACKER AUTH_is_enabled SenderRole_of_value
    req w
  = (Return sent, w')
  \/ do_GET TRACKER AUTH_is_enabled SessionStatus_of_value req w
     = (Return sent, w') ->
  (forall r, sent = Some r -> is_success r = false) ->
  w' = w.
Proof.
  intros Hrun Hfail.
  destruct (ensure_authenticated_cases AUTH_is_enabled req)
    as [[Hauth _] | [Hauth _]].
  - assert (Hwb :
      match sent with
      | Some r => handler_response r /\ (is_success r = false -> w' = w)
      | None => w' = w
      end).
    { destruct Hrun as [Hrun | Hrun].
      - apply (do_POST_well_behaved utc_now_at uuid4_at TRACKER
                 AUTH_is_enabled SenderRole_of_value req Hauth w
                 (Return sent) w' Hrun).
      - apply (do_GET_well_behaved TRACKER AUTH_is_enabled
                 SessionStatus_of_value req Hauth w (Return sent) w' Hrun). }
    destruct sent as [r |]; [| exact Hwb].
    apply Hwb. now apply Hfail.
  - destruct (rejected_run utc_now_at uuid4_at TRACKER AUTH_is_enabled
                SenderRole_of_value SessionStatus_of_value req
                unauthorized_response w Hauth) as [Hpost Hget].
    destruct Hrun as [Hrun | Hrun]; congruence.
Qed.

Lemma failed_requests_change_nothing_witness :
  snd (do_POST demo_clock demo_uuid default_tracker false demo_sender_role
         (message_request "/sessions/s2/messages") demo_world)
  = demo_world.
Proof.
  apply (failed_requests_change_nothing demo_clock demo_uuid default_tracker
           false demo_sender_role demo_session_status
           (message_request "/sessions/s2/messages") demo_world _
           (Some (_send_error HTTP_NOT_FOUND (not_found_message "s2") []))).
  - left. vm_compute. reflexivity.
  - intros r Hr. injection Hr as <-. reflexivity.
Defined.

(** X28.  Routing: an accepted POST whose path is none of /sessions,
    /sessions/{id}/messages and /sessions/{id}/end, and an accepted GET
    whose path is none of /sessions, /sessions/{id} and
    /sessions/{id}/summary, is answered by 404 "Endpoint not found." in
    an unchanged world; empty segments of the path do not count. *)
Theorem unknown_routes_are_not_found (utc_now_at : nat -> Z)
    (uuid4_at : nat -> string) (TRACKER : SessionTracker)
    (AUTH_is_enabled : bool)
    (SenderRole_of_value : string -> option SenderRole)
    (SessionStatus_of_value : string -> option SessionStatus)
    (req : request) (w : World) :
  _ensure_authenticated AUTH_is_enabled req = None ->
  let segments := snd (_path_parts (req_path req)) in
  ((forall session_id,
      segments <> ["sessions"]
      /\ segments <> ["sessions"; session_id; "messages"]
      /\ segments <> ["sessions"; session_id; "end"]) ->
   do_POST utc_now_at uuid4_at TRACKER AUTH_is_enabled SenderRole_of_value
     req w
   = (Return (Some endpoint_not_found), w))
  /\ ((forall session_id,
         segments <> ["sessions"]
         /\ segments <> ["sessions"; session_id]
         /\ segments <> ["sessions"; session_id; "summary"]) ->
      do_GET TRACKER AUTH_is_enabled SessionStatus_of_value req w
      = (Return (Some endpoint_not_found), w)).
Proof.
  intros Hauth segments. split; intros Hnone.
  - rewrite (do_POST_run _ _ _ _ _ _ Hauth). cbn zeta. fold segments.
    rewrite bool_decide_eq_false_2 by apply (Hnone "").
    destruct segments as [| first [| session_id [| third [| fourth rest]]]];
      try reflexivity.
    destruct (Hnone session_id) as (_ & Hmessages & Hend).
    destruct (String.eqb_spec first "sessions") as [-> |]; [| reflexivity].
    destruct (String.eqb_spec third "messages") as [-> |];
      [now contradict Hmessages |].
    destruct (String.eqb_spec third "end") as [-> |];
      [now contradict Hend | reflexivity].
  - rewrite (do_GET_run _ _ _ _ Hauth). cbn zeta. fold segments.
    rewrite bool_decide_eq_false_2 by apply (Hnone "").
    destruct segments as [| first [| session_id [| third [| fourth rest]]]];
      try reflexivity.
    + destruct (Hnone session_id) as (_ & Hsession & _).
      destruct (String.eqb_spec first "sessions") as [-> |];
        [now contradict Hsession | reflexivity].
    + destruct (Hnone session_id) as (_ & _ & Hsummary).
      destruct (String.eqb_spec first "sessions") as [-> |]; [| reflexivity].
      destruct (String.eqb_spec third "summary") as [-> |];
        [now contradict Hsummary | reflexivity].
Qed.

Lemma unknown_routes_are_not_found_witness :
  do_POST demo_clock demo_uuid default_tracker false demo_sender_role
    (bare_request "/sessions/s1/summary") demo_world
  = (Return (Some endpoint_not_found), demo_world).
Proof.
  apply (unknown_routes_are_not_found demo_clock demo_uuid default_tracker
           false demo_sender_role demo_session_status
           (bare_request "/sessions/s1/summary") demo_world).
  - reflexivity.
  - intros session_id. vm_compute. repeat split; discriminate.
Defined.

(** X29.  POST /sessions with a JSON object: without a user_id (absent,
    null or empty) the answer is 400 in an unchanged world; with one, the
    answer is 201 with an ACTIVE session of that user, tier OK, the
    metadata given (none when absent) and an empty buffer of the
    tracker's capacity, and in the world it leaves GET /sessions/{id} of
    the new identity answers 200 with the same session and buffer. *)
Theorem create_endpoint_then_retrieve (utc_now_at : nat -> Z)
    (uuid4_at : nat -> string) (TRACKER : SessionTracker)
    (AUTH_is_enabled : bool)
    (SenderRole_of_value : string -> option SenderRole)
    (SessionStatus_of_value : string -> option SessionStatus)
    (req : request) (fields : payload) (w : World) :
  snd (_path_parts (req_path req)) = ["sessions"] ->
  _ensure_authenticated AUTH_is_enabled req = None ->
  req_body req = BodyJson (JsonObject fields) ->
  let post :=
    do_POST utc_now_at uuid4_at TRACKER AUTH_is_enabled SenderRole_of_value
      req w in
  (truthy (p_user_id fields) = false ->
   post
   = (Return (Some (_send_error HTTP_BAD_REQUEST "'user_id' is required." [])),
      w))
  /\ (truthy (p_user_id fields) = true ->
      exists session w1,
        let buffer :=
          BufferSnapshot.mk (SessionRecord.id session) []
            (buffer_size TRACKER) in
        post
        = (Return (Some (_send_json (CreatedBody session buffer) HTTP_CREATED)),
           w1)
        /\ p_user_id fields = Some (SessionRecord.user_id session)
        /\ SessionRecord.status session = ACTIVE
        /\ SessionRecord.active_risk_tier session = OK
        /\ SessionRecord.metadata session = default [] (p_metadata fields)
        /\ forall get,
             snd (_path_parts (req_path get))
             = ["sessions"; SessionRecord.id session] ->
             _ensure_authenticated AUTH_is_enabled get = None ->
             do_GET TRACKER AUTH_is_enabled SessionStatus_of_value get w1
             = (Return
                  (Some
                     (_send_json
                        (SessionBody session buffer
                           (metrics_table w !! SessionRecord.id session))
                        HTTP_OK)),
                w1)).
Proof.
  intros Hpath Hauth Hbody post. subst post.
  rewrite (do_POST_run _ _ _ _ _ _ Hauth), Hpath. cbn zeta.
  rewrite bool_decide_eq_true_2 by reflexivity.
  split; intros Huser.
  - unfold _create_session. rewrite bind_run. unfold lift. rewrite Hbody.
    cbn [_read_json]. rewrite Huser. reflexivity.
  - destruct (create_session_handler_run utc_now_at uuid4_at TRACKER req
                fields w Hbody Huser)
      as (session & w1 & Hcreate & Hh & Hsession & Hbuffer & Hmetrics).
    exists session, w1. cbn zeta. split; [exact Hh |].
    rewrite create_session_run in Hcreate. cbn zeta in Hcreate.
    assert (Hrecord :
      session
      = SessionRecord.mk (uuid4_at (uuid_reads w))
          (default "" (p_user_id fields)) ACTIVE
          (utc_now_at (clock_reads w)) (utc_now_at (S (clock_reads w))) OK
          (default [] (p_metadata fields))) by congruence.
    split.
    { rewrite Hrecord. cbn [SessionRecord.user_id].
      destruct (p_user_id fields); [reflexivity | discriminate Huser]. }
    split; [rewrite Hrecord; reflexivity |].
    split; [rewrite Hrecord; reflexivity |].
    split; [rewrite Hrecord; reflexivity |].
    intros get Hget Hget_auth.
    rewrite (do_GET_run _ _ _ _ Hget_auth), Hget. cbn zeta.
    rewrite bool_decide_eq_false_2 by discriminate.
    change (String.eqb "sessions" "sessions") with true. cbv iota.
    destruct (retrieve_session_handler_found TRACKER
                (SessionRecord.id session) w1 session Hsession)
      as (buffer & w2 & Hbuf & Hretrieve).
    rewrite get_buffer_run, Hbuffer in Hbuf.
    rewrite Hretrieve, Hmetrics. congruence.
Qed.

Lemma create_endpoint_then_retrieve_witness :
  exists session w1,
    do_POST demo_clock demo_uuid default_tracker false demo_sender_role
      (create_request true) empty_world
    = (Return
         (Some
            (_send_json
               (CreatedBody session
                  (BufferSnapshot.mk (SessionRecord.id session) [] 20))
               HTTP_CREATED)),
       w1)
    /\ SessionRecord.user_id session = "u1"
    /\ SessionRecord.status session = ACTIVE.
Proof.
  destruct
    (proj2
       (create_endpoint_then_retrieve demo_clock demo_uuid default_tracker
          false demo_sender_role demo_session_status (create_request true)
          (mk_payload (Some "u1") None None None) empty_world eq_refl eq_refl
          eq_refl)
       eq_refl)
    as (session & w1 & Hpost & Huser & Hstatus & _).
  exists session, w1. split; [exact Hpost |].
  split; [| exact Hstatus].
  cbn [p_user_id] in Huser. injection Huser as Huser. symmetry. exact Huser.
Defined.

(** X30.  The endpoints of one session: for an identity without session,
    POST /sessions/{id}/end, GET /sessions/{id} and
    GET /sessions/{id}/summary answer 404 with the message of
    SessionNotFound in an unchanged world; for a session that exists they
    answer 200, with the summary that [end_session] and [get_summary]
    return, and with the record, the buffer that [get_buffer] returns and
    the stored metrics. *)
Theorem session_endpoints_status (utc_now_at : nat -> Z)
    (uuid4_at : nat -> string) (TRACKER : SessionTracker)
    (AUTH_is_enabled : bool)
    (SenderRole_of_value : string -> option SenderRole)
    (SessionStatus_of_value : string -> option SessionStatus)
    (req : request) (session_id : string) (w : World) :
  _ensure_authenticated AUTH_is_enabled req = None ->
  let segments := snd (_path_parts (req_path req)) in
  let post :=
    do_POST utc_now_at uuid4_at TRACKER AUTH_is_enabled SenderRole_of_value
      req w in
  let get := do_GET TRACKER AUTH_is_enabled SessionStatus_of_value req w in
  let missing :=
    (Return
       (Some (_send_error HTTP_NOT_FOUND (not_found_message session_id) [])),
     w) in
  (segments = ["sessions"; session_id; "end"] ->
   match sessions w !! session_id with
   | None => post = missing
   | Some _ =>
       exists summary w1,
         end_session utc_now_at TRACKER session_id w = (Return summary, w1)
         /\ post
            = (Return (Some (_send_json (SummaryBody summary) HTTP_OK)), w1)
   end)
  /\ (segments = ["sessions"; session_id; "summary"] ->
      match sessions w !! session_id with
      | None => get = missing
      | Some _ =>
          exists summary w1,
            get_summary TRACKER session_id w = (Return summary, w1)
            /\ get
               = (Return (Some (_send_json (SummaryBody summary) HTTP_OK)),
                  w1)
      end)
  /\ (segments = ["sessions"; session_id] ->
      match sessions w !! session_id with
      | None => get = missing
      | Some s =>
          exists buffer w1,
            get_buffer TRACKER session_id w = (Return buffer, w1)
            /\ get
               = (Return
                    (Some
                       (_send_json
                          (SessionBody s buffer
                             (metrics_table w !! session_id))
                          HTTP_OK)),
                  w1)
      end).
Proof.
  intros Hauth segments post get missing.
  subst segments post get missing. split; [| split]; intros Hpath.
  - rewrite (do_POST_run _ _ _ _ _ _ Hauth), Hpath. cbn zeta.
    rewrite bool_decide_eq_false_2 by discriminate.
    change (String.eqb "sessions" "sessions") with true.
    change (String.eqb "end" "messages") with false.
    change (String.eqb "end" "end") with true. cbv iota.
    destruct (sessions w !! session_id) as [s |] eqn:Hs.
    + apply (end_session_handler_found _ _ _ _ s Hs).
    + apply (end_session_handler_missing _ _ _ _ Hs).
  - rewrite (do_GET_run _ _ _ _ Hauth), Hpath. cbn zeta.
    rewrite bool_decide_eq_false_2 by discriminate.
    change (String.eqb "sessions" "sessions") with true.
    change (String.eqb "summary" "summary") with true. cbv iota.
    destruct (sessions w !! session_id) as [s |] eqn:Hs.
    + apply (get_summary_handler_found _ _ _ s Hs).
    + apply (get_summary_handler_missing _ _ _ Hs).
  - rewrite (do_GET_run _ _ _ _ Hauth), Hpath. cbn zeta.
    rewrite bool_decide_eq_false_2 by discriminate.
    change (String.eqb "sessions" "sessions") with true. cbv iota.
    destruct (sessions w !! session_id) as [s |] eqn:Hs.
    + apply (retrieve_session_handler_found _ _ _ s Hs).
    + apply (retrieve_session_handler_missing _ _ _ Hs).
Qed.

Lemma session_endpoints_status_witness :
  do_GET default_tracker false demo_session_status
    (bare_request "/sessions/s2/summary") demo_world
  = (Return (Some (_send_error HTTP_NOT_FOUND (not_found_message "s2") [])),
     demo_world).
Proof.
  exact
    (proj1
       (proj2
          (session_endpoints_status demo_clock demo_uuid default_tracker false
             demo_sender_role demo_session_status
             (bare_request "/sessions/s2/summary") "s2" demo_world eq_refl))
       eq_refl).
Defined.
